(** * E-commerce platform: payment saga and bearer-token lifecycle

    A shallow embedding of the four Express services (auth, order, payment,
    e-mail), of the shared authentication middleware and of the browser
    client's API layer, followed by the properties of the payment
    orchestration and of the token lifecycle.

    Conventions.
    - [Date.now()] is an integer number of milliseconds ([Z]).
    - JavaScript numbers that carry money are exact rationals ([Q]).
    - An optional / possibly [undefined] JavaScript value is an [option].
    - Network peers, the clock and the random generator are oracles that
      may answer differently on every call: a service asks them with the
      number of calls it has made so far, the browser with the list of
      the requests it has sent.
    - [jsonwebtoken], [axios], [fetch] and [localStorage] are libraries
      of the platform: they are described by their contract.
    - [console.log] / [console.error] have no observable effect and are
      left out, except where evaluating what they print can throw.
    - A string is the sequence of its characters.
    - The tables are those of PostgreSQL: a value is stored as its column
      keeps it, and an insertion that a column or a constraint refuses
      throws. *)

From Stdlib Require Import ZArith QArith Qround Qabs String Ascii List Bool.
From Stdlib Require Import Lia.
From Stdlib Require Import DecimalString DecimalZ Sorted Permutation.
From stdpp Require Import gmap strings.

Import ListNotations.
Local Open Scope string_scope.
Local Open Scope Z_scope.

(* ===================================================================== *)
(** ** Exceptions and effectful handlers                                  *)
(* ===================================================================== *)

(** The result of running a piece of JavaScript: a value or a thrown error
    (of which only [error.message] is ever read). *)
Inductive Outcome (A : Type) : Type :=
| Returned (a : A)
| Thrown (message : string).
Arguments Returned {A} a.
Arguments Thrown {A} message.

(** A handler reads an environment [W] (its oracles) and threads a state
    [S] (the call log, the browser storage). *)
Definition M (W S A : Type) : Type := W -> S -> Outcome A * S.

Definition ret {W S A} (a : A) : M W S A :=
  fun _ s => (Returned a, s).

Definition throw {W S A} (message : string) : M W S A :=
  fun _ s => (Thrown message, s).

Definition bind {W S A B} (m : M W S A) (k : A -> M W S B) : M W S B :=
  fun w s =>
    match m w s with
    | (Returned a, s') => k a w s'
    | (Thrown e, s') => (Thrown e, s')
    end.

Definition asks {W S A} (f : W -> A) : M W S A :=
  fun w s => (Returned (f w), s).

(** [try { m } catch (error) { h error.message }] *)
Definition try_catch {W S A} (m : M W S A) (h : string -> M W S A) : M W S A :=
  fun w s =>
    match m w s with
    | (Returned a, s') => (Returned a, s')
    | (Thrown e, s') => h e w s'
    end.

Declare Scope js_scope.
Delimit Scope js_scope with js.
Notation "x <- m ;; k" := (bind m (fun x => k))
  (at level 100, m at next level, right associativity) : js_scope.
Notation "m ;;; k" := (bind m (fun _ => k))
  (at level 100, right associativity) : js_scope.

(** [`${n}`] for an integer [n]: its decimal digits. *)
Definition decimal (z : Z) : string :=
  NilEmpty.string_of_int (Z.to_int z).

(** [!v] for a possibly undefined string, integer or number. *)
Definition falsy_string (o : option string) : bool :=
  match o with
  | None => true
  | Some s => String.eqb s ""
  end.

Definition falsy_Z (o : option Z) : bool :=
  match o with
  | None => true
  | Some z => z =? 0
  end.

Definition falsy_Q (o : option Q) : bool :=
  match o with
  | None => true
  | Some q => Qeq_bool q 0
  end.

(** An HTTP response: status line and JSON body. *)
Record Response (B : Type) : Type := mkResponse { status : Z; body : B }.
Arguments mkResponse {B} status body.
Arguments status {B} r.
Arguments body {B} r.

(** What [axios.post] does with the peer's answer: it resolves with the
    response, or rejects with an error that carries the response when the
    peer answered with a status outside 2xx, and no response at all when
    the peer could not be reached or the timeout elapsed. *)
Inductive AxiosResult (D E : Type) : Type :=
| Resolved (response : Response D)
| Rejected (response : option (Response E)) (message : string).
Arguments Resolved {D E} response.
Arguments Rejected {D E} response message.

(** A value read off an object: the property may be missing
    ([undefined]), [null], or there. *)
Inductive Field (A : Type) : Type :=
| Undefined
| Null
| Value (a : A).
Arguments Undefined {A}.
Arguments Null {A}.
Arguments Value {A} a.

(** The message of the [TypeError] that reading the property [name] of
    [undefined] or of [null] throws. *)
Definition reading_undefined (name : string) : string :=
  ("Cannot read properties of undefined (reading '" ++ name ++ "')")%string.

Definition reading_null (name : string) : string :=
  ("Cannot read properties of null (reading '" ++ name ++ "')")%string.

(** [CartItem] and the cart, as every service and the client pass them
    around. *)
Record CartItem : Type := mkCartItem {
  item_id : Z;
  item_name : string;
  price : Q;
  quantity : Z
}.

Definition Cart : Type := list CartItem.

(* ===================================================================== *)
(** ** PostgreSQL: what a column keeps                                    *)
(* ===================================================================== *)

Fixpoint spaces (s : string) : bool :=
  match s with
  | EmptyString => true
  | String c s' => Ascii.eqb c " " && spaces s'
  end.

(** Assigning [s] to a column [VARCHAR(n)]: a string of more than [n]
    characters is refused, unless what exceeds [n] is spaces only, which
    are then cut off. *)
Definition varchar (n : nat) (s : string) : option string :=
  if (String.length s <=? n)%nat then Some s
  else if spaces (String.substring n (String.length s - n) s)
       then Some (String.substring 0 n s)
       else None.

(** A column that admits [NULL]. *)
Definition nullable {A} (column : A -> option A) (v : option A)
    : option (option A) :=
  match v with
  | None => Some None
  | Some a => option_map Some (column a)
  end.

(** [INTEGER] *)
Definition integer (z : Z) : option Z :=
  if (-2147483648 <=? z) && (z <=? 2147483647) then Some z else None.

(** Rounding to two decimals, a tie going away from zero; the result
    is in lowest terms. *)
Definition round2 (q : Q) : Q :=
  let cents := Qfloor (Qabs q * 100 + (1 # 2)) in
  Qred ((if Qle_bool 0 q then cents else - cents) # 100).

(** [DECIMAL(10, 2)]: the value is rounded to two decimals and refused
    when eight digits do not hold its integer part. *)
Definition decimal_10_2 (q : Q) : option Q :=
  if Qle_bool 100000000 (Qabs (round2 q)) then None else Some (round2 q).

(** The messages of the errors. *)
Definition double_quote : string := String (ascii_of_nat 34) EmptyString.

Definition quoted (s : string) : string :=
  (double_quote ++ s ++ double_quote)%string.

Definition too_long (n : string) : string :=
  ("value too long for type character varying(" ++ n ++ ")")%string.

Definition out_of_range (z : Z) : string :=
  ("value " ++ quoted (decimal z) ++ " is out of range for type integer")
  %string.

Definition numeric_overflow : string := "numeric field overflow".

Definition duplicate_key (constraint : string) : string :=
  ("duplicate key value violates unique constraint " ++ quoted constraint)
  %string.

Definition foreign_key (table constraint : string) : string :=
  ("insert or update on table " ++ quoted table
     ++ " violates foreign key constraint " ++ quoted constraint)%string.

(** One column of an insertion: the value kept, or the error. *)
Definition keep {A B} (kept : option A) (message : string)
    (rest : A -> Outcome B) : Outcome B :=
  match kept with
  | Some a => rest a
  | None => Thrown message
  end.

(* ===================================================================== *)
(** ** jsonwebtoken: the contract of [jwt.sign] and [jwt.verify]          *)
(* ===================================================================== *)

Module Jwt.

(** The claims of the tokens of this system: what the auth service puts
    in ([userId], [email]) and what [jwt.sign] adds ([iat], and [exp]
    from [expiresIn]); numeric dates are in seconds. *)
Record Payload : Type := mkPayload {
  userId : Z;
  email : string;
  iat : Z;
  exp : Z
}.

(** A string as [jwt.verify] sees it: the compact serialization of a
    token with payload [p] whose signature was computed with [key], or
    a string [s] that has no such reading. A token whose signature has
    been tampered with is one whose [key] is not the secret of the
    verifier. A secret that is not set is the empty string. *)
Inductive Str : Type :=
| Raw (s : string)
| Jws (p : Payload) (key : string).

(** JavaScript truthiness of a possibly undefined string. *)
Definition truthy (t : option Str) : bool :=
  match t with
  | None => false
  | Some (Raw s) => negb (String.eqb s "")
  | Some (Jws _ _) => true
  end.

(** [String(v)], as [localStorage.setItem] applies it to its value. *)
Definition to_String (t : option Str) : Str :=
  match t with
  | None => Raw "undefined"
  | Some s => s
  end.

Inductive Error : Type :=
| TokenExpiredError (message : string) (expiredAt : Z)
| JsonWebTokenError (message : string).

Definition name (e : Error) : string :=
  match e with
  | TokenExpiredError _ _ => "TokenExpiredError"
  | JsonWebTokenError _ => "JsonWebTokenError"
  end.

Definition message (e : Error) : string :=
  match e with
  | TokenExpiredError m _ => m
  | JsonWebTokenError m => m
  end.

(** [Math.floor(Date.now() / 1000)] *)
Definition clockTimestamp (now : Z) : Z := now / 1000.

(** [jwt.sign({userId, email}, secret, {expiresIn})], [expiresIn] in
    seconds; it throws when the secret has no value. *)
Definition sign (uid : Z) (mail : string) (secret : string)
    (expiresIn : Z) (now : Z) : Outcome Str :=
  if String.eqb secret "" then Thrown "secretOrPrivateKey must have a value"
  else
    let t := clockTimestamp now in
    Returned (Jws (mkPayload uid mail t (t + expiresIn)) secret).

(** [jwt.verify(token, secret)]: the structure is checked first, then
    the signature, then the expiry. *)
Definition verify (token : option Str) (secret : string) (now : Z)
    : Payload + Error :=
  match token with
  | None => inr (JsonWebTokenError "jwt must be provided")
  | Some (Raw s) =>
      if String.eqb s "" then inr (JsonWebTokenError "jwt must be provided")
      else inr (JsonWebTokenError "jwt malformed")
  | Some (Jws p key) =>
      if String.eqb secret "" then
        inr (JsonWebTokenError "secret or public key must be provided")
      else if negb (String.eqb key secret) then
        inr (JsonWebTokenError "invalid signature")
      else if exp p <=? clockTimestamp now then
        inr (TokenExpiredError "jwt expired" (exp p * 1000))
      else inl p
  end.

Definition one_hour : Z := 3600.
Definition seven_days : Z := 604800.

End Jwt.

(* ===================================================================== *)
(** ** middleware/auth.js                                                 *)
(* ===================================================================== *)

Module Auth.

(** The body of the responses the middleware sends itself. *)
Record Denial : Type := mkDenial {
  success : bool;
  message : string;
  expired : option bool
}.

(** A middleware either answers the request itself or calls [next()],
    having attached a value to the request. *)
Inductive Verdict (A : Type) : Type :=
| Respond (r : Response Denial)
| Next (a : A).
Arguments Respond {A} r.
Arguments Next {A} a.

(** [token] is the value of [authHeader && authHeader.split(' ')[1]]:
    [None] when there is no Authorization header or no second piece. *)
Definition authenticateToken (JWT_SECRET : string) (now : Z)
    (token : option Jwt.Str) : Verdict Jwt.Payload :=
  if negb (Jwt.truthy token) then
    Respond (mkResponse 401 (mkDenial false "Access token required" None))
  else
    match Jwt.verify token JWT_SECRET now with
    | inl decoded => Next decoded
    | inr error =>
        if String.eqb (Jwt.name error) "TokenExpiredError" then
          Respond (mkResponse 401
                     (mkDenial false "Access token expired" (Some true)))
        else
          Respond (mkResponse 403
                     (mkDenial false "Invalid access token" None))
    end.

(** [optionalAuth]: the request always goes on, with the claims of the
    token as [req.user] when it verifies and [null] ([None]) otherwise. *)
Definition optionalAuth (JWT_SECRET : string) (now : Z)
    (token : option Jwt.Str) : Verdict (option Jwt.Payload) :=
  if negb (Jwt.truthy token) then Next None
  else
    match Jwt.verify token JWT_SECRET now with
    | inl decoded => Next (Some decoded)
    | inr _ => Next None
    end.

(** [apiKey] is [req.headers['x-api-key']]; [SERVICE_API_KEY] is
    [process.env.SERVICE_API_KEY], [None] when it is not set. *)
Definition authenticateService (SERVICE_API_KEY : option string)
    (apiKey : option string) : Verdict unit :=
  match apiKey with
  | None => Respond (mkResponse 401 (mkDenial false "API key required" None))
  | Some k =>
      if String.eqb k "" then
        Respond (mkResponse 401 (mkDenial false "API key required" None))
      else
        match SERVICE_API_KEY with
        | Some k' =>
            if String.eqb k k' then Next tt
            else Respond (mkResponse 403
                            (mkDenial false "Invalid API key" None))
        | None =>
            Respond (mkResponse 403 (mkDenial false "Invalid API key" None))
        end
  end.

End Auth.

(* ===================================================================== *)
(** ** The auth service                                                   *)
(* ===================================================================== *)

Module AuthService.

(** A row of the [users] table. *)
Record User : Type := mkUser {
  id : Z;
  user_email : string;
  password : string   (* the bcrypt hash *)
}.

(** The environment of the service: its configuration, its clock (the
    [k]-th reading of [Date.now()] since the process started), the
    [users] table ([None]: the database cannot be queried) and
    [bcrypt.compare]; and, of the database beneath, the last value the
    sequence behind [id] gave out, and whether the table has the
    constraint [users_email_key]. It has when the database was set up by
    the initialization script of the repository, which declares [email]
    [UNIQUE] and makes the service's own [CREATE TABLE IF NOT EXISTS] do
    nothing; it has not when the service created the table itself. *)
Record World : Type := mkWorld {
  JWT_SECRET : string;
  Date_now : nat -> Z;
  users : option (list User);
  bcrypt_compare : string -> string -> bool;
  users_id_seq : Z;
  users_email_key : bool
}.

(** The state threaded through a handler: how many times the clock has
    been read. *)
Definition Js (A : Type) : Type := M World nat A.

Definition jwt_sign (uid : Z) (mail : string) (expiresIn : Z)
    : Js Jwt.Str :=
  fun w k => (Jwt.sign uid mail (JWT_SECRET w) expiresIn (Date_now w k), S k).

(** [jwt.verify] throws its error. *)
Definition jwt_verify (token : option Jwt.Str) : Js Jwt.Payload :=
  fun w k =>
    match Jwt.verify token (JWT_SECRET w) (Date_now w k) with
    | inl decoded => (Returned decoded, S k)
    | inr error => (Thrown (Jwt.message error), S k)
    end.

(** [SELECT * FROM users WHERE email = $1] *)
Definition select_by_email (mail : string) : Js (list User) :=
  fun w k =>
    match users w with
    | Some rows =>
        (Returned
           (List.filter (fun u => String.eqb (user_email u) mail) rows),
         k)
    | None => (Thrown "connection refused", k)
    end.

Record Tokens : Type := mkTokens {
  accessToken : option Jwt.Str;
  refreshToken : option Jwt.Str
}.

(** The JSON bodies of the service ([AuthResponse] on the client side);
    a field that is not in the object is [None]. *)
Record Body : Type := mkBody {
  success : option bool;
  message : option string;
  data : option Tokens;
  error : option string
}.

(** [app.post("/login")] *)
Definition login (mail pass : string) : Js (Response Body) :=
  try_catch
    (rows <- select_by_email mail ;;
     match rows with
     | [] =>
         ret (mkResponse 401
                (mkBody (Some false) (Some "Invalid email or password")
                   None None))
     | user :: _ =>
         isPasswordValid <-
           asks (fun w => bcrypt_compare w pass (password user)) ;;
         if negb isPasswordValid then
           ret (mkResponse 401
                  (mkBody None None None (Some "Invalid email or password")))
         else
           accessToken <- jwt_sign (id user) (user_email user) Jwt.one_hour ;;
           refreshToken <-
             jwt_sign (id user) (user_email user) Jwt.seven_days ;;
           ret (mkResponse 200
                  (mkBody (Some true) (Some "Login successful")
                     (Some (mkTokens (Some accessToken) (Some refreshToken)))
                     None))
     end)%js
    (fun _ =>
       ret (mkResponse 500
              (mkBody (Some false) (Some "Failed to login user") None None))).

(** [app.post("/refresh-token")]; [refreshToken] is the field of that
    name of the request body. *)
Definition refresh_token (refreshToken : option Jwt.Str)
    : Js (Response Body) :=
  try_catch
    (decoded <- jwt_verify refreshToken ;;
     accessToken <- jwt_sign (Jwt.userId decoded) (Jwt.email decoded)
                      Jwt.one_hour ;;
     ret (mkResponse 200
            (mkBody (Some true) (Some "Token refreshed successfully")
               (Some (mkTokens (Some accessToken) None))
               None)))%js
    (fun _ =>
       ret (mkResponse 500
              (mkBody (Some false) (Some "Failed to refresh token")
                 None None))).


(** [INSERT INTO users (email, password) VALUES ($1, $2)]. The table is
    part of the environment, which the insertion replaces. The default
    of [id] draws the next value of the sequence, which stays drawn when
    the insertion fails; then [email] and [password], both
    [VARCHAR(255)], are assigned; then the primary key is checked, and
    [users_email_key] where the table has it. *)
Definition drawn (w : World) (rows : list User) : World :=
  mkWorld (JWT_SECRET w) (Date_now w) (Some rows) (bcrypt_compare w)
    (users_id_seq w + 1) (users_email_key w).

Definition insert_user (mail hashed : string) (rows : list User)
    (w : World) : Outcome unit * World :=
  let id := users_id_seq w + 1 in
  match
    keep (varchar 255 mail) (too_long "255") (fun email =>
    keep (varchar 255 hashed) (too_long "255") (fun password =>
    Returned (mkUser id email password)))
  with
  | Thrown e => (Thrown e, drawn w rows)
  | Returned row =>
      if existsb (fun u => AuthService.id u =? id) rows then
        (Thrown (duplicate_key "users_pkey"), drawn w rows)
      else if users_email_key w
              && existsb
                   (fun u => String.eqb (user_email u) (user_email row))
                   rows
      then (Thrown (duplicate_key "users_email_key"), drawn w rows)
      else (Returned tt, drawn w (rows ++ [row])%list)
  end.

(** [app.post("/register")]; [bcrypt_hash] is [bcrypt.hash(password,
    10)]. *)
Definition register (bcrypt_hash : string -> string) (mail pass : string)
    (w : World) : Response Body * World :=
  let hashedPassword := bcrypt_hash pass in
  match users w with
  | Some rows =>
      match insert_user mail hashedPassword rows w with
      | (Returned _, w') =>
          (mkResponse 201
             (mkBody (Some true) (Some "User registered successfully")
                None None),
           w')
      | (Thrown _, w') =>
          (mkResponse 500
             (mkBody (Some false) (Some "Failed to register user")
                None None),
           w')
      end
  | None =>
      (mkResponse 500
         (mkBody (Some false) (Some "Failed to register user") None None),
       w)
  end.

(** The body of the answers of [/logout]: the two tokens are [null],
    written [None]. *)
Record LogoutBody : Type := mkLogoutBody {
  logout_success : bool;
  logout_message : string;
  logout_accessToken : option Jwt.Str;
  logout_refreshToken : option Jwt.Str
}.

Definition logged_out : Response LogoutBody :=
  mkResponse 200 (mkLogoutBody true "Logged out successfully" None None).

(** [app.post("/logout")]: the token is verified, when there is one, for
    the sake of the log line only. *)
Definition logout (refreshToken : option Jwt.Str)
    : Js (Response LogoutBody) :=
  try_catch
    (userId <-
       (if Jwt.truthy refreshToken then
          decoded <- jwt_verify refreshToken ;;
          ret (Some (Jwt.userId decoded))
        else ret None) ;;
     ret logged_out)%js
    (fun _ => ret logged_out).

End AuthService.

(* ===================================================================== *)
(** ** The order service                                                  *)
(* ===================================================================== *)

Module OrderService.

(** A row of the [orders] table. Timestamps are instants in
    milliseconds. *)
Record Row : Type := mkRow {
  order_id : string;
  user_id : Z;
  transaction_id : string;
  conversation_id : option string;
  transaction_reference : option string;
  third_party_reference : option string;
  amount : Q;
  cart : Cart;
  customer_phone : option string;
  row_status : string;   (* the column [status] *)
  created_at : Z;
  updated_at : Z
}.

(** The order as the service formats it in its responses. *)
Record Order : Type := mkOrder {
  orderId : string;
  userId : Z;
  transactionId : string;
  conversationId : option string;
  transactionReference : option string;
  thirdPartyReference : option string;
  order_amount : Q;
  order_cart : Cart;
  customerPhone : option string;
  order_status : string;
  createdAt : Z;
  updatedAt : Z
}.

Definition format (row : Row) : Order :=
  mkOrder (order_id row) (user_id row) (transaction_id row)
    (conversation_id row) (transaction_reference row)
    (third_party_reference row) (amount row) (cart row)
    (customer_phone row) (row_status row) (created_at row) (updated_at row).

(** The body of [POST /orders]. *)
Record OrderData : Type := mkOrderData {
  od_userId : option Z;
  od_transactionId : option string;
  od_conversationId : option string;
  od_transactionReference : option string;
  od_thirdPartyReference : option string;
  od_amount : option Q;
  od_cart : option Cart;
  od_customerPhone : option string;
  od_timestamp : option Z
}.

Inductive Body : Type :=
| Created (success : bool) (message : string) (data : Order)
| Listing (success : bool) (count : Z) (data : list Order)
| Single (success : bool) (data : Order)
| Failure (success : bool) (message : string) (error : option string)
| Denied (denial : Auth.Denial).

(** The orders a response body discloses. *)
Definition disclosed (b : Body) : list Order :=
  match b with
  | Created _ _ o => [o]
  | Listing _ _ os => os
  | Single _ o => [o]
  | Failure _ _ _ => []
  | Denied _ => []
  end.

(** [db_error]: the message of the error [client.query] throws, when the
    database fails. [fk_user]: the ids of the rows of [users] when the
    database was set up by the initialization script of the repository,
    whose [orders] table refers to them (constraint [fk_user]) and makes
    the service's own [CREATE TABLE IF NOT EXISTS] do nothing; [None]
    when the service created the table itself, without that
    constraint. *)
Record World : Type := mkWorld {
  JWT_SECRET : string;
  SERVICE_API_KEY : option string;
  Date_now : nat -> Z;
  db_error : option string;
  fk_user : option (list Z)
}.

(** The state: the number of clock readings so far and the table. *)
Record State : Type := mkState {
  reads : nat;
  orders : list Row
}.

Definition Js (A : Type) : Type := M World State A.

Definition now : Js Z :=
  fun w s =>
    (Returned (Date_now w (reads s)), mkState (S (reads s)) (orders s)).

(** [SELECT * FROM orders WHERE ...] *)
Definition select (where_ : Row -> bool) : Js (list Row) :=
  fun w s =>
    match db_error w with
    | Some e => (Thrown e, s)
    | None => (Returned (List.filter where_ (orders s)), s)
    end.

(** The row as the columns of [orders] keep it. [user_id] is an
    [INTEGER], and is read first, when the parameters are bound; the
    strings are [VARCHAR(255)], but for [customer_phone], a
    [VARCHAR(20)], and [status], a [VARCHAR(50)]; [amount] is a
    [DECIMAL(10, 2)]. *)
Definition stored (row : Row) : Outcome Row :=
  keep (integer (user_id row)) (out_of_range (user_id row))
    (fun user_id =>
  keep (varchar 255 (order_id row)) (too_long "255")
    (fun order_id =>
  keep (varchar 255 (transaction_id row)) (too_long "255")
    (fun transaction_id =>
  keep (nullable (varchar 255) (conversation_id row)) (too_long "255")
    (fun conversation_id =>
  keep (nullable (varchar 255) (transaction_reference row)) (too_long "255")
    (fun transaction_reference =>
  keep (nullable (varchar 255) (third_party_reference row)) (too_long "255")
    (fun third_party_reference =>
  keep (decimal_10_2 (amount row)) numeric_overflow
    (fun amount =>
  keep (nullable (varchar 20) (customer_phone row)) (too_long "20")
    (fun customer_phone =>
  keep (varchar 50 (row_status row)) (too_long "50")
    (fun status =>
  Returned
    (mkRow order_id user_id transaction_id conversation_id
       transaction_reference third_party_reference amount (cart row)
       customer_phone status (created_at row) (updated_at row))))))))))).

(** The constraint [fk_user], where the table has it. *)
Definition refers_to_user (referenced : option (list Z)) (row : Row)
    : bool :=
  match referenced with
  | Some ids => existsb (Z.eqb (user_id row)) ids
  | None => true
  end.

(** [INSERT INTO orders ... RETURNING *]: the columns take their values,
    then the unique index on [order_id] is checked, then the foreign
    key. What is returned is the row as it is stored. *)
Definition insert (row : Row) : Js (list Row) :=
  fun w s =>
    match db_error w with
    | Some e => (Thrown e, s)
    | None =>
        match stored row with
        | Thrown e => (Thrown e, s)
        | Returned kept =>
            if existsb (fun r => String.eqb (order_id r) (order_id kept))
                 (orders s)
            then (Thrown (duplicate_key "orders_order_id_key"), s)
            else if negb (refers_to_user (fk_user w) kept)
            then (Thrown (foreign_key "orders" "fk_user"), s)
            else (Returned [kept], mkState (reads s) (orders s ++ [kept])%list)
        end
    end.

Fixpoint insert_desc (r : Row) (l : list Row) : list Row :=
  match l with
  | [] => [r]
  | x :: l' =>
      if created_at x <? created_at r then r :: l
      else x :: insert_desc r l'
  end.

(** [ORDER BY created_at DESC] *)
Definition order_by_created_at_desc (l : list Row) : list Row :=
  fold_right insert_desc [] l.

(** The guard of every user route; the clock reading is the one
    [jwt.verify] compares the expiry with. *)
Definition authenticated (token : option Jwt.Str)
    (handler : Jwt.Payload -> Js (Response Body)) : Js (Response Body) :=
  (t <- now ;;
   secret <- asks JWT_SECRET ;;
   match Auth.authenticateToken secret t token with
   | Auth.Respond r => ret (mkResponse (status r) (Denied (body r)))
   | Auth.Next user => handler user
   end)%js.

(** [apiRouter.post('/orders')] *)
Definition post_orders (apiKey : option string) (req : OrderData)
    : Js (Response Body) :=
  (key <- asks SERVICE_API_KEY ;;
   match Auth.authenticateService key apiKey with
   | Auth.Respond r => ret (mkResponse (status r) (Denied (body r)))
   | Auth.Next _ =>
       try_catch
         (if falsy_Z (od_userId req) || falsy_string (od_transactionId req)
             || falsy_Q (od_amount req)
             || negb (bool_decide (is_Some (od_cart req)))
          then
            ret (mkResponse 400
                   (Failure false "Missing required order fields" None))
          else
            t <- now ;;
            let orderId := ("ORD" ++ decimal t)%string in
            t' <- match od_timestamp req with
                  | Some ts => ret ts
                  | None => now
                  end ;;
            let createdAt := t' in
            rows <- insert
                      (mkRow orderId (default 0 (od_userId req))
                         (default "" (od_transactionId req))
                         (od_conversationId req)
                         (od_transactionReference req)
                         (od_thirdPartyReference req)
                         (default 0%Q (od_amount req))
                         (default [] (od_cart req))
                         (od_customerPhone req) "paid" createdAt createdAt) ;;
            match rows with
            | dbOrder :: _ =>
                ret (mkResponse 201
                       (Created true "Order created successfully"
                          (format dbOrder)))
            | [] => throw (reading_undefined "order_id")
            end)
         (fun e =>
            ret (mkResponse 500
                   (Failure false "Failed to create order" (Some e))))
   end)%js.

(** The application, for a [POST]: the router is mounted under [/api]
    ([app.use('/api', apiRouter)]), and Express answers a request that
    no route serves with 404 and a page of its own, written [None]. A
    route is matched whatever the case of the letters, with or without a
    slash at the end. *)
Definition lower (c : ascii) : ascii :=
  let n := nat_of_ascii c in
  if ((65 <=? n) && (n <=? 90))%nat then ascii_of_nat (n + 32) else c.

Fixpoint toLowerCase (s : string) : string :=
  match s with
  | EmptyString => EmptyString
  | String c s' => String (lower c) (toLowerCase s')
  end.

Definition serves (route path : string) : bool :=
  String.eqb (toLowerCase path) route
  || String.eqb (toLowerCase path) (route ++ "/").

Definition app_post (path : string) (apiKey : option string)
    (req : OrderData) : Js (Response (option Body)) :=
  if serves "/api/orders" path then
    (r <- post_orders apiKey req ;;
     ret (mkResponse (status r) (Some (body r))))%js
  else ret (mkResponse 404 None).

(** [apiRouter.get('/orders')] *)
Definition get_orders (token : option Jwt.Str) : Js (Response Body) :=
  authenticated token (fun user =>
    try_catch
      (rows <- select (fun r => user_id r =? Jwt.userId user) ;;
       let userOrders := List.map format (order_by_created_at_desc rows) in
       ret (mkResponse 200
              (Listing true (Z.of_nat (List.length userOrders)) userOrders)))%js
      (fun e =>
         ret (mkResponse 500
                (Failure false "Failed to fetch orders" (Some e))))).

(** [apiRouter.get('/orders/:orderId')] *)
Definition get_order_by_id (token : option Jwt.Str) (orderId : string)
    : Js (Response Body) :=
  authenticated token (fun user =>
    try_catch
      (rows <- select (fun r => String.eqb (order_id r) orderId
                                 && (user_id r =? Jwt.userId user)) ;;
       match rows with
       | [] => ret (mkResponse 404 (Failure false "Order not found" None))
       | row :: _ => ret (mkResponse 200 (Single true (format row)))
       end)%js
      (fun e =>
         ret (mkResponse 500
                (Failure false "Failed to fetch order" (Some e))))).

(** [apiRouter.get('/orders/transaction/:transactionId')] *)
Definition get_order_by_transaction (token : option Jwt.Str)
    (transactionId : string) : Js (Response Body) :=
  authenticated token (fun user =>
    try_catch
      (rows <- select (fun r => String.eqb (transaction_id r) transactionId
                                 && (user_id r =? Jwt.userId user)) ;;
       match rows with
       | [] => ret (mkResponse 404 (Failure false "Order not found" None))
       | row :: _ => ret (mkResponse 200 (Single true (format row)))
       end)%js
      (fun e =>
         ret (mkResponse 500
                (Failure false "Failed to fetch order" (Some e))))).

End OrderService.

(* ===================================================================== *)
(** ** The payment service                                                *)
(* ===================================================================== *)

Module PaymentService.

(** A JSON value received from the gateway as the body of an error
    response. *)
Inductive Json : Type :=
| JNull
| JText (s : string)
| JObject (fields : list (string * string)).

Definition truthy (j : Json) : bool :=
  match j with
  | JNull => false
  | JText s => negb (String.eqb s "")
  | JObject _ => true
  end.

(** The body of the gateway call. The amount is kept as a number: its
    rendering by [toString()] is not modelled. *)
Record MpesaPayload : Type := mkMpesaPayload {
  input_TransactionReference : string;
  input_CustomerMSISDN : string;
  input_Amount : Q;
  input_ThirdPartyReference : string;
  input_ServiceProviderCode : string
}.

(** The body of the gateway's answer. *)
Record MpesaData : Type := mkMpesaData {
  output_TransactionID : option string;
  output_ConversationID : option string;
  output_ResponseCode : option string;
  output_ResponseDesc : option string
}.

(** What the payment service reads of the order service's answer:
    [response.data.data] and, in it, [orderId]. *)
Record OrderSummary : Type := mkOrderSummary {
  summary_orderId : option string
}.

Record OrderReply : Type := mkOrderReply {
  reply_data : Field OrderSummary
}.

Record EmailRequest : Type := mkEmailRequest {
  email_cart : option Cart;
  email_total : Q;
  email_customerPhone : string
}.

(** The calls a run makes to the outside, in the order it makes them,
    each with the answer it got. *)
Inductive Call : Type :=
| ClockRead (t : Z)
| RandomDraw (u : Q)
| Gateway (payload : MpesaPayload)
    (answer : AxiosResult (option MpesaData) Json)
| OrderStore (apiKey : option string) (order : OrderService.OrderData)
    (answer : AxiosResult (option OrderReply) Json)
| Notification (apiKey : option string) (request : EmailRequest)
    (answer : AxiosResult unit Json).

Definition Log : Type := list Call.

(** The configuration and the oracles. Every oracle is asked with the
    number of calls the process has made to the outside so far, so that
    it may answer differently every time. A body of [None] in a resolved
    gateway answer, and in one of the order service, is the JSON value
    [null]. [toString36] is [Number.prototype.toString(36)]. *)
Record World : Type := mkWorld {
  JWT_SECRET : string;
  SERVICE_API_KEY : option string;
  serviceProviderCode : string;
  Date_now : nat -> Z;
  Math_random : nat -> Q;
  toString36 : Q -> string;
  mpesa : nat -> MpesaPayload -> AxiosResult (option MpesaData) Json;
  order_service :
    nat -> OrderService.OrderData -> AxiosResult (option OrderReply) Json;
  email_service : nat -> EmailRequest -> AxiosResult unit Json
}.

(** The state of the process: the number of calls made and their log. *)
Record State : Type := mkState {
  ticks : nat;
  log : Log
}.

Definition defaultPhone : string := "258845760448".

Definition Js (A : Type) : Type := M World State A.

Definition emit (c : Call) (s : State) : State :=
  mkState (S (ticks s)) (log s ++ [c])%list.

Definition now : Js Z :=
  fun w s =>
    let t := Date_now w (ticks s) in (Returned t, emit (ClockRead t) s).

Definition random : Js Q :=
  fun w s =>
    let u := Math_random w (ticks s) in (Returned u, emit (RandomDraw u) s).

(** The three uses of [axios.post]. *)
Definition post_mpesa (payload : MpesaPayload)
    : Js (AxiosResult (option MpesaData) Json) :=
  fun w s =>
    let answer := mpesa w (ticks s) payload in
    (Returned answer, emit (Gateway payload answer) s).

(** The path [createOrder] posts to, [`${ORDER_SERVICE_URL}/orders`]:
    [base] is the path of [ORDER_SERVICE_URL], which is empty in its
    default [http://localhost:4001]. *)
Definition order_path (base : string) : string := (base ++ "/orders")%string.

Definition post_order (orderData : OrderService.OrderData)
    : Js (AxiosResult (option OrderReply) Json) :=
  fun w s =>
    let answer := order_service w (ticks s) orderData in
    (Returned answer,
     emit (OrderStore (SERVICE_API_KEY w) orderData answer) s).

Definition post_email (request : EmailRequest)
    : Js (AxiosResult unit Json) :=
  fun w s =>
    let answer := email_service w (ticks s) request in
    (Returned answer,
     emit (Notification (SERVICE_API_KEY w) request answer) s).

(** [phone.startsWith('258') ? phone : `258${phone}`] *)
Definition formatPhoneNumber (phone : string) : string :=
  if String.prefix "258" phone then phone else ("258" ++ phone)%string.

(** [`TXN${Date.now()}${Math.floor(Math.random() * 1000)}`] *)
Definition generateTransactionRef : Js string :=
  (t <- now ;;
   u <- random ;;
   ret ("TXN" ++ decimal t ++ decimal (Qfloor (u * 1000)))%string)%js.

Definition upper (c : ascii) : ascii :=
  let n := nat_of_ascii c in
  if ((97 <=? n) && (n <=? 122))%nat then ascii_of_nat (n - 32) else c.

Fixpoint toUpperCase (s : string) : string :=
  match s with
  | EmptyString => EmptyString
  | String c s' => String (upper c) (toUpperCase s')
  end.

(** [Math.random().toString(36).substring(2, 12).toUpperCase()] *)
Definition generateThirdPartyRef : Js string :=
  (u <- random ;;
   render <- asks toString36 ;;
   ret (toUpperCase (String.substring 2 10 (render u))))%js.

(** The object [createOrder] and [sendEmail] return. *)
Record CallResult (D : Type) : Type := mkCallResult {
  call_success : bool;
  call_data : Field D;
  call_error : option string
}.
Arguments mkCallResult {D} call_success call_data call_error.
Arguments call_success {D} c.
Arguments call_data {D} c.
Arguments call_error {D} c.

(** [createOrder]. Its [try] holds the request and the log line that
    reads [response.data.data?.orderId], which throws on a [null] body;
    its [catch] turns every error into [success: false] with the
    message of the error. *)
Definition createOrder (orderData : OrderService.OrderData)
    : Js (CallResult OrderSummary) :=
  (answer <- post_order orderData ;;
   let attempt : CallResult OrderSummary + string :=
     match answer with
     | Resolved response =>
         match body response with
         | Some reply => inl (mkCallResult true (reply_data reply) None)
         | None => inr (reading_null "data")
         end
     | Rejected _ message => inr message
     end in
   match attempt with
   | inl result => ret result
   | inr message => ret (mkCallResult false Undefined (Some message))
   end)%js.

Definition sendEmail (cart : option Cart) (total : Q)
    (customerPhone : string) : Js (CallResult unit) :=
  (answer <- post_email (mkEmailRequest cart total customerPhone) ;;
   match answer with
   | Resolved response =>
       ret (mkCallResult true (Value (body response)) None)
   | Rejected _ message => ret (mkCallResult false Undefined (Some message))
   end)%js.

(** The object [processMpesaPayment] returns. *)
Record MpesaResult : Type := mkMpesaResult {
  success : bool;
  statusCode : Z;
  data : Field MpesaData;
  error : option Json
}.

(** [a || b] on a status code. *)
Definition or_status (a : option Z) (b : Z) : Z :=
  match a with
  | Some z => if z =? 0 then b else z
  | None => b
  end.

(** [error.response?.data || error.message] *)
Definition or_message (a : option Json) (message : string) : Json :=
  match a with
  | Some j => if truthy j then j else JText message
  | None => JText message
  end.

(** [processMpesaPayment]. Its [try] holds the request and the log
    line that reads [response.data.output_ResponseDesc], which throws on
    a [null] body; its one [catch] serves the rejection of [axios.post],
    whose error may carry the gateway's response, and that [TypeError],
    which carries none. *)
Definition processMpesaPayment (amount : Q) (phoneNumber : string)
    (transactionRef thirdPartyRef : string) : Js MpesaResult :=
  (code <- asks serviceProviderCode ;;
   let payload :=
     mkMpesaPayload transactionRef (formatPhoneNumber phoneNumber) amount
       thirdPartyRef code in
   answer <- post_mpesa payload ;;
   let attempt : MpesaResult + (option (Response Json) * string) :=
     match answer with
     | Resolved response =>
         match body response with
         | Some output =>
             inl (mkMpesaResult true (status response) (Value output) None)
         | None => inr (None, reading_null "output_ResponseDesc")
         end
     | Rejected response message => inr (response, message)
     end in
   match attempt with
   | inl result => ret result
   | inr (response, message) =>
       ret (mkMpesaResult false
              (or_status (option_map status response) 500)
              Undefined
              (Some (or_message (option_map body response) message)))
   end)%js.

(** The request body of [POST /api/payment]. *)
Record PaymentRequest : Type := mkPaymentRequest {
  req_cart : option Cart;
  req_total : option Q;
  req_customerPhone : option string
}.

(** The timings, in elapsed milliseconds; their rendering in seconds,
    [(ms / 1000).toFixed(2)] followed by ["s"], is floating-point
    formatting and is not modelled. *)
Record Performance : Type := mkPerformance {
  perf_mpesaPayment : Z;
  perf_orderCreation : Z;
  perf_emailSending : Z;
  perf_total : Z
}.

(** [responseData.data]; a field that is not in the object is [None]. *)
Record PaymentData : Type := mkPaymentData {
  transactionId : option string;
  conversationId : option string;
  responseCode : option string;
  responseDesc : option string;
  transactionReference : string;
  thirdPartyReference : string;
  amount : Q;
  cart : option Cart;
  orderId : option string;
  performance : option Performance
}.

Definition set_orderId (d : PaymentData) (o : option string) : PaymentData :=
  mkPaymentData (transactionId d) (conversationId d) (responseCode d)
    (responseDesc d) (transactionReference d) (thirdPartyReference d)
    (amount d) (cart d) o (performance d).

Definition set_performance (d : PaymentData) (p : Performance)
    : PaymentData :=
  mkPaymentData (transactionId d) (conversationId d) (responseCode d)
    (responseDesc d) (transactionReference d) (thirdPartyReference d)
    (amount d) (cart d) (orderId d) (Some p).

Inductive Body : Type :=
| Paid (success : bool) (message : string) (data : PaymentData)
| Failed (success : bool) (message : string) (error : option Json)
| Denied (denial : Auth.Denial).

(** [!total || total <= 0] *)
Definition invalid_total (total : option Q) : bool :=
  falsy_Q total ||
  match total with
  | Some q => Qle_bool q 0
  | None => false
  end.

(** [customerPhone || MPESA_CONFIG.defaultPhone] *)
Definition or_default_phone (customerPhone : option string) : string :=
  match customerPhone with
  | Some p => if String.eqb p "" then defaultPhone else p
  | None => defaultPhone
  end.

(** [o.name], for the first property read off [o]: reading a property
    of [undefined] or of [null] throws. *)
Definition property_of {D} (name : string) (o : Field D) : Js D :=
  match o with
  | Value d => ret d
  | Undefined => throw (reading_undefined name)
  | Null => throw (reading_null name)
  end.

(** The handler of [apiRouter.post('/payment')], once the middleware has
    attached the claims of the caller's token as [req.user]. The field
    [timestamp] of the order is the instant [new Date()] reads off the
    clock; its rendering by [toISOString()] is not modelled. *)
Definition payment_handler (user : Jwt.Payload) (req : PaymentRequest)
    : Js (Response Body) :=
  (startTime <- now ;;
   try_catch
     (match req_total req with
      | Some total =>
          if invalid_total (req_total req) then
            ret (mkResponse 400
                   (Failed false "Invalid or missing total amount" None))
          else
            let cart := req_cart req in
            let phone := or_default_phone (req_customerPhone req) in
            transactionRef <- generateTransactionRef ;;
            thirdPartyRef <- generateThirdPartyRef ;;
            paymentStart <- now ;;
            result <- processMpesaPayment total phone transactionRef
                        thirdPartyRef ;;
            paymentEnd <- now ;;
            if success result && (statusCode result =? 201) then
              output <- property_of "output_TransactionID" (data result) ;;
              let responseData :=
                mkPaymentData (output_TransactionID output)
                  (output_ConversationID output)
                  (output_ResponseCode output)
                  (output_ResponseDesc output)
                  transactionRef thirdPartyRef total cart None None in
              orderStart <- now ;;
              timestamp <- now ;;
              orderResult <- createOrder
                (OrderService.mkOrderData (Some (Jwt.userId user))
                   (output_TransactionID output)
                   (output_ConversationID output)
                   (Some transactionRef) (Some thirdPartyRef)
                   (Some total) cart (Some phone) (Some timestamp)) ;;
              orderEnd <- now ;;
              responseData <-
                (if call_success orderResult then
                   summary <-
                     property_of "orderId" (call_data orderResult) ;;
                   ret (set_orderId responseData (summary_orderId summary))
                 else ret responseData) ;;
              emailStart <- now ;;
              emailResult <- sendEmail cart total phone ;;
              emailEnd <- now ;;
              finish <- now ;;
              let timings :=
                mkPerformance (paymentEnd - paymentStart)
                  (orderEnd - orderStart) (emailEnd - emailStart)
                  (finish - startTime) in
              ret (mkResponse 200
                     (Paid true "Payment processed successfully"
                        (set_performance responseData timings)))
            else
              ret (mkResponse (or_status (Some (statusCode result)) 500)
                     (Failed false "Payment failed" (error result)))
      | None =>
          ret (mkResponse 400
                 (Failed false "Invalid or missing total amount" None))
      end)
     (fun message =>
        ret (mkResponse 500
               (Failed false "Internal server error"
                  (Some (JText message))))))%js.

(** [apiRouter.post('/payment', authenticateToken, ...)]; the clock
    reading is the one [jwt.verify] compares the expiry with. *)
Definition post_payment (token : option Jwt.Str) (req : PaymentRequest)
    : Js (Response Body) :=
  (t <- now ;;
   secret <- asks JWT_SECRET ;;
   match Auth.authenticateToken secret t token with
   | Auth.Respond r => ret (mkResponse (status r) (Denied (body r)))
   | Auth.Next user => payment_handler user req
   end)%js.

(** The calls of a log to the three collaborators. *)
Definition is_gateway (c : Call) : bool :=
  match c with Gateway _ _ => true | _ => false end.

Definition is_order_store (c : Call) : bool :=
  match c with OrderStore _ _ _ => true | _ => false end.

Definition is_notification (c : Call) : bool :=
  match c with Notification _ _ _ => true | _ => false end.

Definition calls (kind : Call -> bool) (log : Log) : nat :=
  List.length (List.filter kind log).

(** The calls made since the log was [before]. *)
Definition since (before after : Log) : Log :=
  skipn (List.length before) after.

End PaymentService.

(* ===================================================================== *)
(** ** The browser client: lib/api.ts                                     *)
(* ===================================================================== *)

Module Client.

(** What [fetch] resolves with: the status and what [response.json()]
    yields (parsing throws on a body that is not JSON). *)
Record Reply (B : Type) : Type := mkReply {
  reply_status : Z;
  json : Outcome B
}.
Arguments mkReply {B} reply_status json.
Arguments reply_status {B} r.
Arguments json {B} r.

(** [response.ok] *)
Definition ok {B} (r : Reply B) : bool :=
  (200 <=? reply_status r) && (reply_status r <=? 299).

(** The requests the client sends, in the order it sends them. *)
Inductive Call : Type :=
| PostPayment (bearer : Jwt.Str) (request : PaymentService.PaymentRequest)
| PostRefreshToken (refreshToken : Jwt.Str)
| GetOrders (bearer : Jwt.Str)
| GetOrder (bearer : Jwt.Str) (orderId : string).

(** The state of the page: [localStorage] and the requests sent. *)
Record State : Type := mkState {
  localStorage : gmap string Jwt.Str;
  sent : list Call
}.

(** The environment: whether [window] is defined, and the network. A
    [fetch] that rejects is a [Thrown]. *)
Record World : Type := mkWorld {
  window_defined : bool;
  payment_api :
    list Call -> Jwt.Str -> PaymentService.PaymentRequest ->
    Outcome (Reply PaymentService.Body);
  refresh_api :
    list Call -> Jwt.Str -> Outcome (Reply AuthService.Body);
  orders_api :
    list Call -> Jwt.Str -> option string ->
    Outcome (Reply OrderService.Body)
}.

Definition Js (A : Type) : Type := M World State A.

Definition record (c : Call) (s : State) : State :=
  mkState (localStorage s) (sent s ++ [c])%list.

Definition getItem (key : string) : Js (option Jwt.Str) :=
  fun _ s => (Returned (localStorage s !! key), s).

(** [localStorage.setItem(key, value)] stores [String(value)]. *)
Definition setItem (key : string) (value : option Jwt.Str) : Js unit :=
  fun _ s =>
    (Returned tt,
     mkState (<[key := Jwt.to_String value]> (localStorage s)) (sent s)).

Definition getAccessToken : Js (option Jwt.Str) :=
  (w <- asks window_defined ;;
   if w then getItem "accessToken" else ret None)%js.

Definition getRefreshToken : Js (option Jwt.Str) :=
  (w <- asks window_defined ;;
   if w then getItem "refreshToken" else ret None)%js.

Definition saveTokens (accessToken refreshToken : option Jwt.Str)
    : Js unit :=
  (w <- asks window_defined ;;
   if w then
     setItem "accessToken" accessToken ;;;
     setItem "refreshToken" refreshToken
   else ret tt)%js.

Definition removeItem (key : string) : Js unit :=
  fun _ s => (Returned tt, mkState (delete key (localStorage s)) (sent s)).

Definition clearTokens : Js unit :=
  (w <- asks window_defined ;;
   if w then
     removeItem "accessToken" ;;;
     removeItem "refreshToken"
   else ret tt)%js.

(** [await response.json()] *)
Definition parse {B} (r : Reply B) : Js B :=
  fun _ s => (json r, s).

(** [refreshToken(request)]: the request to the refresh endpoint, whose
    answer is parsed whatever its status. *)
Definition refreshToken (token : Jwt.Str) : Js AuthService.Body :=
  fun w s =>
    match refresh_api w (sent s) token with
    | Returned r => (json r, record (PostRefreshToken token) s)
    | Thrown e => (Thrown e, record (PostRefreshToken token) s)
    end.

Definition fetch_payment (bearer : Jwt.Str)
    (request : PaymentService.PaymentRequest)
    : Js (Reply PaymentService.Body) :=
  fun w s =>
    (payment_api w (sent s) bearer request,
     record (PostPayment bearer request) s).

Definition fetch_orders (bearer : Jwt.Str)
    : Js (Reply OrderService.Body) :=
  fun w s => (orders_api w (sent s) bearer None, record (GetOrders bearer) s).

Definition fetch_order (bearer : Jwt.Str) (orderId : string)
    : Js (Reply OrderService.Body) :=
  fun w s =>
    (orders_api w (sent s) bearer (Some orderId),
     record (GetOrder bearer orderId) s).

(** [handleTokenRefresh]; [null] is [None]. *)
Definition handleTokenRefresh : Js (option Jwt.Str) :=
  (refreshTokenValue <- getRefreshToken ;;
   if negb (Jwt.truthy refreshTokenValue) then ret None
   else
     try_catch
       (result <- refreshToken (Jwt.to_String refreshTokenValue) ;;
        match AuthService.success result, AuthService.data result with
        | Some true, Some data =>
            saveTokens (AuthService.accessToken data)
              (AuthService.refreshToken data) ;;;
            ret (AuthService.accessToken data)
        | _, _ => ret None
        end)
       (fun _ => ret None))%js.

(** [data.expired], read off the body of the payment service. *)
Definition expired (b : PaymentService.Body) : bool :=
  match b with
  | PaymentService.Denied d =>
      match Auth.expired d with
      | Some flag => flag
      | None => false
      end
  | _ => false
  end.

Definition processPayment (request : PaymentService.PaymentRequest)
    : Js PaymentService.Body :=
  (accessToken <- getAccessToken ;;
   if negb (Jwt.truthy accessToken) then
     throw "Authentication required. Please login first."
   else
     response <- fetch_payment (Jwt.to_String accessToken) request ;;
     if reply_status response =? 401 then
       data <- parse response ;;
       if expired data then
         newAccessToken <- handleTokenRefresh ;;
         if Jwt.truthy newAccessToken then
           retryResponse <-
             fetch_payment (Jwt.to_String newAccessToken) request ;;
           parse retryResponse
         else throw "Authentication failed. Please login again."
       else throw "Authentication failed. Please login again."
     else if negb (ok response) && negb (reply_status response =? 400) then
       throw "Payment service unavailable"
     else parse response)%js.

Definition getOrders : Js OrderService.Body :=
  (accessToken <- getAccessToken ;;
   if negb (Jwt.truthy accessToken) then
     throw "Authentication required. Please login first."
   else
     response <- fetch_orders (Jwt.to_String accessToken) ;;
     if reply_status response =? 401 then
       newAccessToken <- handleTokenRefresh ;;
       if Jwt.truthy newAccessToken then
         retryResponse <- fetch_orders (Jwt.to_String newAccessToken) ;;
         parse retryResponse
       else throw "Authentication failed. Please login again."
     else parse response)%js.

Definition getOrderById (orderId : string) : Js OrderService.Body :=
  (accessToken <- getAccessToken ;;
   if negb (Jwt.truthy accessToken) then
     throw "Authentication required. Please login first."
   else
     response <- fetch_order (Jwt.to_String accessToken) orderId ;;
     if reply_status response =? 401 then
       newAccessToken <- handleTokenRefresh ;;
       if Jwt.truthy newAccessToken then
         retryResponse <-
           fetch_order (Jwt.to_String newAccessToken) orderId ;;
         parse retryResponse
       else throw "Authentication failed. Please login again."
     else parse response)%js.

Definition is_payment (c : Call) : bool :=
  match c with PostPayment _ _ => true | _ => false end.

Definition is_refresh (c : Call) : bool :=
  match c with PostRefreshToken _ => true | _ => false end.


End Client.

(* ===================================================================== *)
(** ** The browser client: the shop page                                  *)
(* ===================================================================== *)

Module Shop.

Record Product : Type := mkProduct {
  id : Z;
  name : string;
  price : Q;
  image : string;
  description : string
}.

(** [CartItem = Product & { quantity: number }] *)
Record Item : Type := mkItem {
  product : Product;
  quantity : Z
}.

Definition same_id (productId : Z) (item : Item) : bool :=
  id (product item) =? productId.

Definition addToCart (p : Product) (prevCart : list Item) : list Item :=
  match List.find (same_id (id p)) prevCart with
  | Some _ =>
      List.map
        (fun item =>
           if same_id (id p) item
           then mkItem (product item) (quantity item + 1)
           else item)
        prevCart
  | None => (prevCart ++ [mkItem p 1])%list
  end.

Definition removeFromCart (productId : Z) (prevCart : list Item)
    : list Item :=
  List.filter (fun item => negb (same_id productId item)) prevCart.

Definition updateQuantity (productId newQuantity : Z)
    (prevCart : list Item) : list Item :=
  if newQuantity <=? 0 then removeFromCart productId prevCart
  else
    List.map
      (fun item =>
         if same_id productId item
         then mkItem (product item) newQuantity
         else item)
      prevCart.

(** [cart.reduce((total, item) => total + item.price * item.quantity, 0)] *)
Definition getTotal (cart : list Item) : Q :=
  fold_left
    (fun total item =>
       (total + price (product item) * inject_Z (quantity item))%Q)
    cart 0%Q.

Definition getTotalItems (cart : list Item) : Z :=
  fold_left (fun total item => total + quantity item) cart 0.

(** The request [checkout] hands to [processPayment]. *)
Definition payment_request (cart : list Item)
    : PaymentService.PaymentRequest :=
  PaymentService.mkPaymentRequest
    (Some
       (List.map
          (fun item =>
             mkCartItem (id (product item)) (name (product item))
               (price (product item)) (quantity item))
          cart))
    (Some (getTotal cart))
    None.

(** What the page shows in its [alert]; the wording around the figures
    is left out. *)
Inductive Alert : Type :=
| CartEmpty
| PaymentSuccessful (data : PaymentService.PaymentData)
| PaymentFailed (message : string)
| PaymentError (message : string).

(** The part of the page's state [checkout] writes. *)
Record Page : Type := mkPage {
  cart : list Item;
  isCartOpen : bool
}.

Definition checkout (page : Page) : Client.Js (Page * Alert) :=
  match cart page with
  | [] => ret (page, CartEmpty)
  | _ :: _ =>
      try_catch
        (result <- Client.processPayment (payment_request (cart page)) ;;
         match result with
         | PaymentService.Paid true _ data =>
             ret (mkPage [] false, PaymentSuccessful data)
         | PaymentService.Paid false message _ =>
             ret (page, PaymentFailed message)
         | PaymentService.Failed _ message _ =>
             ret (page, PaymentFailed message)
         | PaymentService.Denied denial =>
             ret (page, PaymentFailed (Auth.message denial))
         end)%js
        (fun message => ret (page, PaymentError message))
  end.

End Shop.

(* ===================================================================== *)
(** ** The e-mail service                                                 *)
(* ===================================================================== *)

Module EmailService.

Inductive Body : Type :=
| Sent (message : string)
| Denied (denial : Auth.Denial)
| Uncaught (message : string).

(** [app.post('/send-email', authenticateService, ...)]. [cart.map]
    throws when the body has no [cart], and Express answers an error
    thrown in a handler with status 500. The line the handler writes to
    the console is not modelled. *)
Definition send_email (SERVICE_API_KEY apiKey : option string)
    (request : PaymentService.EmailRequest) : Response Body :=
  match Auth.authenticateService SERVICE_API_KEY apiKey with
  | Auth.Respond r => mkResponse (status r) (Denied (body r))
  | Auth.Next _ =>
      match PaymentService.email_cart request with
      | Some _ => mkResponse 200 (Sent "Email sent successfully")
      | None =>
          mkResponse 500 (Uncaught (reading_undefined "map"))
      end
  end.

End EmailService.

(* ===================================================================== *)
(** ** Vocabulary of the properties                                       *)
(* ===================================================================== *)

(** The three answers of [authenticateToken] that deny a request. *)
Definition denial_expired : Response Auth.Denial :=
  mkResponse 401 (Auth.mkDenial false "Access token expired" (Some true)).

Definition denial_invalid : Response Auth.Denial :=
  mkResponse 403 (Auth.mkDenial false "Invalid access token" None).

Definition denial_missing : Response Auth.Denial :=
  mkResponse 401 (Auth.mkDenial false "Access token required" None).

(** The refresh endpoint granted a new access token for the claims of [p],
    signed with [secret], and no refresh token. *)
Definition grants (secret : string) (p : Jwt.Payload)
    (r : Response AuthService.Body) : Prop :=
  status r = 200 /\
  AuthService.success (body r) = Some true /\
  exists a,
    AuthService.data (body r)
      = Some (AuthService.mkTokens (Some (Jwt.Jws a secret)) None) /\
    Jwt.userId a = Jwt.userId p /\ Jwt.email a = Jwt.email p.

(** The error answer of the refresh endpoint. *)
Definition refresh_failure : Response AuthService.Body :=
  mkResponse 500
    (AuthService.mkBody (Some false) (Some "Failed to refresh token")
       None None).

(** *** Sample environments, on which the properties are exercised *)

Definition sample_claims : Jwt.Payload := Jwt.mkPayload 7 "a@b.c" 5000 609800.

Definition sample_auth_world : AuthService.World :=
  AuthService.mkWorld "k3y" (fun k => 5000000 + 1000 * Z.of_nat k) None
    (fun _ _ => false) 0 false.

(** A payment world whose gateway turns every charge down with status
    422, and one whose gateway accepts every charge with status 201 while
    the order service is out of reach. Their clock advances by one
    millisecond per call. *)
Definition sample_gateway_down : PaymentService.World :=
  PaymentService.mkWorld "k3y" (Some "svc") "171717"
    (fun k => 1700000000000 + Z.of_nat k) (fun _ => 1 # 2)
    (fun _ => "0.i")
    (fun _ _ =>
       Rejected
         (Some (mkResponse 422 (PaymentService.JText "INS-2006")))
         "Request failed with status code 422")
    (fun _ _ => Rejected None "connect ECONNREFUSED")
    (fun _ _ => Rejected None "connect ECONNREFUSED").

Definition sample_orders_down : PaymentService.World :=
  PaymentService.mkWorld "k3y" (Some "svc") "171717"
    (fun k => 1700000000000 + Z.of_nat k) (fun _ => 1 # 2)
    (fun _ => "0.i")
    (fun _ _ =>
       Resolved
         (mkResponse 201
            (Some (PaymentService.mkMpesaData (Some "MP1") (Some "c1")
                     (Some "INS-0") (Some "Request processed successfully")))))
    (fun _ _ => Rejected None "connect ECONNREFUSED")
    (fun _ _ => Resolved (mkResponse 200 tt)).

Definition sample_request (total : Q) : PaymentService.PaymentRequest :=
  PaymentService.mkPaymentRequest
    (Some [mkCartItem 1 "X" 100 2]) (Some total) None.

Definition fresh_process : PaymentService.State :=
  PaymentService.mkState 0 [].

(** The tokens the refresh endpoint's answer hands to the client, when the
    request got an answer that parses and reports success with data. *)
Definition granted_tokens (answer : Outcome (Client.Reply AuthService.Body))
    : option AuthService.Tokens :=
  match answer with
  | Returned reply =>
      match Client.json reply with
      | Returned b =>
          match AuthService.success b, AuthService.data b with
          | Some true, Some tokens => Some tokens
          | _, _ => None
          end
      | Thrown _ => None
      end
  | Thrown _ => None
  end.

(** What the client gets when the network delivers the answer of the auth
    service to a refresh request made with [token]. *)
Definition delivered (aw : AuthService.World) (k : nat) (token : Jwt.Str)
    : Outcome (Client.Reply AuthService.Body) :=
  match AuthService.refresh_token (Some token) aw k with
  | (Returned resp, _) =>
      Returned (Client.mkReply (status resp) (Returned (body resp)))
  | (Thrown e, _) => Thrown e
  end.

Definition authentication_failed : string :=
  "Authentication failed. Please login again.".

(** What [response.json()] of a retried request yields. *)
Definition parsed {B} (answer : Outcome (Client.Reply B)) : Outcome B :=
  match answer with
  | Returned reply => Client.json reply
  | Thrown e => Thrown e
  end.

(** The number of requests of a kind among those sent. *)
Definition sends (kind : Client.Call -> bool) (l : list Client.Call) : nat :=
  List.length (List.filter kind l).

(** The clock reading and the random suffix that a run started in state
    [s] puts in its transaction reference: the run's second reading of the
    clock and its first draw. *)
Definition reference_time (w : PaymentService.World)
    (s : PaymentService.State) : Z :=
  PaymentService.Date_now w (S (PaymentService.ticks s)).

Definition reference_suffix (w : PaymentService.World)
    (s : PaymentService.State) : Z :=
  Qfloor (PaymentService.Math_random w (S (S (PaymentService.ticks s))) * 1000).

(** The uniqueness of the references as the specification words it: of
    two runs of one process, the second started where the first ended,
    that both reach the gateway, the references differ. *)
Definition references_pairwise_distinct : Prop :=
  forall (w : PaymentService.World) (s0 s1 s2 : PaymentService.State)
    (user1 user2 : Jwt.Payload) (req1 req2 : PaymentService.PaymentRequest)
    (resp1 resp2 : Outcome (Response PaymentService.Body))
    (p1 p2 : PaymentService.MpesaPayload)
    (a1 a2 : AxiosResult (option PaymentService.MpesaData)
               PaymentService.Json),
    PaymentService.payment_handler user1 req1 w s0 = (resp1, s1) ->
    PaymentService.payment_handler user2 req2 w s1 = (resp2, s2) ->
    In (PaymentService.Gateway p1 a1)
       (PaymentService.since (PaymentService.log s0) (PaymentService.log s1)) ->
    In (PaymentService.Gateway p2 a2)
       (PaymentService.since (PaymentService.log s1) (PaymentService.log s2)) ->
    PaymentService.input_TransactionReference p1
      <> PaymentService.input_TransactionReference p2.

(** A payment world in which both runs fall in the same millisecond and
    draw the same number. *)
Definition sample_same_millisecond : PaymentService.World :=
  PaymentService.mkWorld "k3y" (Some "svc") "171717"
    (fun _ => 1700000000000) (fun _ => 1 # 2)
    (fun _ => "0.i")
    (fun _ _ =>
       Rejected
         (Some (mkResponse 422 (PaymentService.JText "INS-2006")))
         "Request failed with status code 422")
    (fun _ _ => Rejected None "connect ECONNREFUSED")
    (fun _ _ => Rejected None "connect ECONNREFUSED").

(** An order table with one order of user 7 and one of user 8, and the
    bearer token of user 7. *)
Definition sample_order_world : OrderService.World :=
  OrderService.mkWorld "k3y" (Some "svc") (fun k => 5000000 + Z.of_nat k)
    None None.

Definition sample_row (oid : string) (uid : Z) (tx : string)
    : OrderService.Row :=
  OrderService.mkRow oid uid tx None None None 200 [] None "paid" 0 0.

Definition sample_orders : OrderService.State :=
  OrderService.mkState 0
    [sample_row "ORD1" 7 "MP1"; sample_row "ORD2" 8 "MP2"].

Definition sample_token : Jwt.Str := Jwt.Jws sample_claims "k3y".

(** A browser that holds an access token and the refresh token of user 7,
    in front of a payment service that answers the first request with the
    expiry signal and the next with a failed charge, and of the auth
    service of [sample_auth_world]. *)
Definition sample_client_world : Client.World :=
  Client.mkWorld true
    (fun sent _ _ =>
       match sent with
       | [] =>
           Returned
             (Client.mkReply 401
                (Returned (PaymentService.Denied (body denial_expired))))
       | _ =>
           Returned
             (Client.mkReply 422
                (Returned
                   (PaymentService.Failed false "Payment failed" None)))
       end)
    (fun _ token => delivered sample_auth_world 0 token)
    (fun _ _ _ => Thrown "Failed to fetch").

Definition sample_page : Client.State :=
  Client.mkState
    (<["accessToken" := Jwt.Jws (Jwt.mkPayload 7 "a@b.c" 1000 4600) "k3y"]>
       (<["refreshToken" := sample_token]> ∅))
    [].

(** The account a login with e-mail [mail] is checked against: the first
    row of the table that bears it. *)
Definition account (w : AuthService.World) (mail : string)
    : option AuthService.User :=
  match AuthService.users w with
  | Some rows =>
      List.find (fun u => String.eqb (AuthService.user_email u) mail) rows
  | None => None
  end.

(** The body of a login answer holds an access token and a refresh token
    signed with [secret] for the id and the e-mail of [user], the first
    good for an hour and the second for seven days. *)
Definition holds_tokens_of (secret : string) (user : AuthService.User)
    (b : AuthService.Body) : Prop :=
  exists a r,
    AuthService.data b
      = Some (AuthService.mkTokens (Some (Jwt.Jws a secret))
                (Some (Jwt.Jws r secret))) /\
    Jwt.userId a = AuthService.id user /\
    Jwt.email a = AuthService.user_email user /\
    Jwt.exp a = Jwt.iat a + 3600 /\
    Jwt.userId r = AuthService.id user /\
    Jwt.email r = AuthService.user_email user /\
    Jwt.exp r = Jwt.iat r + 604800.

(** A [bcrypt] that accepts the password [secret7] for its own hash only,
    and an auth service with one registered user. *)
Definition sample_hash (pass : string) : string := ("$2a$10$" ++ pass)%string.

Definition sample_compare (pass hashed : string) : bool :=
  String.eqb hashed (sample_hash pass).

Definition sample_registry : AuthService.World :=
  AuthService.mkWorld "k3y" (fun k => 5000000 + 1000 * Z.of_nat k)
    (Some [AuthService.mkUser 1 "a@b.c" (sample_hash "secret7")])
    sample_compare 1 false.

(** The same service on the database of the initialization script. *)
Definition sample_registry_unique : AuthService.World :=
  AuthService.mkWorld "k3y" (fun k => 5000000 + 1000 * Z.of_nat k)
    (Some [AuthService.mkUser 1 "a@b.c" (sample_hash "secret7")])
    sample_compare 1 true.

(** The required fields of an order are there: [userId], [transactionId],
    [amount] and [cart] are all truthy. *)
Definition complete_order (req : OrderService.OrderData) : bool :=
  negb (falsy_Z (OrderService.od_userId req)
        || falsy_string (OrderService.od_transactionId req)
        || falsy_Q (OrderService.od_amount req)
        || negb (bool_decide (is_Some (OrderService.od_cart req)))).

(** The values the order service hands to the insertion for a complete
    order received in state [s]: the id comes from the clock, the
    creation time from the request or else from the clock. *)
Definition values_row (w : OrderService.World) (s : OrderService.State)
    (req : OrderService.OrderData) : OrderService.Row :=
  let createdAt :=
    match OrderService.od_timestamp req with
    | Some ts => ts
    | None => OrderService.Date_now w (S (OrderService.reads s))
    end in
  OrderService.mkRow
    ("ORD" ++ decimal (OrderService.Date_now w (OrderService.reads s)))%string
    (default 0 (OrderService.od_userId req))
    (default "" (OrderService.od_transactionId req))
    (OrderService.od_conversationId req)
    (OrderService.od_transactionReference req)
    (OrderService.od_thirdPartyReference req)
    (default 0%Q (OrderService.od_amount req))
    (default [] (OrderService.od_cart req))
    (OrderService.od_customerPhone req) "paid" createdAt createdAt.

(** The columns of [orders] take the values of the row. *)
Definition fits (row : OrderService.Row) : bool :=
  match OrderService.stored row with
  | Returned _ => true
  | Thrown _ => false
  end.

(** The row the order service stores for a complete order received in
    state [s]: those values, as the columns keep them. *)
Definition new_row (w : OrderService.World) (s : OrderService.State)
    (req : OrderService.OrderData) : OrderService.Row :=
  match OrderService.stored (values_row w s req) with
  | Returned row => row
  | Thrown _ => values_row w s req
  end.

(** The order id is free in the table. *)
Definition free_id (oid : string) (rows : list OrderService.Row) : bool :=
  negb (existsb (fun r => String.eqb (OrderService.order_id r) oid) rows).

(** An order as the payment service sends it. *)
Definition sample_order (uid : Z) (tx : string) (ts : Z)
    : OrderService.OrderData :=
  OrderService.mkOrderData (Some uid) (Some tx) (Some "c1") (Some "TXN1")
    (Some "ABC") (Some 200%Q) (Some [mkCartItem 1 "X" 100 2])
    (Some "258845760448") (Some ts).

(** An order service whose clock stands still. *)
Definition sample_frozen_orders : OrderService.World :=
  OrderService.mkWorld "k3y" (Some "svc") (fun _ => 5000000) None None.

(** The order service serving creation requests one after the other; the
    result is the list of its answers. *)
Fixpoint post_orders_all (reqs : list (option string * OrderService.OrderData))
    : OrderService.Js (list (Response OrderService.Body)) :=
  match reqs with
  | [] => ret []
  | (apiKey, req) :: rest =>
      (r <- OrderService.post_orders apiKey req ;;
       rs <- post_orders_all rest ;;
       ret (r :: rs))%js
  end.

Definition order_ids (s : OrderService.State) : list string :=
  List.map OrderService.order_id (OrderService.orders s).

(** The answer of a lookup that finds nothing. *)
Definition not_found : Response OrderService.Body :=
  mkResponse 404 (OrderService.Failure false "Order not found" None).

(** The collaborators of the payment service, and those a log shows to
    have been called, in the order of the calls. *)
Inductive Collaborator : Type :=
| TheGateway
| TheOrderStore
| TheNotifier.

Definition collaborator (c : PaymentService.Call) : list Collaborator :=
  match c with
  | PaymentService.Gateway _ _ => [TheGateway]
  | PaymentService.OrderStore _ _ _ => [TheOrderStore]
  | PaymentService.Notification _ _ _ => [TheNotifier]
  | _ => []
  end.

Definition collaborators (l : PaymentService.Log) : list Collaborator :=
  flat_map collaborator l.

(** The world [w] with another e-mail service. *)
Definition with_email_service (w : PaymentService.World)
    (f : nat -> PaymentService.EmailRequest ->
         AxiosResult unit PaymentService.Json)
    : PaymentService.World :=
  PaymentService.mkWorld (PaymentService.JWT_SECRET w)
    (PaymentService.SERVICE_API_KEY w) (PaymentService.serviceProviderCode w)
    (PaymentService.Date_now w) (PaymentService.Math_random w)
    (PaymentService.toString36 w) (PaymentService.mpesa w)
    (PaymentService.order_service w) f.


(** No character of the string is a lower-case letter. *)
Fixpoint no_lowercase (s : string) : bool :=
  match s with
  | EmptyString => true
  | String c s' =>
      negb ((97 <=? nat_of_ascii c)%nat && (nat_of_ascii c <=? 122)%nat)
      && no_lowercase s'
  end.


(** A payment world in which every collaborator answers: the gateway
    accepts the charge, the order service files the order and the e-mail
    service sends the notification. *)
Definition sample_all_up : PaymentService.World :=
  PaymentService.mkWorld "k3y" (Some "svc") "171717"
    (fun k => 1700000000000 + Z.of_nat k) (fun _ => 1 # 2)
    (fun _ => "0.i")
    (fun _ _ =>
       Resolved
         (mkResponse 201
            (Some (PaymentService.mkMpesaData (Some "MP1") (Some "c1")
                     (Some "INS-0") (Some "Request processed successfully")))))
    (fun _ _ =>
       Resolved
         (mkResponse 201
            (Some
               (PaymentService.mkOrderReply
                  (Value
                     (PaymentService.mkOrderSummary (Some "ORD5000000")))))))
    (fun _ _ => Resolved (mkResponse 200 tt)).

(** A payment request that has a total and no cart. *)
Definition sample_request_without_cart : PaymentService.PaymentRequest :=
  PaymentService.mkPaymentRequest None (Some 200%Q) None.

(** What the client throws when it has no access token at hand. *)
Definition authentication_required : string :=
  "Authentication required. Please login first.".

Definition service_unavailable : string := "Payment service unavailable".

(** The answer of the payment service signals expiry: its status is 401
    and its body parses with [expired] set. *)
Definition signals_expiry (reply : Client.Reply PaymentService.Body) : bool :=
  (Client.reply_status reply =? 401) &&
  match Client.json reply with
  | Returned data => Client.expired data
  | Thrown _ => false
  end.

(** The two reads of the orders: the list when [target] is [None], the
    order [target] names otherwise; and the request either sends. *)
Definition read_orders (target : option string)
    : Client.Js OrderService.Body :=
  match target with
  | None => Client.getOrders
  | Some orderId => Client.getOrderById orderId
  end.

Definition read_call (bearer : Jwt.Str) (target : option string)
    : Client.Call :=
  match target with
  | None => Client.GetOrders bearer
  | Some orderId => Client.GetOrder bearer orderId
  end.

(** A browser as [sample_client_world], in front of an order service
    that answers the first request with 401 and the next with an empty
    list. *)
Definition sample_reader_world : Client.World :=
  Client.mkWorld true
    (fun _ _ _ => Thrown "Failed to fetch")
    (fun _ token => delivered sample_auth_world 0 token)
    (fun sent _ _ =>
       match sent with
       | [] =>
           Returned
             (Client.mkReply 401
                (Returned (OrderService.Denied (body denial_expired))))
       | _ =>
           Returned
             (Client.mkReply 200 (Returned (OrderService.Listing true 0 [])))
       end).

(** What the customer does with the cart: the buttons of the page call
    [addToCart], [removeFromCart] and [updateQuantity]. *)
Inductive Click : Type :=
| Add (p : Shop.Product)
| Remove (productId : Z)
| SetQuantity (productId newQuantity : Z).

Definition click (c : Click) (cart : list Shop.Item) : list Shop.Item :=
  match c with
  | Add p => Shop.addToCart p cart
  | Remove productId => Shop.removeFromCart productId cart
  | SetQuantity productId newQuantity =>
      Shop.updateQuantity productId newQuantity cart
  end.

(** The cart after a series of clicks, starting from the empty cart the
    page opens with. *)
Definition shopping (clicks : list Click) : list Shop.Item :=
  fold_left (fun cart c => click c cart) clicks [].

(** The product ids of the lines of a cart. *)
Definition ids (cart : list Shop.Item) : list Z :=
  List.map (fun item => Shop.id (Shop.product item)) cart.

(** Every product the clicks add has a positive price. *)
Definition priced (clicks : list Click) : Prop :=
  forall p, In (Add p) clicks -> (0 < Shop.price p)%Q.

Definition sample_product (i : Z) (cents : Z) : Shop.Product :=
  Shop.mkProduct i "Wireless Mouse" (cents # 100) "" "".

(** A shop page with two lines in its cart. *)
Definition sample_cart : list Shop.Item :=
  [Shop.mkItem (sample_product 1 7999) 2;
   Shop.mkItem (sample_product 6 2999) 1].

(** *** The run of the payment handler, call by call

    A run started in state [s] with a total it accepts reads the clock,
    draws its two references (clock and random number, then random
    number), reads the clock and asks the gateway: the gateway call is
    the run's sixth call to the outside, and the order service's, when
    it comes, the tenth. What follows says what each of the two is
    expected to carry and names the answer it gets. *)
Definition transaction_reference (w : PaymentService.World)
    (s : PaymentService.State) : string :=
  ("TXN" ++ decimal (reference_time w s)
     ++ decimal (reference_suffix w s))%string.

Definition third_party_reference (w : PaymentService.World)
    (s : PaymentService.State) : string :=
  PaymentService.toUpperCase
    (String.substring 2 10
       (PaymentService.toString36 w
          (PaymentService.Math_random w (3 + PaymentService.ticks s)))).



Definition order_sent (w : PaymentService.World)
    (s : PaymentService.State) (user : Jwt.Payload)
    (req : PaymentService.PaymentRequest) (total : Q)
    (output : PaymentService.MpesaData) : OrderService.OrderData :=
  OrderService.mkOrderData (Some (Jwt.userId user))
    (PaymentService.output_TransactionID output)
    (PaymentService.output_ConversationID output)
    (Some (transaction_reference w s)) (Some (third_party_reference w s))
    (Some total) (PaymentService.req_cart req)
    (Some
       (PaymentService.or_default_phone
          (PaymentService.req_customerPhone req)))
    (Some (PaymentService.Date_now w (8 + PaymentService.ticks s))).

Definition order_answer (w : PaymentService.World)
    (s : PaymentService.State) (user : Jwt.Payload)
    (req : PaymentService.PaymentRequest) (total : Q)
    (output : PaymentService.MpesaData)
    : AxiosResult (option PaymentService.OrderReply) PaymentService.Json :=
  PaymentService.order_service w (9 + PaymentService.ticks s)
    (order_sent w s user req total output).

(** The gateway client reports Failure, that is [processMpesaPayment]
    returns [success: false]: the request was rejected, or the body of
    the answer was [null]. *)
Definition reports_failure
    (answer : AxiosResult (option PaymentService.MpesaData)
                PaymentService.Json) : bool :=
  match answer with
  | Resolved r =>
      match body r with
      | Some _ => false
      | None => true
      end
  | Rejected _ _ => true
  end.






(** [result.message], as [checkout] prints it. *)
Definition result_message (result : PaymentService.Body) : string :=
  match result with
  | PaymentService.Paid _ message _ => message
  | PaymentService.Failed _ message _ => message
  | PaymentService.Denied denial => Auth.message denial
  end.

(** The data of a payment that went through, and a browser in front of a
    payment service that answers every request with it. *)
Definition sample_paid : PaymentService.PaymentData :=
  PaymentService.mkPaymentData (Some "MP1") (Some "c1") (Some "INS-0")
    (Some "Request processed successfully") "TXN1700000000001500" "I"
    (18997 # 100) None (Some "ORD5000000") None.

Definition sample_paying_world : Client.World :=
  Client.mkWorld true
    (fun _ _ _ =>
       Returned
         (Client.mkReply 200
            (Returned
               (PaymentService.Paid true "Payment processed successfully"
                  sample_paid))))
    (fun _ token => delivered sample_auth_world 0 token)
    (fun _ _ _ => Thrown "Failed to fetch").

(* ===================================================================== *)
(** ** Token lifecycle                                                    *)
(* ===================================================================== *)

Section TokenLifecycle.

Variable secret : string.
Hypothesis secret_set : secret <> "".

Lemma secret_eqb : String.eqb secret "" = false.
Proof. now apply String.eqb_neq. Qed.

Lemma verify_signed (p : Jwt.Payload) (now : Z) :
  Jwt.verify (Some (Jwt.Jws p secret)) secret now =
    if Jwt.exp p <=? Jwt.clockTimestamp now
    then inr (Jwt.TokenExpiredError "jwt expired" (Jwt.exp p * 1000))
    else inl p.
Proof.
  unfold Jwt.verify. rewrite secret_eqb, String.eqb_refl. reflexivity.
Qed.

Lemma verify_forged (p : Jwt.Payload) (key : string) (now : Z) :
  key <> secret ->
  Jwt.verify (Some (Jwt.Jws p key)) secret now =
    inr (Jwt.JsonWebTokenError "invalid signature").
Proof.
  intros Hkey. unfold Jwt.verify. rewrite secret_eqb.
  apply String.eqb_neq in Hkey. rewrite Hkey. reflexivity.
Qed.

Lemma verify_raw (s : string) (now : Z) :
  exists m, Jwt.verify (Some (Jwt.Raw s)) secret now
            = inr (Jwt.JsonWebTokenError m).
Proof.
  unfold Jwt.verify. destruct (String.eqb s ""); eauto.
Qed.

(** C4. Token verification tells expiry from invalidity. A token signed
    with the service's secret whose expiry has elapsed is answered with
    401 and [expired: true]; a token whose signature was made with
    another key (expired or not) is answered with 403 and no [expired]
    field; a string that is no token is answered with 403, or 401 when
    it is empty, and no [expired] field either. The client's test
    [data.expired] holds for the first answer and fails for the
    others. *)
Theorem C4_expired_is_told_from_invalid
    (now : Z) (p q : Jwt.Payload) (key s : string) :
  Jwt.exp p <= Jwt.clockTimestamp now ->
  key <> secret ->
  Auth.authenticateToken secret now (Some (Jwt.Jws p secret))
    = Auth.Respond denial_expired /\
  Auth.authenticateToken secret now (Some (Jwt.Jws q key))
    = Auth.Respond denial_invalid /\
  (Auth.authenticateToken secret now (Some (Jwt.Raw s))
     = Auth.Respond (if String.eqb s "" then denial_missing
                     else denial_invalid)) /\
  Auth.expired (body denial_expired) = Some true /\
  Auth.expired (body denial_invalid) = None /\
  Auth.expired (body denial_missing) = None /\
  Client.expired (PaymentService.Denied (body denial_expired)) = true /\
  Client.expired (PaymentService.Denied (body denial_invalid)) = false /\
  Client.expired (PaymentService.Denied (body denial_missing)) = false.
Proof.
  intros Hexp Hkey.
  repeat split; try reflexivity.
  - unfold Auth.authenticateToken. cbn [Jwt.truthy negb].
    rewrite verify_signed.
    apply Z.leb_le in Hexp. rewrite Hexp. reflexivity.
  - unfold Auth.authenticateToken. cbn [Jwt.truthy negb].
    rewrite verify_forged by assumption. reflexivity.
  - unfold Auth.authenticateToken, Jwt.truthy, Jwt.verify.
    destruct (String.eqb s ""); reflexivity.
Qed.


End TokenLifecycle.

Lemma C4_witness :
  Auth.authenticateToken "k3y" 5000000
      (Some (Jwt.Jws (Jwt.mkPayload 7 "a@b.c" 1000 4600) "k3y"))
    = Auth.Respond denial_expired /\
  Auth.authenticateToken "k3y" 5000000
      (Some (Jwt.Jws (Jwt.mkPayload 7 "a@b.c" 4000 7600) "forged"))
    = Auth.Respond denial_invalid.
Proof.
  pose proof (C4_expired_is_told_from_invalid "k3y" ltac:(discriminate)
                5000000 (Jwt.mkPayload 7 "a@b.c" 1000 4600)
                (Jwt.mkPayload 7 "a@b.c" 4000 7600) "forged" "junk"
                ltac:(vm_compute; discriminate) ltac:(discriminate)) as H.
  split; [exact (proj1 H) | exact (proj1 (proj2 H))].
Defined.


Section Refresh.

Variable w : AuthService.World.
Variable p : Jwt.Payload.

Hypothesis secret_set : AuthService.JWT_SECRET w <> "".

(** One call of the refresh endpoint, whatever the token. *)
Lemma refresh_token_once (token : option Jwt.Str) (k : nat) :
  match Jwt.verify token (AuthService.JWT_SECRET w)
          (AuthService.Date_now w k) with
  | inl claims =>
      exists r, AuthService.refresh_token token w k = (Returned r, S (S k))
                /\ grants (AuthService.JWT_SECRET w) claims r
  | inr _ =>
      AuthService.refresh_token token w k = (Returned refresh_failure, S k)
  end.
Proof.
  unfold AuthService.refresh_token, try_catch, bind,
    AuthService.jwt_verify, AuthService.jwt_sign in *.
  destruct (Jwt.verify token (AuthService.JWT_SECRET w)
              (AuthService.Date_now w k)) as [claims|err]; [|reflexivity].
  unfold Jwt.sign.
  apply String.eqb_neq in secret_set. rewrite secret_set.
  eexists. split; [reflexivity|].
  unfold grants; cbn. repeat split. eexists. repeat split.
Qed.



End Refresh.


(* ===================================================================== *)
(** ** Order reads are scoped to the caller                               *)
(* ===================================================================== *)

Section OrderReads.

Import OrderService.

Variable w : World.
Variable s : State.
Variable token : option Jwt.Str.
Variable user : Jwt.Payload.

Hypothesis authentic :
  Auth.authenticateToken (JWT_SECRET w) (Date_now w (reads s)) token
    = Auth.Next user.

Lemma authenticated_runs (handler : Jwt.Payload -> Js (Response Body)) :
  authenticated token handler w s
    = handler user w (mkState (S (reads s)) (orders s)).
Proof.
  unfold authenticated, bind, now, asks. cbn. now rewrite authentic.
Qed.

Lemma In_insert_desc (r x : Row) (l : list Row) :
  In x (insert_desc r l) <-> x = r \/ In x l.
Proof.
  induction l as [|y l IH]; cbn.
  - intuition.
  - destruct (created_at y <? created_at r); cbn; [intuition|].
    rewrite IH. intuition.
Qed.

Lemma In_order_by (x : Row) (l : list Row) :
  In x (order_by_created_at_desc l) <-> In x l.
Proof.
  induction l as [|y l IH]; cbn; [tauto|].
  rewrite In_insert_desc, IH. intuition.
Qed.

Lemma get_orders_scoped :
  exists resp s',
    get_orders token w s = (Returned resp, s') /\
    Forall (fun o => userId o = Jwt.userId user) (disclosed (body resp)).
Proof.
  unfold get_orders. rewrite authenticated_runs.
  unfold try_catch, bind, select, ret. cbn.
  destruct (db_error w) as [e|]; cbn.
  - do 2 eexists. split; [reflexivity|]. constructor.
  - do 2 eexists. split; [reflexivity|]. cbn.
    apply List.Forall_forall. intros o Ho.
    apply List.in_map_iff in Ho. destruct Ho as (r & <- & Hr).
    apply In_order_by, List.filter_In in Hr. destruct Hr as [_ Hr].
    cbn. now apply Z.eqb_eq.
Qed.

(** The two lookups share their shape: a selection on a key and on the
    caller's [user_id], then the first row. *)
Lemma lookup_scoped (key : Row -> string) (ident : string)
    (failure : string) :
  let lookup :=
    try_catch
      (rows <- select (fun r => String.eqb (key r) ident
                                 && (user_id r =? Jwt.userId user)) ;;
       match rows with
       | [] => ret (mkResponse 404 (Failure false "Order not found" None))
       | row :: _ => ret (mkResponse 200 (Single true (format row)))
       end)%js
      (fun e => ret (mkResponse 500 (Failure false failure (Some e)))) in
  forall s0,
    exists resp,
      lookup w s0 = (Returned resp, s0) /\
      Forall (fun o => userId o = Jwt.userId user)
        (disclosed (body resp)) /\
      (db_error w = None ->
       (forall r, In r (orders s0) -> key r = ident ->
                  user_id r <> Jwt.userId user) ->
       resp = mkResponse 404 (Failure false "Order not found" None)).
Proof.
  intros lookup s0. unfold lookup, try_catch, bind, select, ret.
  destruct (db_error w) as [e|]; cbn.
  - eexists. split; [reflexivity|]. split; [constructor|]. discriminate.
  - destruct (List.filter _ (orders s0)) as [|row rows] eqn:Hsel.
    + eexists. split; [reflexivity|]. split; [constructor|]. reflexivity.
    + assert (Hrow : In row (row :: rows)) by now left.
      rewrite <- Hsel in Hrow. apply List.filter_In in Hrow.
      destruct Hrow as [Hin Hrow]. apply andb_true_iff in Hrow.
      destruct Hrow as [Hkey Huid].
      apply String.eqb_eq in Hkey. apply Z.eqb_eq in Huid.
      eexists. split; [reflexivity|]. split.
      * cbn. constructor; [exact Huid|constructor].
      * intros _ Hother. exfalso. now apply (Hother row).
Qed.

(** C6. For a caller whose token the middleware accepts, each of the
    three reads (the list, the lookup by order id, the lookup by
    transaction id) answers, and every order in its answer carries the
    caller's [userId]; when the database answers and every row of the
    table that bears the requested identifier belongs to another user,
    the lookup answers 404 [Order not found]. *)
Theorem C6_reads_scoped_to_caller (ident : string) :
  (exists resp s',
     get_orders token w s = (Returned resp, s') /\
     Forall (fun o => userId o = Jwt.userId user) (disclosed (body resp))) /\
  (exists resp s',
     get_order_by_id token ident w s = (Returned resp, s') /\
     Forall (fun o => userId o = Jwt.userId user) (disclosed (body resp)) /\
     (db_error w = None ->
      (forall r, In r (orders s) -> order_id r = ident ->
                 user_id r <> Jwt.userId user) ->
      resp = mkResponse 404 (Failure false "Order not found" None))) /\
  (exists resp s',
     get_order_by_transaction token ident w s = (Returned resp, s') /\
     Forall (fun o => userId o = Jwt.userId user) (disclosed (body resp)) /\
     (db_error w = None ->
      (forall r, In r (orders s) -> transaction_id r = ident ->
                 user_id r <> Jwt.userId user) ->
      resp = mkResponse 404 (Failure false "Order not found" None))).
Proof.
  split; [exact get_orders_scoped|]. split.
  - unfold get_order_by_id. rewrite authenticated_runs.
    destruct (lookup_scoped order_id ident "Failed to fetch order"
                (mkState (S (reads s)) (orders s))) as (resp & H1 & H2 & H3).
    exists resp. eexists. split; [exact H1|]. split; [exact H2|exact H3].
  - unfold get_order_by_transaction. rewrite authenticated_runs.
    destruct (lookup_scoped transaction_id ident "Failed to fetch order"
                (mkState (S (reads s)) (orders s))) as (resp & H1 & H2 & H3).
    exists resp. eexists. split; [exact H1|]. split; [exact H2|exact H3].
Qed.

End OrderReads.

Lemma C6_witness :
  fst (OrderService.get_order_by_id (Some sample_token) "ORD2"
         sample_order_world sample_orders)
    = Returned
        (mkResponse 404 (OrderService.Failure false "Order not found" None)).
Proof.
  destruct (C6_reads_scoped_to_caller sample_order_world sample_orders
              (Some sample_token) sample_claims eq_refl "ORD2")
    as (_ & (resp & s' & Hrun & _ & Hmissing) & _).
  rewrite Hrun. cbn [fst]. f_equal. apply Hmissing; [reflexivity|].
  intros r [<-|[<-|[]]]; cbn; intros Hid Huser; discriminate.
Defined.

Section OrderGuards.

Import OrderService.

Variable w : World.
Variable s : State.

(** A request the middleware turns down is answered by the middleware:
    no order is disclosed. *)
Lemma denied_discloses_nothing (token : option Jwt.Str)
    (r : Response Auth.Denial)
    (handler : Jwt.Payload -> Js (Response Body)) :
  Auth.authenticateToken (JWT_SECRET w) (Date_now w (reads s)) token
    = Auth.Respond r ->
  authenticated token handler w s
    = (Returned (mkResponse (status r) (Denied (body r))),
       mkState (S (reads s)) (orders s)) /\
  disclosed (Denied (body r)) = [].
Proof.
  intros Hdenied. split; [|reflexivity].
  unfold authenticated, bind, now, asks, ret. cbn. now rewrite Hdenied.
Qed.

Lemma authenticateService_codes (key apiKey : option string)
    (r : Response Auth.Denial) :
  Auth.authenticateService key apiKey = Auth.Respond r ->
  status r = 401 \/ status r = 403.
Proof.
  unfold Auth.authenticateService.
  destruct apiKey as [k|]; [|intros [= <-]; now left].
  destruct (String.eqb k ""); [intros [= <-]; now left|].
  destruct key as [k'|]; [|intros [= <-]; now right].
  destruct (String.eqb k k'); [discriminate|intros [= <-]; now right].
Qed.

End OrderGuards.

(* ===================================================================== *)
(** ** The payment saga                                                   *)
(* ===================================================================== *)

Section Saga.

Import PaymentService.

Lemma since_app (before new : Log) :
  since before (before ++ new)%list = new.
Proof. unfold since. induction before; cbn; auto. Qed.

Lemma invalid_total_le (q : Q) :
  (q <= 0)%Q -> invalid_total (Some q) = true.
Proof.
  intros H. unfold invalid_total. apply orb_true_iff. right.
  now apply Qle_bool_iff.
Qed.

(** [a || 500] is [a] for the statuses HTTP has. *)
Lemma or_status_nonzero (a b : Z) : a <> 0 -> or_status (Some a) b = a.
Proof.
  intros H. unfold or_status. apply Z.eqb_neq in H. now rewrite H.
Qed.

(** [(a || 500) || 500] is [a || 500]. *)
Lemma or_status_twice (a : option Z) :
  or_status (Some (or_status a 500)) 500 = or_status a 500.
Proof.
  unfold or_status. destruct a as [z|]; [|reflexivity].
  destruct (z =? 0) eqn:Hz; [reflexivity|]. now rewrite Hz.
Qed.

(** One step of symbolic execution of a run kept in hypothesis [H]. *)
Ltac step_run H :=
  cbv beta iota zeta delta
    [post_payment payment_handler try_catch bind ret throw asks now random
     generateTransactionRef generateThirdPartyRef processMpesaPayment
     createOrder sendEmail post_mpesa post_order post_email property_of
     success statusCode data error call_success call_data call_error
     status body reply_data andb negb emit ticks log] in H.

(** Case analysis on the next answer the run waits for. *)
Ltac case_run H :=
  match type of H with
  | context [match req_total ?r with _ => _ end] =>
      destruct (req_total r) eqn:?
  | context [if invalid_total ?x then _ else _] =>
      destruct (invalid_total x) eqn:?
  | context [match mpesa ?w ?l ?p with _ => _ end] =>
      destruct (mpesa w l p) as [[? [?|]]|? ?] eqn:?
  | context [if (?a =? 201) then _ else _] =>
      destruct (a =? 201) eqn:?
  | context [match order_service ?w ?l ?p with _ => _ end] =>
      destruct (order_service w l p) as [[? [[[| |?]]|]]|? ?] eqn:?
  | context [match email_service ?w ?l ?p with _ => _ end] =>
      destruct (email_service w l p) as [[? ?]|? ?] eqn:?
  end.

Ltac run_all H := step_run H; repeat (case_run H; step_run H).

Ltac flatten_log :=
  cbn [log]; repeat rewrite <- List.app_assoc; cbn [List.app];
  rewrite ?since_app.

(** Which entry of the calls made is the one in hypothesis [H]. *)
Ltac pick_call H :=
  cbn [In] in H;
  repeat (destruct H as [H|H]; [try discriminate H|]);
  try contradiction.

Variable w : World.
Variable s : State.
Variable user : Jwt.Payload.
Variable req : PaymentRequest.

(** C3. A payment request whose total is zero or negative is answered
    with 400 and [success: false]; the run reads the clock once and makes
    no call to the gateway, the order service or the e-mail service. The
    same holds of the whole route, whatever the bearer token: its answer
    is either that of the middleware or the 400. *)
Theorem C3_invalid_total_makes_no_call (q : Q) :
  req_total req = Some q ->
  (q <= 0)%Q ->
  payment_handler user req w s
    = (Returned
         (mkResponse 400
            (Failed false "Invalid or missing total amount" None)),
       emit (ClockRead (Date_now w (ticks s))) s) /\
  forall token,
    exists resp s',
      post_payment token req w s = (Returned resp, s') /\
      calls is_gateway (since (log s) (log s')) = 0%nat /\
      calls is_order_store (since (log s) (log s')) = 0%nat /\
      calls is_notification (since (log s) (log s')) = 0%nat /\
      ((exists d, resp = mkResponse (status resp) (Denied d)) \/
       resp = mkResponse 400
                (Failed false "Invalid or missing total amount" None)).
Proof.
  intros Hq Hle. pose proof (invalid_total_le q Hle) as Hinv.
  assert (Hh : forall s0,
             payment_handler user req w s0
             = (Returned
                  (mkResponse 400
                     (Failed false "Invalid or missing total amount" None)),
                emit (ClockRead (Date_now w (ticks s0))) s0)).
  { intros s0. unfold payment_handler, bind, try_catch, now. cbn zeta.
    rewrite Hq, Hinv. reflexivity. }
  split; [apply Hh|].
  intros token. unfold post_payment, bind, now, asks. cbn zeta.
  destruct (Auth.authenticateToken _ _ token) as [r|claims].
  - do 2 eexists. split; [reflexivity|]. unfold emit. flatten_log.
    repeat split. left. eexists. reflexivity.
  - unfold payment_handler, bind, try_catch, now. cbn zeta.
    rewrite Hq, Hinv. do 2 eexists. split; [reflexivity|].
    unfold emit. flatten_log. repeat split. now right.
Qed.



(** [processMpesaPayment] asks the gateway once, whatever the answer,
    and returns [success: false] exactly on the answers that
    [reports_failure] names. *)
Lemma processMpesaPayment_reports (s0 : State) (amount : Q)
    (phone transactionRef thirdPartyRef : string) :
  let payload :=
    mkMpesaPayload transactionRef (formatPhoneNumber phone) amount
      thirdPartyRef (serviceProviderCode w) in
  exists result,
    processMpesaPayment amount phone transactionRef thirdPartyRef w s0
      = (Returned result,
         emit (Gateway payload (mpesa w (ticks s0) payload)) s0) /\
    success result = negb (reports_failure (mpesa w (ticks s0) payload)).
Proof.
  intros payload.
  unfold processMpesaPayment, bind, asks, post_mpesa, ret. cbn zeta.
  fold payload.
  destruct (mpesa w (ticks s0) payload) as [[st [output|]]|response message];
    eexists; split; reflexivity.
Qed.

(** The reference a run sends to the gateway. *)
Lemma gateway_reference (s' : State) (resp : Outcome (Response Body))
    (payload : MpesaPayload)
    (answer : AxiosResult (option MpesaData) Json) :
  payment_handler user req w s = (resp, s') ->
  In (Gateway payload answer) (since (log s) (log s')) ->
  input_TransactionReference payload
    = ("TXN" ++ decimal (reference_time w s)
         ++ decimal (reference_suffix w s))%string.
Proof.
  intros Hrun Hin. destruct s as [n l].
  run_all Hrun.
  all: injection Hrun as <- <-.
  all: revert Hin; flatten_log; intros Hin; pick_call Hin.
  all: injection Hin as <- <-.
  all: reflexivity.
Qed.

End Saga.

Lemma C3_witness :
  PaymentService.payment_handler sample_claims (sample_request 0)
      sample_orders_down fresh_process
    = (Returned
         (mkResponse 400
            (PaymentService.Failed false "Invalid or missing total amount"
               None)),
       PaymentService.mkState 1 [PaymentService.ClockRead 1700000000000]).
Proof.
  refine (proj1 (C3_invalid_total_makes_no_call sample_orders_down
                   fresh_process sample_claims (sample_request 0) 0
                   eq_refl _)).
  vm_compute. discriminate.
Defined.





(* ===================================================================== *)
(** ** The client's refresh coordinator                                   *)
(* ===================================================================== *)

Section Coordinator.

Import Client.

Variable w : World.

Ltac client_step :=
  cbv beta iota zeta delta
    [processPayment handleTokenRefresh getAccessToken getRefreshToken
     saveTokens refreshToken fetch_payment parse getItem setItem
     try_catch bind ret throw asks record localStorage sent].

(** [handleTokenRefresh] with no refresh token at hand. *)
Lemma handleTokenRefresh_without_token (st : State) :
  Jwt.truthy (localStorage st !! "refreshToken") = false ->
  handleTokenRefresh w st = (Returned None, st).
Proof.
  intros Hheld. destruct st as [m l]. cbn [localStorage] in Hheld.
  client_step. destruct (window_defined w); client_step.
  - now rewrite Hheld.
  - reflexivity.
Qed.

(** [handleTokenRefresh] when the refresh endpoint grants tokens. *)
Lemma handleTokenRefresh_granted (st : State) (r : Jwt.Str)
    (tokens : AuthService.Tokens) :
  window_defined w = true ->
  localStorage st !! "refreshToken" = Some r ->
  Jwt.truthy (Some r) = true ->
  granted_tokens (refresh_api w (sent st) r) = Some tokens ->
  handleTokenRefresh w st
    = (Returned (AuthService.accessToken tokens),
       mkState
         (<["refreshToken" :=
              Jwt.to_String (AuthService.refreshToken tokens)]>
            (<["accessToken" :=
                 Jwt.to_String (AuthService.accessToken tokens)]>
               (localStorage st)))
         (sent st ++ [PostRefreshToken r])%list).
Proof.
  intros window Hr Ht Hg. destruct st as [m l]. cbn [localStorage sent] in *.
  client_step. rewrite window. client_step. rewrite Hr, Ht.
  cbn [negb Jwt.to_String]. unfold granted_tokens in Hg.
  destruct (refresh_api w l r) as [[code [b|e]]|e]; try discriminate Hg.
  cbn [json] in *. destruct b as [[[|]|] msg [t|] err]; try discriminate Hg.
  cbn in Hg. injection Hg as ->. cbn. rewrite window. reflexivity.
Qed.

(** [handleTokenRefresh] when the refresh request fails. *)
Lemma handleTokenRefresh_refused (st : State) (r : Jwt.Str) :
  window_defined w = true ->
  localStorage st !! "refreshToken" = Some r ->
  Jwt.truthy (Some r) = true ->
  granted_tokens (refresh_api w (sent st) r) = None ->
  handleTokenRefresh w st
    = (Returned None,
       mkState (localStorage st) (sent st ++ [PostRefreshToken r])%list).
Proof.
  intros window Hr Ht Hg. destruct st as [m l]. cbn [localStorage sent] in *.
  client_step. rewrite window. client_step. rewrite Hr, Ht.
  cbn [negb Jwt.to_String]. unfold granted_tokens in Hg.
  destruct (refresh_api w l r) as [[code [b|e]]|e]; try reflexivity.
  cbn [json] in *.
  destruct b as [[[|]|] msg [t|] err]; try discriminate Hg; reflexivity.
Qed.

(** [handleTokenRefresh] never throws and sends at most the one refresh
    request. *)
Lemma handleTokenRefresh_sends (st : State) :
  exists out st',
    handleTokenRefresh w st = (Returned out, st') /\
    (sent st' = sent st \/
     exists r, sent st' = (sent st ++ [PostRefreshToken r])%list).
Proof.
  destruct (Jwt.truthy (localStorage st !! "refreshToken")) eqn:Hheld.
  - destruct (window_defined w) eqn:window.
    + destruct (localStorage st !! "refreshToken") as [r|] eqn:Hr;
        [|discriminate Hheld].
      destruct (granted_tokens (refresh_api w (sent st) r)) as [tokens|]
        eqn:Hg.
      * rewrite (handleTokenRefresh_granted st r tokens window Hr Hheld Hg).
        do 2 eexists. split; [reflexivity|]. right. now exists r.
      * rewrite (handleTokenRefresh_refused st r window Hr Hheld Hg).
        do 2 eexists. split; [reflexivity|]. right. now exists r.
    + destruct st as [m l]. client_step. rewrite window.
      do 2 eexists. split; [reflexivity|]. now left.
  - rewrite (handleTokenRefresh_without_token st Hheld).
    do 2 eexists. split; [reflexivity|]. now left.
Qed.


(** Whatever the answers, [processPayment] sends the payment request at
    most twice and the refresh request at most once. *)
Lemma processPayment_sends (st : State)
    (request : PaymentService.PaymentRequest) :
  exists out st' new,
    processPayment request w st = (out, st') /\
    sent st' = (sent st ++ new)%list /\
    (sends is_payment new <= 2)%nat /\
    (sends is_refresh new <= 1)%nat.
Proof.
  assert (Hnone : forall out : Outcome PaymentService.Body,
             exists out' st' new,
               (out, st) = (out', st') /\
               sent st' = (sent st ++ new)%list /\
               (sends is_payment new <= 2)%nat /\
               (sends is_refresh new <= 1)%nat).
  { intros out. exists out, st, []. rewrite List.app_nil_r. cbn.
    repeat split; lia. }
  assert (Hone : forall (out : Outcome PaymentService.Body) m a,
             exists out' st' new,
               (out, mkState m (sent st ++ [PostPayment a request])%list)
                 = (out', st') /\
               sent st' = (sent st ++ new)%list /\
               (sends is_payment new <= 2)%nat /\
               (sends is_refresh new <= 1)%nat).
  { intros out m a. do 2 eexists. exists [PostPayment a request].
    cbn. repeat split; lia. }
  destruct st as [m l]. cbn [sent] in *.
  cbv beta iota zeta delta
    [processPayment getAccessToken fetch_payment parse getItem
     bind ret throw asks record localStorage sent].
  destruct (window_defined w); cbv beta iota; [|apply Hnone].
  destruct (Jwt.truthy (m !! "accessToken")); cbn [negb]; [|apply Hnone].
  destruct (payment_api w l _ request) as [reply|e]; cbv beta iota;
    [|apply Hone].
  destruct (reply_status reply =? 401); cbv beta iota.
  - destruct (json reply) as [data|e]; cbv beta iota; [|apply Hone].
    destruct (expired data); cbv beta iota; [|apply Hone].
    destruct (handleTokenRefresh_sends
                (mkState m (l ++ [PostPayment
                                    (Jwt.to_String (m !! "accessToken"))
                                    request])%list))
      as (new & [m2 l2] & -> & Hsent).
    cbn [sent] in Hsent. cbv beta iota.
    destruct (Jwt.truthy new); cbv beta iota.
    + destruct Hsent as [->|[r ->]].
      * exists (parsed (payment_api w
                          (l ++ [PostPayment
                                   (Jwt.to_String (m !! "accessToken"))
                                   request])%list
                          (Jwt.to_String new) request)).
        eexists.
        exists [PostPayment (Jwt.to_String (m !! "accessToken")) request;
                PostPayment (Jwt.to_String new) request].
        split.
        { unfold parsed. destruct (payment_api w _ _ request); reflexivity. }
        cbn. rewrite <- List.app_assoc. repeat split; lia.
      * exists (parsed (payment_api w
                          ((l ++ [PostPayment
                                    (Jwt.to_String (m !! "accessToken"))
                                    request]) ++ [PostRefreshToken r])%list
                          (Jwt.to_String new) request)).
        eexists.
        exists [PostPayment (Jwt.to_String (m !! "accessToken")) request;
                PostRefreshToken r;
                PostPayment (Jwt.to_String new) request].
        split.
        { unfold parsed. destruct (payment_api w _ _ request); reflexivity. }
        cbn. repeat rewrite <- List.app_assoc. repeat split; lia.
    + destruct Hsent as [->|[r ->]].
      * apply Hone.
      * do 2 eexists.
        exists [PostPayment (Jwt.to_String (m !! "accessToken")) request;
                PostRefreshToken r].
        split; [reflexivity|].
        cbn. rewrite <- List.app_assoc. repeat split; lia.
  - destruct (negb (ok reply) && negb (reply_status reply =? 400));
      apply Hone.
Qed.




(** A token that verifies is a token signed with the secret. *)
Lemma verify_inl (token : option Jwt.Str) (secret : string) (now : Z)
    (p : Jwt.Payload) :
  Jwt.verify token secret now = inl p -> token = Some (Jwt.Jws p secret).
Proof.
  unfold Jwt.verify. destruct token as [[raw|q key]|]; try discriminate.
  - destruct (String.eqb raw ""); discriminate.
  - destruct (String.eqb secret ""); [discriminate|].
    destruct (String.eqb key secret) eqn:Hkey; [|discriminate].
    cbn [negb]. destruct (Jwt.exp q <=? Jwt.clockTimestamp now);
      [discriminate|].
    intros H. injection H as ->. apply String.eqb_eq in Hkey. now subst.
Qed.

(** What the auth service's answer to a valid refresh token hands out. *)
Lemma delivered_grant (aw : AuthService.World) (k : nat) (r : Jwt.Str)
    (p : Jwt.Payload) :
  AuthService.JWT_SECRET aw <> "" ->
  Jwt.verify (Some r) (AuthService.JWT_SECRET aw) (AuthService.Date_now aw k)
    = inl p ->
  exists a,
    granted_tokens (delivered aw k r)
      = Some (AuthService.mkTokens
                (Some (Jwt.Jws a (AuthService.JWT_SECRET aw))) None).
Proof.
  intros Hsecret Hverify.
  pose proof (refresh_token_once aw Hsecret (Some r) k) as Hone.
  rewrite Hverify in Hone.
  destruct Hone as (resp & Hrun & _ & Hsuccess & a & Hdata & _).
  exists a. unfold delivered, granted_tokens. rewrite Hrun. cbn [json].
  now rewrite Hsuccess, Hdata.
Qed.

(** What the auth service's answer to the string [undefined] hands out. *)
Lemma delivered_undefined (aw : AuthService.World) (k : nat) :
  AuthService.JWT_SECRET aw <> "" ->
  granted_tokens (delivered aw k (Jwt.Raw "undefined")) = None.
Proof.
  intros Hsecret.
  pose proof (refresh_token_once aw Hsecret (Some (Jwt.Raw "undefined")) k)
    as Hone.
  change (Jwt.verify (Some (Jwt.Raw "undefined")) (AuthService.JWT_SECRET aw)
            (AuthService.Date_now aw k))
    with (@inr Jwt.Payload _ (Jwt.JsonWebTokenError "jwt malformed")) in Hone.
  unfold delivered. now rewrite Hone.
Qed.

(** C10. After a refresh that the auth service grants, the client's slot
    for the refresh token no longer holds the refresh token it held: the
    service's answer has an access token and no refresh token, the
    coordinator writes both slots from it, and the slot for the refresh
    token receives the absent value, which the storage keeps as the string
    [undefined]. The next refresh cycle sends that string, not the
    original token, and the auth service turns it down. *)
Theorem C10_refresh_overwrites_the_refresh_token (st : State)
    (r : Jwt.Str) (aw : AuthService.World) (k : nat) (p : Jwt.Payload) :
  window_defined w = true ->
  localStorage st !! "refreshToken" = Some r ->
  AuthService.JWT_SECRET aw <> "" ->
  Jwt.verify (Some r) (AuthService.JWT_SECRET aw) (AuthService.Date_now aw k)
    = inl p ->
  refresh_api w (sent st) r = delivered aw k r ->
  exists a' st',
    handleTokenRefresh w st = (Returned (Some a'), st') /\
    granted_tokens (delivered aw k r)
      = Some (AuthService.mkTokens (Some a') None) /\
    sent st' = (sent st ++ [PostRefreshToken r])%list /\
    localStorage st' !! "accessToken" = Some a' /\
    localStorage st' !! "refreshToken" = Some (Jwt.Raw "undefined") /\
    localStorage st' !! "refreshToken" <> Some r /\
    exists out st'',
      handleTokenRefresh w st' = (Returned out, st'') /\
      sent st'' = (sent st' ++ [PostRefreshToken (Jwt.Raw "undefined")])%list /\
      (forall k',
         refresh_api w (sent st') (Jwt.Raw "undefined")
           = delivered aw k' (Jwt.Raw "undefined") ->
         out = None).
Proof.
  intros window Hr Hsecret Hverify Hnet.
  pose proof (verify_inl _ _ _ _ Hverify) as Hsigned.
  injection Hsigned as Hsigned.
  assert (Hrt : Jwt.truthy (Some r) = true) by now rewrite Hsigned.
  destruct (delivered_grant aw k r p Hsecret Hverify) as (a & Hgrant).
  pose proof Hgrant as Hg. rewrite <- Hnet in Hg.
  pose proof (handleTokenRefresh_granted st r _ window Hr Hrt Hg) as Hrun.
  cbn [AuthService.accessToken AuthService.refreshToken Jwt.to_String]
    in Hrun.
  eexists. eexists. split; [exact Hrun|].
  split; [exact Hgrant|]. cbn [sent localStorage].
  split; [reflexivity|].
  split; [rewrite lookup_insert_ne by discriminate;
          now rewrite lookup_insert_eq|].
  split; [now rewrite lookup_insert_eq|].
  split; [rewrite lookup_insert_eq, Hsigned; discriminate|].
  match goal with
  | |- exists out st'', handleTokenRefresh w ?st1 = _ /\ _ =>
      set (st' := st1)
  end.
  assert (Hheld : localStorage st' !! "refreshToken"
                  = Some (Jwt.Raw "undefined")).
  { unfold st'. cbn [localStorage]. now rewrite lookup_insert_eq. }
  destruct (granted_tokens (refresh_api w (sent st') (Jwt.Raw "undefined")))
    as [tokens|] eqn:Hnext.
  - rewrite (handleTokenRefresh_granted st' _ tokens window Hheld eq_refl
               Hnext).
    do 2 eexists. split; [reflexivity|]. split; [reflexivity|].
    intros k' Hnet'. unfold st' in Hnext. cbn [sent] in Hnext.
    rewrite Hnet' in Hnext.
    rewrite (delivered_undefined aw k' Hsecret) in Hnext. discriminate.
  - rewrite (handleTokenRefresh_refused st' _ window Hheld eq_refl Hnext).
    do 2 eexists. split; [reflexivity|]. split; reflexivity.
Qed.

End Coordinator.


Lemma C10_witness :
  exists a' st',
    Client.handleTokenRefresh sample_client_world sample_page
      = (Returned (Some a'), st') /\
    Client.localStorage st' !! "refreshToken" = Some (Jwt.Raw "undefined").
Proof.
  destruct (C10_refresh_overwrites_the_refresh_token sample_client_world
              sample_page sample_token sample_auth_world 0%nat sample_claims
              eq_refl ltac:(vm_compute; reflexivity) ltac:(discriminate)
              ltac:(vm_compute; reflexivity) eq_refl)
    as (a' & st' & Hrun & _ & _ & _ & Hslot & _).
  exists a', st'. split; [exact Hrun|exact Hslot].
Defined.


(* ===================================================================== *)
(** ** Transaction references                                             *)
(* ===================================================================== *)

Section References.

Import PaymentService.

(** The decimal digits determine the integer. *)
Lemma decimal_inj (a b : Z) : decimal a = decimal b -> a = b.
Proof.
  unfold decimal. intros H.
  apply (f_equal NilEmpty.int_of_string) in H.
  rewrite !NilEmpty.isi in H. injection H as H.
  now apply DecimalZ.to_int_inj.
Qed.

(** Two concatenations whose first parts have the same length are equal
    only part by part. *)
Lemma append_inj_same_length (a a' b b' : string) :
  String.length a = String.length a' ->
  (a ++ b)%string = (a' ++ b')%string -> a = a' /\ b = b'.
Proof.
  revert a'. induction a as [|c a IH]; intros [|c' a'] Hlen Heq;
    try discriminate Hlen.
  - now split.
  - cbn in Hlen, Heq. injection Hlen as Hlen. injection Heq as -> Heq.
    destruct (IH a' Hlen Heq) as [-> ->]. now split.
Qed.

(** C9, as the code has it. The references of two runs that reach the
    gateway, and whose clock readings have the same number of digits, are
    equal exactly when the two runs read the same millisecond off the
    clock and drew the same suffix; they are distinct as soon as the
    readings or the suffixes differ. *)
Theorem C9_references_differ_iff_time_or_suffix_differ
    (w : World) (s1 s1' s2 s2' : State) (user1 user2 : Jwt.Payload)
    (req1 req2 : PaymentRequest) (resp1 resp2 : Outcome (Response Body))
    (p1 p2 : MpesaPayload)
    (a1 a2 : AxiosResult (option MpesaData) Json) :
  payment_handler user1 req1 w s1 = (resp1, s1') ->
  payment_handler user2 req2 w s2 = (resp2, s2') ->
  In (Gateway p1 a1) (since (log s1) (log s1')) ->
  In (Gateway p2 a2) (since (log s2) (log s2')) ->
  String.length (decimal (reference_time w s1))
    = String.length (decimal (reference_time w s2)) ->
  (input_TransactionReference p1 = input_TransactionReference p2 <->
   reference_time w s1 = reference_time w s2 /\
   reference_suffix w s1 = reference_suffix w s2).
Proof.
  intros Hrun1 Hrun2 Hin1 Hin2 Hlen.
  rewrite (gateway_reference w s1 user1 req1 s1' resp1 p1 a1 Hrun1 Hin1).
  rewrite (gateway_reference w s2 user2 req2 s2' resp2 p2 a2 Hrun2 Hin2).
  split.
  - intros Heq. cbn [String.append] in Heq. injection Heq as Heq.
    destruct (append_inj_same_length _ _ _ _ Hlen Heq) as [Ht Hs].
    split; now apply decimal_inj.
  - intros [-> ->]. reflexivity.
Qed.

End References.

Lemma C9_witness :
  exists p1 p2 : PaymentService.MpesaPayload,
    (PaymentService.input_TransactionReference p1
       = PaymentService.input_TransactionReference p2 <->
     1700000000001 = 1700000000008 /\ 500 = 500) /\
    PaymentService.input_TransactionReference p1 = "TXN1700000000001500" /\
    PaymentService.input_TransactionReference p2 = "TXN1700000000008500".
Proof.
  do 2 eexists. split.
  - eapply (C9_references_differ_iff_time_or_suffix_differ
              sample_gateway_down fresh_process _
              (snd (PaymentService.payment_handler sample_claims
                      (sample_request 200) sample_gateway_down
                      fresh_process)) _
              sample_claims sample_claims
              (sample_request 200) (sample_request 200)).
    + reflexivity.
    + reflexivity.
    + vm_compute. do 5 right. left. reflexivity.
    + vm_compute. do 5 right. left. reflexivity.
    + vm_compute. reflexivity.
  - split; vm_compute; reflexivity.
Defined.

(** The references of two runs in a row are not always distinct: two runs
    that read the same millisecond and draw the same number get the same
    reference. *)
Lemma C9_counterexample : ~ references_pairwise_distinct.
Proof.
  intros H.
  pose (run1 := PaymentService.payment_handler sample_claims
                  (sample_request 200) sample_same_millisecond
                  fresh_process).
  pose (run2 := PaymentService.payment_handler sample_claims
                  (sample_request 200) sample_same_millisecond (snd run1)).
  refine (H sample_same_millisecond fresh_process (snd run1) (snd run2)
            sample_claims sample_claims
            (sample_request 200) (sample_request 200)
            (fst run1) (fst run2) _ _ _ _ _ _ _ _ _).
  - vm_compute. reflexivity.
  - vm_compute. reflexivity.
  - vm_compute. do 5 right. left. reflexivity.
  - vm_compute. do 5 right. left. reflexivity.
  - vm_compute. reflexivity.
Qed.

(* ===================================================================== *)
(** ** The two other middlewares                                          *)
(* ===================================================================== *)

(** X1. [optionalAuth] never answers the request itself: it passes the
    request on with the claims of the token exactly when
    [authenticateToken] would let it through with those claims, and with
    no user exactly when [authenticateToken] would turn it down. *)
Theorem X1_optionalAuth_agrees_with_authenticateToken
    (secret : string) (now : Z) (token : option Jwt.Str) :
  exists user,
    Auth.optionalAuth secret now token = Auth.Next user /\
    (forall p,
       user = Some p <->
       Auth.authenticateToken secret now token = Auth.Next p) /\
    (user = None <->
     exists r, Auth.authenticateToken secret now token = Auth.Respond r).
Proof.
  unfold Auth.optionalAuth, Auth.authenticateToken.
  destruct (Jwt.truthy token); cbn [negb].
  - destruct (Jwt.verify token secret now) as [decoded|err].
    + exists (Some decoded). split; [reflexivity|]. split.
      * intros p. split; intros [= ->]; reflexivity.
      * split; [discriminate|]. intros [r Hr]. discriminate Hr.
    + exists None. split; [reflexivity|]. split.
      * intros p. split; [discriminate|].
        destruct (String.eqb (Jwt.name err) "TokenExpiredError");
          discriminate.
      * split; [|reflexivity]. intros _.
        destruct (String.eqb (Jwt.name err) "TokenExpiredError");
          eexists; reflexivity.
  - exists None. split; [reflexivity|]. split.
    + intros p. split; discriminate.
    + split; [|reflexivity]. intros _. eexists; reflexivity.
Qed.

(** X2. The service-to-service guard lets a request through exactly when
    it carries a non-empty key equal to the configured one; a request
    without a key is answered 401 and one with another key 403. When no
    key is configured, no request gets through. *)
Theorem X2_authenticateService_passes_only_the_configured_key
    (configured apiKey : option string) :
  (Auth.authenticateService configured apiKey = Auth.Next tt <->
   exists k, apiKey = Some k /\ k <> "" /\ configured = Some k) /\
  (falsy_string apiKey = true ->
   Auth.authenticateService configured apiKey
     = Auth.Respond
         (mkResponse 401 (Auth.mkDenial false "API key required" None))) /\
  (forall k,
     apiKey = Some k -> k <> "" -> configured <> Some k ->
     Auth.authenticateService configured apiKey
       = Auth.Respond
           (mkResponse 403 (Auth.mkDenial false "Invalid API key" None))) /\
  (configured = None ->
   exists r, Auth.authenticateService configured apiKey = Auth.Respond r).
Proof.
  unfold Auth.authenticateService, falsy_string.
  split; [|split; [|split]].
  - split.
    + destruct apiKey as [k|]; [|discriminate].
      destruct (String.eqb k "") eqn:Hk; [discriminate|].
      destruct configured as [k'|]; [|discriminate].
      destruct (String.eqb k k') eqn:Hkk; [|discriminate].
      intros _. exists k. apply String.eqb_neq in Hk.
      apply String.eqb_eq in Hkk. now subst.
    + intros (k & -> & Hk & ->). apply String.eqb_neq in Hk.
      now rewrite Hk, String.eqb_refl.
  - destruct apiKey as [k|]; [|reflexivity]. now intros ->.
  - intros k -> Hk Hother. apply String.eqb_neq in Hk. rewrite Hk.
    destruct configured as [k'|]; [|reflexivity].
    destruct (String.eqb k k') eqn:Hkk; [|reflexivity].
    apply String.eqb_eq in Hkk. now subst.
  - intros ->. destruct apiKey as [k|]; [|eexists; reflexivity].
    destruct (String.eqb k ""); eexists; reflexivity.
Qed.

(* ===================================================================== *)
(** ** Accounts: registration, login, logout                              *)
(* ===================================================================== *)

Section Accounts.

Import AuthService.

Variable w : World.

(** The rows selected for a login, as far as the handler looks at them. *)
Lemma select_by_email_account (mail : string) (rows : list User) :
  users w = Some rows ->
  account w mail
    = hd_error (List.filter (fun u => String.eqb (user_email u) mail) rows).
Proof.
  intros Hrows. unfold account. rewrite Hrows. clear Hrows.
  induction rows as [|u rows IH]; [reflexivity|]. cbn.
  destruct (String.eqb (user_email u) mail); [reflexivity|exact IH].
Qed.

(** The run of [login], case by case. *)
Lemma login_cases (mail pass : string) (k : nat) :
  match account w mail with
  | Some user =>
      if bcrypt_compare w pass (password user) then
        if String.eqb (JWT_SECRET w) "" then
          login mail pass w k
            = (Returned
                 (mkResponse 500
                    (mkBody (Some false) (Some "Failed to login user") None
                       None)),
               S k)
        else
          exists resp,
            login mail pass w k = (Returned resp, S (S k)) /\
            status resp = 200 /\
            holds_tokens_of (JWT_SECRET w) user (body resp)
      else
        login mail pass w k
          = (Returned
               (mkResponse 401
                  (mkBody None None None (Some "Invalid email or password"))),
             k)
  | None =>
      exists resp,
        login mail pass w k = (Returned resp, k) /\
        (status resp = 401 \/ status resp = 500) /\
        data (body resp) = None
  end.
Proof.
  unfold login, try_catch, bind, select_by_email, asks, ret, jwt_sign.
  destruct (users w) as [rows|] eqn:Hrows.
  - rewrite (select_by_email_account mail rows Hrows).
    destruct (List.filter _ rows) as [|user rest]; cbn [hd_error].
    + eexists. split; [reflexivity|]. split; [now left|reflexivity].
    + destruct (bcrypt_compare w pass (password user)); cbn [negb];
        [|reflexivity].
      unfold Jwt.sign.
      destruct (String.eqb (JWT_SECRET w) ""); [reflexivity|].
      eexists. split; [reflexivity|]. split; [reflexivity|].
      unfold holds_tokens_of. do 2 eexists. cbn.
      repeat split; reflexivity.
  - unfold account. rewrite Hrows.
    eexists. split; [reflexivity|]. split; [now right|reflexivity].
Qed.

(** X3. A login is answered 200 exactly when the first row of the table
    that bears the e-mail has a password [bcrypt] accepts (and the signing
    secret is set); the body then holds an access token and a refresh
    token for the id and e-mail of that row, good for one hour and for
    seven days. Every other answer is a 401 or a 500 whose body holds no
    token. *)
Theorem X3_login_grants_tokens_to_the_account_only
    (mail pass : string) (k : nat) :
  exists resp k',
    login mail pass w k = (Returned resp, k') /\
    (status resp = 200 <->
     exists user,
       account w mail = Some user /\
       bcrypt_compare w pass (password user) = true /\
       JWT_SECRET w <> "") /\
    (forall user,
       status resp = 200 -> account w mail = Some user ->
       holds_tokens_of (JWT_SECRET w) user (body resp)) /\
    (status resp <> 200 ->
     (status resp = 401 \/ status resp = 500) /\ data (body resp) = None).
Proof.
  pose proof (login_cases mail pass k) as Hcases.
  destruct (account w mail) as [user|] eqn:Haccount.
  - destruct (bcrypt_compare w pass (password user)) eqn:Hpass.
    + destruct (String.eqb (JWT_SECRET w) "") eqn:Hsecret.
      * do 2 eexists. split; [exact Hcases|]. cbn [status body data].
        split; [|split].
        -- split; [discriminate|]. intros (u & _ & _ & Hset).
           apply String.eqb_eq in Hsecret. contradiction.
        -- discriminate.
        -- intros _. split; [now right|reflexivity].
      * destruct Hcases as (resp & Hrun & Hstatus & Htokens).
        do 2 eexists. split; [exact Hrun|]. split; [|split].
        -- split; [|now intros _]. intros _. exists user.
           apply String.eqb_neq in Hsecret. now repeat split.
        -- intros u _ [= <-]. exact Htokens.
        -- intros Hno. contradiction.
    + do 2 eexists. split; [exact Hcases|]. cbn [status body data].
      split; [|split].
      * split; [discriminate|]. intros (u & [= <-] & Hok & _).
        rewrite Hok in Hpass. discriminate.
      * discriminate.
      * intros _. split; [now left|reflexivity].
  - destruct Hcases as (resp & Hrun & Hstatus & Hdata).
    do 2 eexists. split; [exact Hrun|]. split; [|split].
    + split; [|intros (u & Hu & _); discriminate Hu].
      destruct Hstatus as [-> | ->]; discriminate.
    + intros u _ Hu. discriminate Hu.
    + intros _. now split.
Qed.

End Accounts.

Section Registration.

Import AuthService.

Variable w : World.
Variable bcrypt_hash : string -> string.

Lemma find_app_fresh (mail : string) (rows : list User) (u : User) :
  List.find (fun r => String.eqb (user_email r) mail) (rows ++ [u])%list
    = match List.find (fun r => String.eqb (user_email r) mail) rows with
      | Some first => Some first
      | None => if String.eqb (user_email u) mail then Some u else None
      end.
Proof.
  induction rows as [|r rows IH]; cbn.
  - reflexivity.
  - destruct (String.eqb (user_email r) mail); [reflexivity|exact IH].
Qed.

Lemma varchar_short (n : nat) (s : string) :
  (String.length s <= n)%nat -> varchar n s = Some s.
Proof.
  intros H. unfold varchar. apply Nat.leb_le in H. now rewrite H.
Qed.

(** The logins with an e-mail that a row bears, after an insertion, made
    or refused. *)
Lemma login_after_insertion (mail : string) (first : User)
    (rows rows' : list User) :
  users w = Some rows ->
  account w mail = Some first ->
  rows' = rows \/ (exists row, rows' = (rows ++ [row])%list) ->
  account (drawn w rows') mail = Some first /\
  forall pass' k,
    login mail pass' (drawn w rows') k = login mail pass' w k.
Proof.
  intros Hrows Hfirst Hshape. unfold account in Hfirst.
  rewrite Hrows in Hfirst.
  assert (Hhead : exists rest,
             List.filter (fun u => String.eqb (user_email u) mail) rows
             = first :: rest).
  { clear Hrows Hshape. induction rows as [|r rows IH]; [discriminate|].
    cbn in Hfirst |- *.
    destruct (String.eqb (user_email r) mail).
    - injection Hfirst as ->. eexists; reflexivity.
    - exact (IH Hfirst). }
  destruct Hhead as (rest & Hhead). split.
  - unfold account, drawn. cbn [users].
    destruct Hshape as [->|[row ->]]; [exact Hfirst|].
    rewrite find_app_fresh. now rewrite Hfirst.
  - intros pass' k.
    unfold login, try_catch, bind, select_by_email, asks, ret, jwt_sign,
      drawn.
    cbn [users bcrypt_compare JWT_SECRET Date_now]. rewrite Hrows.
    destruct Hshape as [->|[row ->]]; rewrite ?List.filter_app, Hhead;
      cbn [List.app]; cbv beta iota zeta;
      cbn [bcrypt_compare JWT_SECRET Date_now];
      destruct (bcrypt_compare w pass' (password first));
      cbn [negb JWT_SECRET Date_now]; unfold Jwt.sign;
      destruct (String.eqb (JWT_SECRET w) ""); reflexivity.
Qed.

(** X4. Registration and login round trip. Registering an e-mail of at
    most 255 characters that no row bears, the hash fitting its column
    and the id drawn from the sequence being free, answers 201 and
    appends one row, with that id and the hash of the password; a login
    with that e-mail and that password is then answered 200 with tokens
    for the new row's id and e-mail. An e-mail that the column refuses,
    longer than 255 characters and not only by spaces at its end, is
    answered 500 and leaves the table as it was, though the sequence
    has moved. *)
Theorem X4_register_then_login (mail pass : string) (rows : list User)
    (k : nat) :
  users w = Some rows ->
  (account w mail = None ->
   (String.length mail <= 255)%nat ->
   (String.length (bcrypt_hash pass) <= 255)%nat ->
   (forall u, In u rows -> id u <> users_id_seq w + 1) ->
   bcrypt_compare w pass (bcrypt_hash pass) = true ->
   JWT_SECRET w <> "" ->
   let user := mkUser (users_id_seq w + 1) mail (bcrypt_hash pass) in
   exists w' resp,
     register bcrypt_hash mail pass w
       = (mkResponse 201
            (mkBody (Some true) (Some "User registered successfully") None
               None),
          w') /\
     users w' = Some (rows ++ [user])%list /\
     users_id_seq w' = users_id_seq w + 1 /\
     account w' mail = Some user /\
     login mail pass w' k = (Returned resp, S (S k)) /\
     status resp = 200 /\
     holds_tokens_of (JWT_SECRET w) user (body resp)) /\
  (varchar 255 mail = None ->
   exists w',
     register bcrypt_hash mail pass w
       = (mkResponse 500
            (mkBody (Some false) (Some "Failed to register user") None
               None),
          w') /\
     users w' = Some rows /\
     users_id_seq w' = users_id_seq w + 1).
Proof.
  intros Hrows. split.
  2:{ intros Hlong. eexists.
      unfold register, insert_user, keep. rewrite Hrows, Hlong.
      split; [reflexivity|]. split; reflexivity. }
  intros Hfresh Hmail Hhash Hid Hbcrypt Hsecret user.
  assert (Hfree : existsb (fun u => id u =? users_id_seq w + 1) rows = false).
  { destruct (existsb _ rows) eqn:Hex; [|reflexivity].
    apply List.existsb_exists in Hex. destruct Hex as (u & Hu & Heq).
    apply Z.eqb_eq in Heq. now destruct (Hid u Hu). }
  assert (Hnew : existsb (fun u => String.eqb (user_email u) mail) rows
                 = false).
  { unfold account in Hfresh. rewrite Hrows in Hfresh.
    destruct (existsb (fun u => String.eqb (user_email u) mail) rows)
      eqn:Hex; [|reflexivity].
    apply List.existsb_exists in Hex. destruct Hex as (u & Hu & Heq).
    now rewrite (List.find_none _ _ Hfresh u Hu) in Heq. }
  set (w' := drawn w (rows ++ [user])%list).
  assert (Hrun : register bcrypt_hash mail pass w
                 = (mkResponse 201
                      (mkBody (Some true)
                         (Some "User registered successfully") None None),
                    w')).
  { unfold register, insert_user, keep. rewrite Hrows.
    rewrite (varchar_short 255 mail Hmail).
    rewrite (varchar_short 255 (bcrypt_hash pass) Hhash).
    rewrite Hfree. cbn [user_email]. rewrite Hnew, andb_false_r.
    reflexivity. }
  assert (Haccount : account w' mail = Some user).
  { unfold account, w', drawn. cbn [users].
    rewrite find_app_fresh. unfold account in Hfresh.
    rewrite Hrows in Hfresh. rewrite Hfresh. cbn [user_email].
    now rewrite String.eqb_refl. }
  pose proof (login_cases w' mail pass k) as Hlogin.
  rewrite Haccount in Hlogin. subst user. unfold w', drawn in Hlogin.
  cbn [password bcrypt_compare JWT_SECRET] in Hlogin.
  rewrite Hbcrypt in Hlogin.
  apply String.eqb_neq in Hsecret. rewrite Hsecret in Hlogin.
  destruct Hlogin as (resp & Hlogin & Hstatus & Htokens).
  exists w', resp.
  split; [exact Hrun|]. split; [reflexivity|]. split; [reflexivity|].
  split; [exact Haccount|]. split; [exact Hlogin|].
  split; [exact Hstatus|exact Htokens].
Qed.

(** X5. Registering an e-mail that a row already bears never changes
    how the logins with that e-mail are answered: a login is checked
    against the first row that bears the e-mail. On the database of the
    initialization script, where [email] is unique, the registration of
    an e-mail of at most 255 characters is answered 500 and leaves the
    table as it was. On a table the service created itself it is
    answered 201 all the same, when the columns take the values and the
    id is free, and a second row with the e-mail is appended. *)
Theorem X5_second_registration_leaves_login_unchanged
    (mail pass : string) (first : User) :
  account w mail = Some first ->
  exists resp w',
    register bcrypt_hash mail pass w = (resp, w') /\
    (status resp = 201 \/ status resp = 500) /\
    account w' mail = Some first /\
    (forall pass' k, login mail pass' w' k = login mail pass' w k) /\
    (status resp = 500 -> users w' = users w) /\
    (users_email_key w = true -> (String.length mail <= 255)%nat ->
     status resp = 500) /\
    (users_email_key w = false -> (String.length mail <= 255)%nat ->
     (String.length (bcrypt_hash pass) <= 255)%nat ->
     (forall u rows, users w = Some rows -> In u rows ->
        id u <> users_id_seq w + 1) ->
     status resp = 201 /\
     exists rows,
       users w = Some rows /\
       users w'
         = Some (rows ++ [mkUser (users_id_seq w + 1) mail
                            (bcrypt_hash pass)])%list).
Proof.
  intros Hfirst.
  destruct (users w) as [rows|] eqn:Hrows;
    [|unfold account in Hfirst; rewrite Hrows in Hfirst; discriminate].
  assert (Htaken : existsb (fun u => String.eqb (user_email u) mail) rows
                   = true).
  { unfold account in Hfirst. rewrite Hrows in Hfirst.
    apply List.find_some in Hfirst. apply List.existsb_exists.
    now exists first. }
  pose proof (login_after_insertion mail first rows rows Hrows Hfirst
                (or_introl eq_refl)) as [Hsame Hlogins].
  unfold register, insert_user, keep. rewrite Hrows.
  destruct (varchar 255 mail) as [email|] eqn:Hmail.
  2:{ do 2 eexists. split; [reflexivity|]. cbn [status users drawn].
      split; [now right|]. split; [exact Hsame|]. split; [exact Hlogins|].
      split; [reflexivity|]. split; [reflexivity|].
      intros _ Hlen. rewrite (varchar_short 255 mail Hlen) in Hmail.
      discriminate Hmail. }
  destruct (varchar 255 (bcrypt_hash pass)) as [hashed|] eqn:Hhash.
  2:{ do 2 eexists. split; [reflexivity|]. cbn [status users drawn].
      split; [now right|]. split; [exact Hsame|]. split; [exact Hlogins|].
      split; [reflexivity|]. split; [reflexivity|].
      intros _ _ Hlen. rewrite (varchar_short 255 _ Hlen) in Hhash.
      discriminate Hhash. }
  destruct (existsb (fun u => id u =? users_id_seq w + 1) rows) eqn:Hid.
  { do 2 eexists. split; [reflexivity|]. cbn [status users drawn].
    split; [now right|]. split; [exact Hsame|]. split; [exact Hlogins|].
    split; [reflexivity|]. split; [reflexivity|].
    intros _ _ _ Hfree. exfalso.
    apply List.existsb_exists in Hid. destruct Hid as (u & Hu & Heq).
    apply Z.eqb_eq in Heq. exact (Hfree u rows eq_refl Hu Heq). }
  cbn [user_email].
  destruct (users_email_key w
            && existsb (fun u => String.eqb (user_email u) email) rows)
    eqn:Hkey.
  { do 2 eexists. split; [reflexivity|]. cbn [status users drawn].
    split; [now right|]. split; [exact Hsame|]. split; [exact Hlogins|].
    split; [reflexivity|]. split; [reflexivity|].
    intros Hunique. rewrite Hunique in Hkey. discriminate Hkey. }
  pose proof (login_after_insertion mail first rows
                (rows ++ [mkUser (users_id_seq w + 1) email hashed])%list
                Hrows Hfirst (or_intror (ex_intro _ _ eq_refl)))
    as [Hsame' Hlogins'].
  do 2 eexists. split; [reflexivity|]. cbn [status users drawn].
  split; [now left|]. split; [exact Hsame'|]. split; [exact Hlogins'|].
  split; [discriminate|]. split.
  - intros Hunique Hlen. rewrite (varchar_short 255 mail Hlen) in Hmail.
    injection Hmail as <-. rewrite Hunique, Htaken in Hkey.
    discriminate Hkey.
  - intros _ Hlen Hlen' _. split; [reflexivity|].
    rewrite (varchar_short 255 mail Hlen) in Hmail.
    rewrite (varchar_short 255 _ Hlen') in Hhash.
    injection Hmail as <-. injection Hhash as <-.
    exists rows. now split.
Qed.

(** X6. Logout is answered 200, with both tokens [null], whatever the
    refresh token it is given, and it revokes nothing: a refresh made
    right after it with the same refresh token, before that token's
    expiry, is granted. *)
Theorem X6_logout_always_succeeds_and_revokes_nothing
    (p : Jwt.Payload) (k : nat) :
  JWT_SECRET w <> "" ->
  Jwt.clockTimestamp (Date_now w (S k)) < Jwt.exp p ->
  (forall token j, exists j', logout token w j = (Returned logged_out, j')) /\
  exists r k',
    (_ <- logout (Some (Jwt.Jws p (JWT_SECRET w))) ;;
     refresh_token (Some (Jwt.Jws p (JWT_SECRET w))))%js w k
      = (Returned r, k') /\
    grants (JWT_SECRET w) p r.
Proof.
  intros Hsecret Hclock.
  assert (Hall : forall token j,
             exists j', logout token w j = (Returned logged_out, j')).
  { intros token j. unfold logout, try_catch, bind, ret, jwt_verify.
    destruct (Jwt.truthy token); [|eexists; reflexivity].
    destruct (Jwt.verify token (JWT_SECRET w) (Date_now w j));
      eexists; reflexivity. }
  split; [exact Hall|].
  unfold bind at 1.
  assert (Hout : logout (Some (Jwt.Jws p (JWT_SECRET w))) w k
                 = (Returned logged_out, S k)).
  { unfold logout, try_catch, bind, ret, jwt_verify. cbn [Jwt.truthy].
    destruct (Jwt.verify _ (JWT_SECRET w) (Date_now w k)); reflexivity. }
  rewrite Hout.
  pose proof (refresh_token_once w Hsecret
                (Some (Jwt.Jws p (JWT_SECRET w))) (S k)) as Hone.
  rewrite (verify_signed (JWT_SECRET w) Hsecret) in Hone.
  apply Z.leb_gt in Hclock. rewrite Hclock in Hone.
  destruct Hone as (r & Hr & Hgr). now exists r, (S (S (S k))).
Qed.

End Registration.

Lemma X4_witness :
  exists w' resp,
    AuthService.users w'
      = Some [AuthService.mkUser 1 "a@b.c" (sample_hash "secret7");
              AuthService.mkUser 2 "d@e.f" (sample_hash "pass8")] /\
    AuthService.login "d@e.f" "pass8" w' 0%nat = (Returned resp, 2%nat) /\
    status resp = 200.
Proof.
  destruct (X4_register_then_login sample_registry sample_hash
              "d@e.f" "pass8"
              [AuthService.mkUser 1 "a@b.c" (sample_hash "secret7")] 0%nat
              eq_refl)
    as (Hround & _).
  destruct (Hround eq_refl ltac:(apply Nat.leb_le; reflexivity)
              ltac:(apply Nat.leb_le; reflexivity)
              ltac:(intros u [<-|[]]; discriminate)
              ltac:(vm_compute; reflexivity) ltac:(discriminate))
    as (w' & resp & _ & Husers & _ & _ & Hlogin & Hstatus & _).
  exists w', resp. split; [exact Husers|]. split; [exact Hlogin|exact Hstatus].
Defined.

Lemma X5_witness :
  exists resp w',
    AuthService.register sample_hash "a@b.c" "other9" sample_registry_unique
      = (resp, w') /\
    status resp = 500 /\
    AuthService.login "a@b.c" "other9" w' 0%nat
      = AuthService.login "a@b.c" "other9" sample_registry_unique 0%nat.
Proof.
  destruct (X5_second_registration_leaves_login_unchanged
              sample_registry_unique sample_hash "a@b.c" "other9"
              (AuthService.mkUser 1 "a@b.c" (sample_hash "secret7")) eq_refl)
    as (resp & w' & Hrun & _ & _ & Hlogin & _ & Hunique & _).
  exists resp, w'. split; [exact Hrun|].
  split; [|apply Hlogin].
  apply Hunique; [reflexivity|]. apply Nat.leb_le. reflexivity.
Defined.

Lemma X6_witness :
  exists r k',
    (_ <- AuthService.logout (Some sample_token) ;;
     AuthService.refresh_token (Some sample_token))%js sample_auth_world 0%nat
      = (Returned r, k') /\
    grants "k3y" sample_claims r.
Proof.
  refine (proj2 (X6_logout_always_succeeds_and_revokes_nothing
                   sample_auth_world sample_claims 0%nat
                   ltac:(discriminate) _)).
  vm_compute. reflexivity.
Defined.

(* ===================================================================== *)
(** ** The order service: creation                                        *)
(* ===================================================================== *)

Section OrderCreation.

Import OrderService.

Variable w : World.

(** What the columns keep of a row they take. *)
Lemma stored_columns (row kept : Row) :
  stored row = Returned kept ->
  varchar 255 (order_id row) = Some (order_id kept) /\
  user_id kept = user_id row /\
  integer (user_id row) = Some (user_id row) /\
  varchar 255 (transaction_id row) = Some (transaction_id kept) /\
  decimal_10_2 (amount row) = Some (amount kept) /\
  nullable (varchar 20) (customer_phone row) = Some (customer_phone kept) /\
  varchar 50 (row_status row) = Some (row_status kept) /\
  cart kept = cart row /\
  created_at kept = created_at row /\
  updated_at kept = updated_at row.
Proof.
  unfold stored, keep.
  destruct (integer (user_id row)) as [uid|] eqn:Huid; [|discriminate].
  destruct (varchar 255 (order_id row)); [|discriminate].
  destruct (varchar 255 (transaction_id row)); [|discriminate].
  destruct (nullable (varchar 255) (conversation_id row)); [|discriminate].
  destruct (nullable (varchar 255) (transaction_reference row));
    [|discriminate].
  destruct (nullable (varchar 255) (third_party_reference row));
    [|discriminate].
  destruct (decimal_10_2 (amount row)); [|discriminate].
  destruct (nullable (varchar 20) (customer_phone row)); [|discriminate].
  destruct (varchar 50 (row_status row)); [|discriminate].
  intros [= <-]. cbn.
  assert (Hsame : uid = user_id row).
  { unfold integer in Huid.
    destruct ((-2147483648 <=? user_id row) && (user_id row <=? 2147483647));
      congruence. }
  subst uid. repeat split; assumption || reflexivity.
Qed.

(** The run of [post_orders], case by case. *)
Lemma post_orders_cases (s : State) (apiKey : option string)
    (req : OrderData) :
  exists resp s',
    post_orders apiKey req w s = (Returned resp, s') /\
    ((Auth.authenticateService (SERVICE_API_KEY w) apiKey = Auth.Next tt /\
      complete_order req = true /\
      db_error w = None /\
      stored (values_row w s req) = Returned (new_row w s req) /\
      free_id (order_id (new_row w s req)) (orders s) = true /\
      refers_to_user (fk_user w) (new_row w s req) = true /\
      resp = mkResponse 201
               (Created true "Order created successfully"
                  (format (new_row w s req))) /\
      orders s' = (orders s ++ [new_row w s req])%list) \/
     (~ (Auth.authenticateService (SERVICE_API_KEY w) apiKey = Auth.Next tt /\
         complete_order req = true /\
         db_error w = None /\
         fits (values_row w s req) = true /\
         free_id (order_id (new_row w s req)) (orders s) = true /\
         refers_to_user (fk_user w) (new_row w s req) = true) /\
      (status resp = 400 \/ status resp = 401 \/ status resp = 403 \/
       status resp = 500) /\
      disclosed (body resp) = [] /\
      orders s' = orders s /\
      (Auth.authenticateService (SERVICE_API_KEY w) apiKey = Auth.Next tt ->
       complete_order req = true ->
       exists e,
         resp = mkResponse 500
                  (Failure false "Failed to create order" (Some e)) /\
         (db_error w = None -> fits (values_row w s req) = true ->
          free_id (order_id (new_row w s req)) (orders s) = false ->
          e = duplicate_key "orders_order_id_key") /\
         (db_error w = None ->
          forall e', stored (values_row w s req) = Thrown e' -> e = e')) /\
      (Auth.authenticateService (SERVICE_API_KEY w) apiKey = Auth.Next tt ->
       complete_order req = false -> status resp = 400))).
Proof.
  unfold post_orders, bind, asks. cbn zeta.
  destruct (Auth.authenticateService _ apiKey) as [r|[]] eqn:Hkey.
  - do 2 eexists. split; [reflexivity|]. right.
    split; [intros (H & _); discriminate H|].
    cbn [status body disclosed].
    split;
      [|split; [reflexivity|split; [reflexivity|split; discriminate]]].
    destruct (authenticateService_codes _ _ _ Hkey) as [-> | ->]; auto.
  - unfold complete_order.
    destruct (falsy_Z (od_userId req) || falsy_string (od_transactionId req)
              || falsy_Q (od_amount req)
              || negb (bool_decide (is_Some (od_cart req)))).
    + do 2 eexists. split; [reflexivity|]. right.
      split; [intros (_ & H & _); discriminate H|].
      cbn [status body disclosed negb].
      split; [now left|]. repeat split; try discriminate.
    + destruct s as [n rows].
      unfold try_catch, bind, ret, throw, now, insert, new_row, fits,
        values_row, free_id.
      destruct (od_timestamp req) as [ts|];
        cbv beta iota zeta delta [reads orders];
        (destruct (db_error w) as [e|] eqn:Hdb; cbv beta iota;
         [|destruct (stored _) as [kept|e] eqn:Hstored; cbv beta iota;
           [destruct (existsb _ rows) eqn:Hex; cbn [negb];
            cbv beta iota;
            [|destruct (refers_to_user (fk_user w) kept) eqn:Hfk;
              cbn [negb]; cbv beta iota]|]]).
      all: do 2 eexists; (split; [reflexivity|]).
      all: first
        [ left; repeat split; reflexivity
        | right; cbn [status body disclosed];
          split;
          [ first
              [ intros (_ & _ & H & _); discriminate H
              | intros (_ & _ & _ & H & _); discriminate H
              | intros (_ & _ & _ & _ & H & _); discriminate H
              | intros (_ & _ & _ & _ & _ & H); discriminate H ]
          | split; [do 3 right; reflexivity|];
            split; [reflexivity|]; split; [reflexivity|];
            split; [|intros _ H; discriminate H];
            intros _ _; eexists; split; [reflexivity|];
            split;
            [ first [ intros H; discriminate H
                    | intros _ H; discriminate H
                    | intros _ _ H; discriminate H
                    | intros _ _ _; reflexivity ]
            | first [ intros H; discriminate H
                    | intros _ e' H; discriminate H
                    | intros _ e' H; injection H as <-; reflexivity ] ] ] ].
Qed.

(** X7. The order table changes only when an order is created. A
    creation request is answered 201 exactly when its key is the
    configured one, its required fields are there, the database answers,
    the columns take the values, the id drawn from the clock is free
    and, on the database of the initialization script, the user exists.
    The table then gains exactly one row, the order sent back: the
    values of the request as the columns keep them, the amount rounded
    to two decimals, with status [paid] and equal creation and update
    times. Every other answer is a 400, 401, 403 or 500 that leaves the
    table as it was and carries no order. *)
Theorem X7_table_changes_only_on_creation (s : State)
    (apiKey : option string) (req : OrderData) :
  exists resp s',
    post_orders apiKey req w s = (Returned resp, s') /\
    (status resp = 201 <->
     Auth.authenticateService (SERVICE_API_KEY w) apiKey = Auth.Next tt /\
     complete_order req = true /\
     db_error w = None /\
     fits (values_row w s req) = true /\
     free_id (order_id (new_row w s req)) (orders s) = true /\
     refers_to_user (fk_user w) (new_row w s req) = true) /\
    (status resp = 201 ->
     exists row,
       stored (values_row w s req) = Returned row /\
       orders s' = (orders s ++ [row])%list /\
       body resp = Created true "Order created successfully" (format row) /\
       row_status row = "paid" /\
       od_userId req = Some (user_id row) /\
       (exists tx,
          od_transactionId req = Some tx /\
          varchar 255 tx = Some (transaction_id row)) /\
       option_map round2 (od_amount req) = Some (amount row) /\
       created_at row = updated_at row) /\
    (status resp <> 201 ->
     orders s' = orders s /\ disclosed (body resp) = [] /\
     (status resp = 400 \/ status resp = 401 \/ status resp = 403 \/
      status resp = 500)).
Proof.
  destruct (post_orders_cases s apiKey req)
    as (resp & s' & Hrun & [Hmade | Hnot]).
  - destruct Hmade
      as (Hkey & Hcomplete & Hdb & Hstored & Hfree & Hfk & -> & Horders).
    do 2 eexists. split; [exact Hrun|]. cbn [status body].
    split.
    { split; [intros _|reflexivity].
      repeat split; try assumption. unfold fits. now rewrite Hstored. }
    split; [|intros Hno; contradiction].
    intros _. exists (new_row w s req).
    split; [exact Hstored|]. split; [exact Horders|]. split; [reflexivity|].
    destruct (stored_columns _ _ Hstored)
      as (_ & Huid & _ & Htx & Hamount & _ & Hstatus & _ & Hcreated
          & Hupdated).
    unfold complete_order in Hcomplete.
    apply negb_true_iff in Hcomplete.
    repeat (apply orb_false_iff in Hcomplete;
            destruct Hcomplete as [Hcomplete ?]).
    unfold values_row in Huid, Htx, Hamount, Hstatus, Hcreated, Hupdated.
    cbn [user_id transaction_id amount row_status created_at updated_at]
      in Huid, Htx, Hamount, Hstatus, Hcreated, Hupdated.
    destruct (od_userId req) as [uid|]; [|discriminate].
    destruct (od_transactionId req) as [tx|]; [|discriminate].
    destruct (od_amount req) as [q|]; [|discriminate].
    cbn [default option_map] in *. unfold id in *.
    split; [now injection Hstatus|]. split; [now rewrite Huid|].
    split; [now exists tx|]. split; [|congruence].
    unfold decimal_10_2 in Hamount.
    destruct (Qle_bool 100000000 (Qabs (round2 q))); congruence.
  - destruct Hnot as (Hwhy & Hstatus & Hnone & Horders & _).
    exists resp, s'. split; [exact Hrun|].
    assert (Hno : status resp <> 201).
    { destruct Hstatus as [-> | [-> | [-> | ->]]]; discriminate. }
    split; [split; [intros H; contradiction|intros H; contradiction]|].
    split; [intros H; contradiction|]. intros _. now repeat split.
Qed.

Lemma free_id_not_in (oid : string) (rows : list Row) :
  free_id oid rows = true -> ~ In oid (List.map order_id rows).
Proof.
  unfold free_id. intros Hfree Hin. apply negb_true_iff in Hfree.
  apply List.in_map_iff in Hin. destruct Hin as (r & Hr & Hin).
  assert (Hex : existsb (fun r => String.eqb (order_id r) oid) rows = true).
  { apply List.existsb_exists. exists r. split; [exact Hin|].
    now apply String.eqb_eq. }
  rewrite Hex in Hfree. discriminate.
Qed.

(** X8. The order ids of the table stay pairwise distinct through any
    sequence of creation requests, whatever their keys and contents. *)
Theorem X8_order_ids_stay_distinct
    (reqs : list (option string * OrderData)) :
  forall s,
    List.NoDup (order_ids s) ->
    exists rs s',
      post_orders_all reqs w s = (Returned rs, s') /\
      List.length rs = List.length reqs /\
      List.NoDup (order_ids s').
Proof.
  induction reqs as [|[apiKey req] reqs IH]; intros s Hdistinct.
  - exists [], s. now repeat split.
  - destruct (post_orders_cases s apiKey req)
      as (resp & s1 & Hrun & Hcase).
    assert (Hs1 : List.NoDup (order_ids s1)).
    { unfold order_ids in *. destruct Hcase as [Hmade | Hnot].
      - destruct Hmade as (_ & _ & _ & _ & Hfree & _ & _ & ->).
        rewrite List.map_app. cbn [List.map].
        apply List.NoDup_app; [exact Hdistinct|repeat constructor; intros []|].
        intros oid Hin [<-|[]].
        exact (free_id_not_in _ _ Hfree Hin).
      - destruct Hnot as (_ & _ & _ & -> & _). exact Hdistinct. }
    destruct (IH s1 Hs1) as (rs & s' & Hrest & Hlen & Hs').
    exists (resp :: rs), s'. split; [|split; [cbn; now rewrite Hlen|exact Hs']].
    cbn [post_orders_all]. unfold bind at 1. rewrite Hrun.
    unfold bind at 1. rewrite Hrest. reflexivity.
Qed.

(** X9. Two orders in the same millisecond. The order id is [ORD]
    followed by the clock reading, so when a second complete,
    authorised creation request is served at a clock reading equal to
    that of the creation before it, the second request is answered 500
    [Failed to create order] and its order is not stored. The error is
    that of the unique constraint on [order_id], unless a column refuses
    a value of the second request, whose error it then is. *)
Theorem X9_second_order_in_the_same_millisecond_is_refused
    (s : State) (apiKey : option string) (req1 req2 : OrderData)
    (resp1 : Response Body) (s1 : State) :
  post_orders apiKey req1 w s = (Returned resp1, s1) ->
  status resp1 = 201 ->
  complete_order req2 = true ->
  Date_now w (reads s1) = Date_now w (reads s) ->
  exists s2,
    post_orders apiKey req2 w s1
      = (Returned
           (mkResponse 500
              (Failure false "Failed to create order"
                 (Some
                    match stored (values_row w s1 req2) with
                    | Returned _ => duplicate_key "orders_order_id_key"
                    | Thrown e => e
                    end))),
         s2) /\
    orders s2 = (orders s ++ [new_row w s req1])%list.
Proof.
  intros Hrun1 Hcreated Hcomplete Hclock.
  destruct (post_orders_cases s apiKey req1)
    as (resp & s' & Hrun & Hcase).
  rewrite Hrun1 in Hrun. injection Hrun as <- <-.
  destruct Hcase as [Hmade | Hnot].
  2:{ destruct Hnot as (_ & Hno & _). exfalso.
      destruct Hno as [H | [H | [H | H]]]; rewrite H in Hcreated;
        discriminate. }
  destruct Hmade as (Hkey & _ & Hdb & Hstored1 & _ & _ & _ & Horders).
  destruct (stored_columns _ _ Hstored1) as (Hid1 & _).
  unfold values_row in Hid1. cbn [order_id] in Hid1.
  destruct (post_orders_cases s1 apiKey req2)
    as (resp2 & s2 & Hrun2 & [Hmade2 | Hnot2]).
  - exfalso.
    destruct Hmade2 as (_ & _ & _ & Hstored2 & Hfree2 & _).
    apply free_id_not_in in Hfree2. apply Hfree2. rewrite Horders.
    rewrite List.map_app. apply List.in_or_app. right. left.
    destruct (stored_columns _ _ Hstored2) as (Hid2 & _).
    unfold values_row in Hid2. cbn [order_id] in Hid2.
    rewrite Hclock in Hid2. congruence.
  - destruct Hnot2 as (_ & _ & _ & Horders2 & Herror & _).
    destruct (Herror Hkey Hcomplete) as (e & -> & Htaken & Hrefused).
    exists s2. split; [|now rewrite Horders2].
    rewrite Hrun2. do 5 f_equal.
    destruct (stored (values_row w s1 req2)) as [kept|e'] eqn:Hstored2;
      [|exact (Hrefused Hdb e' eq_refl)].
    apply (Htaken Hdb).
    { unfold fits. now rewrite Hstored2. }
    unfold free_id. apply negb_false_iff. apply List.existsb_exists.
    exists (new_row w s req1). split.
    + rewrite Horders. apply List.in_or_app. right. now left.
    + apply String.eqb_eq. unfold new_row at 2. rewrite Hstored2.
      destruct (stored_columns _ _ Hstored2) as (Hid2 & _).
      unfold values_row in Hid2. cbn [order_id] in Hid2.
      rewrite Hclock in Hid2. congruence.
Qed.

End OrderCreation.

Lemma X8_witness :
  exists rs s',
    post_orders_all
      [(Some "svc", sample_order 7 "MP1" 10);
       (Some "svc", sample_order 8 "MP2" 20)]
      sample_frozen_orders (OrderService.mkState 0 [])
      = (Returned rs, s') /\
    List.length rs = 2%nat /\
    List.NoDup (order_ids s').
Proof.
  apply (X8_order_ids_stay_distinct sample_frozen_orders
           [(Some "svc", sample_order 7 "MP1" 10);
            (Some "svc", sample_order 8 "MP2" 20)]
           (OrderService.mkState 0 [])).
  constructor.
Defined.

Lemma X9_witness :
  exists s2,
    OrderService.post_orders (Some "svc") (sample_order 8 "MP2" 20)
      sample_frozen_orders
      (snd (OrderService.post_orders (Some "svc") (sample_order 7 "MP1" 10)
              sample_frozen_orders (OrderService.mkState 0 [])))
      = (Returned
           (mkResponse 500
              (OrderService.Failure false "Failed to create order"
                 (Some (duplicate_key "orders_order_id_key")))),
         s2) /\
    List.length (OrderService.orders s2) = 1%nat.
Proof.
  edestruct (X9_second_order_in_the_same_millisecond_is_refused
               sample_frozen_orders (OrderService.mkState 0 []) (Some "svc")
               (sample_order 7 "MP1" 10) (sample_order 8 "MP2" 20))
    as (s2 & Hrun & Horders).
  - vm_compute. reflexivity.
  - reflexivity.
  - reflexivity.
  - reflexivity.
  - exists s2. split; [exact Hrun|]. rewrite Horders. reflexivity.
Defined.

(* ===================================================================== *)
(** ** The order service: reads                                           *)
(* ===================================================================== *)

Section OrderLookups.

Import OrderService.

Variable w : World.
Variable token : option Jwt.Str.
Variable user : Jwt.Payload.

Hypothesis database_up : db_error w = None.

(** The shared shape of the two lookups, the database answering. *)
Lemma lookup_found (key : Row -> string) (ident failure : string)
    (s0 : State) :
  let lookup :=
    try_catch
      (rows <- select (fun r => String.eqb (key r) ident
                                 && (user_id r =? Jwt.userId user)) ;;
       match rows with
       | [] => ret (mkResponse 404 (Failure false "Order not found" None))
       | row :: _ => ret (mkResponse 200 (Single true (format row)))
       end)%js
      (fun e => ret (mkResponse 500 (Failure false failure (Some e)))) in
  exists resp,
    lookup w s0 = (Returned resp, s0) /\
    (status resp = 200 <->
     exists r, In r (orders s0) /\ key r = ident /\
               user_id r = Jwt.userId user) /\
    (status resp = 200 ->
     exists r, In r (orders s0) /\ key r = ident /\
               user_id r = Jwt.userId user /\
               body resp = Single true (format r)) /\
    (status resp <> 200 -> resp = not_found).
Proof.
  intros lookup. unfold lookup, try_catch, bind, select, ret.
  rewrite database_up.
  destruct (List.filter _ (orders s0)) as [|row rows] eqn:Hsel.
  - eexists. split; [reflexivity|]. cbn [status body].
    split; [|split; [discriminate|reflexivity]].
    split; [discriminate|]. intros (r & Hin & Hkey & Huid). exfalso.
    assert (Hr : In r []).
    { rewrite <- Hsel. apply List.filter_In. split; [exact Hin|].
      apply andb_true_iff. split.
      - now apply String.eqb_eq.
      - now apply Z.eqb_eq. }
    destruct Hr.
  - assert (Hrow : In row (row :: rows)) by now left.
    rewrite <- Hsel in Hrow. apply List.filter_In in Hrow.
    destruct Hrow as [Hin Hrow]. apply andb_true_iff in Hrow.
    destruct Hrow as [Hkey Huid].
    apply String.eqb_eq in Hkey. apply Z.eqb_eq in Huid.
    eexists. split; [reflexivity|]. cbn [status body].
    split; [|split].
    + split; [|reflexivity]. intros _. now exists row.
    + intros _. now exists row.
    + intros Hno. contradiction.
Qed.

(** X12. With the database answering, a lookup by order id, and likewise
    a lookup by transaction id, is answered 200 exactly when the table
    has a row that bears the identifier and belongs to the caller; the
    order sent is such a row. Every other lookup is answered 404. *)
Theorem X12_lookups_find_exactly_the_callers_orders (s : State)
    (ident : string) :
  Auth.authenticateToken (JWT_SECRET w) (Date_now w (reads s)) token
    = Auth.Next user ->
  (exists resp s',
     get_order_by_id token ident w s = (Returned resp, s') /\
     (status resp = 200 <->
      exists r, In r (orders s) /\ order_id r = ident /\
                user_id r = Jwt.userId user) /\
     (status resp = 200 ->
      exists r, In r (orders s) /\ order_id r = ident /\
                user_id r = Jwt.userId user /\
                body resp = Single true (format r)) /\
     (status resp <> 200 -> resp = not_found)) /\
  (exists resp s',
     get_order_by_transaction token ident w s = (Returned resp, s') /\
     (status resp = 200 <->
      exists r, In r (orders s) /\ transaction_id r = ident /\
                user_id r = Jwt.userId user) /\
     (status resp = 200 ->
      exists r, In r (orders s) /\ transaction_id r = ident /\
                user_id r = Jwt.userId user /\
                body resp = Single true (format r)) /\
     (status resp <> 200 -> resp = not_found)).
Proof.
  intros authentic. split.
  - unfold get_order_by_id.
    rewrite (authenticated_runs w s token user authentic).
    destruct (lookup_found order_id ident "Failed to fetch order"
                (mkState (S (reads s)) (orders s)))
      as (resp & Hrun & H1 & H2 & H3).
    exists resp. eexists. split; [exact Hrun|].
    split; [exact H1|split; [exact H2|exact H3]].
  - unfold get_order_by_transaction.
    rewrite (authenticated_runs w s token user authentic).
    destruct (lookup_found transaction_id ident "Failed to fetch order"
                (mkState (S (reads s)) (orders s)))
      as (resp & Hrun & H1 & H2 & H3).
    exists resp. eexists. split; [exact Hrun|].
    split; [exact H1|split; [exact H2|exact H3]].
Qed.

Lemma free_id_no_match (oid : string) (rows : list Row) (f : Row -> bool) :
  free_id oid rows = true ->
  List.filter (fun r => String.eqb (order_id r) oid && f r) rows = [].
Proof.
  unfold free_id. intros Hfree. apply negb_true_iff in Hfree.
  induction rows as [|r rows IH]; [reflexivity|].
  cbn in Hfree |- *. apply orb_false_iff in Hfree.
  destruct Hfree as [Hr Hrows]. rewrite Hr. cbn. exact (IH Hrows).
Qed.

(** X10. Creation and lookup round trip. The order a creation request
    is answered with (201) is the order its owner then gets when looking
    up the id it was given. *)
Theorem X10_created_order_is_found_by_its_owner (s s1 : State)
    (apiKey : option string) (req : OrderData) (order : Order) :
  post_orders apiKey req w s
    = (Returned
         (mkResponse 201 (Created true "Order created successfully" order)),
       s1) ->
  Auth.authenticateToken (JWT_SECRET w) (Date_now w (reads s1)) token
    = Auth.Next user ->
  od_userId req = Some (Jwt.userId user) ->
  exists s2,
    get_order_by_id token (orderId order) w s1
      = (Returned (mkResponse 200 (Single true order)), s2) /\
    userId order = Jwt.userId user /\
    orders s2 = (orders s ++ [new_row w s req])%list.
Proof.
  intros Hcreate authentic Howner.
  destruct (post_orders_cases w s apiKey req)
    as (resp & s' & Hrun & Hcase).
  rewrite Hcreate in Hrun. injection Hrun as <- <-.
  destruct Hcase as [Hmade | Hnot];
    [|destruct Hnot as (_ & [H | [H | [H | H]]] & _); discriminate H].
  destruct Hmade as (_ & _ & _ & Hstored & Hfree & _ & Hresp & Horders).
  injection Hresp as ->.
  unfold get_order_by_id.
  rewrite (authenticated_runs w s1 token user authentic).
  unfold try_catch, bind, select, ret. rewrite database_up.
  cbn [orders]. rewrite Horders, List.filter_app.
  change (orderId (format (new_row w s req)))
    with (order_id (new_row w s req)).
  rewrite (free_id_no_match _ _ _ Hfree). cbn [List.app List.filter].
  rewrite String.eqb_refl.
  assert (Huid : user_id (new_row w s req) = Jwt.userId user).
  { destruct (stored_columns _ _ Hstored) as (_ & -> & _).
    unfold values_row. cbn [user_id]. now rewrite Howner. }
  rewrite Huid, Z.eqb_refl. cbn [andb].
  eexists. split; [reflexivity|]. split; [exact Huid|reflexivity].
Qed.

End OrderLookups.

Lemma X12_witness :
  fst (OrderService.get_order_by_transaction (Some sample_token) "MP1"
         sample_order_world sample_orders)
    = Returned
        (mkResponse 200
           (OrderService.Single true
              (OrderService.format (sample_row "ORD1" 7 "MP1")))).
Proof.
  destruct (X12_lookups_find_exactly_the_callers_orders sample_order_world
              (Some sample_token) sample_claims eq_refl sample_orders "MP1"
              eq_refl)
    as (_ & (resp & s' & Hrun & Hiff & _)).
  rewrite Hrun. cbn [fst]. clear Hiff. revert Hrun. vm_compute.
  intros [= <- _]. reflexivity.
Defined.

Lemma X10_witness :
  exists order s1 s2,
    OrderService.post_orders (Some "svc") (sample_order 7 "MP3" 30)
      sample_order_world sample_orders
      = (Returned
           (mkResponse 201
              (OrderService.Created true "Order created successfully" order)),
         s1) /\
    OrderService.get_order_by_id (Some sample_token)
      (OrderService.orderId order) sample_order_world s1
      = (Returned (mkResponse 200 (OrderService.Single true order)), s2).
Proof.
  pose (run := OrderService.post_orders (Some "svc")
                 (sample_order 7 "MP3" 30) sample_order_world sample_orders).
  pose (order := OrderService.format
                   (new_row sample_order_world sample_orders
                      (sample_order 7 "MP3" 30))).
  destruct (X10_created_order_is_found_by_its_owner sample_order_world
              (Some sample_token) sample_claims eq_refl sample_orders
              (snd run) (Some "svc") (sample_order 7 "MP3" 30) order
              ltac:(vm_compute; reflexivity) ltac:(vm_compute; reflexivity)
              eq_refl)
    as (s2 & Hfound & _).
  exists order, (snd run), s2. split; [vm_compute; reflexivity|exact Hfound].
Defined.

Section OrderListing.

Import OrderService.

Lemma insert_desc_permutation (r : Row) (l : list Row) :
  Permutation (insert_desc r l) (r :: l).
Proof.
  induction l as [|x l IH]; cbn.
  - apply Permutation_refl.
  - destruct (created_at x <? created_at r).
    + apply Permutation_refl.
    + apply perm_trans with (x :: r :: l).
      * now apply perm_skip.
      * apply perm_swap.
Qed.

Lemma order_by_permutation (l : list Row) :
  Permutation (order_by_created_at_desc l) l.
Proof.
  induction l as [|x l IH]; cbn.
  - apply Permutation_refl.
  - apply perm_trans with (x :: order_by_created_at_desc l).
    + apply insert_desc_permutation.
    + now apply perm_skip.
Qed.

Lemma insert_desc_sorted (r : Row) (l : list Row) :
  StronglySorted (fun a b => created_at a >= created_at b) l ->
  StronglySorted (fun a b => created_at a >= created_at b) (insert_desc r l).
Proof.
  induction l as [|x l IH]; intros Hsorted; cbn.
  - constructor; constructor.
  - apply StronglySorted_inv in Hsorted. destruct Hsorted as [Hl Hx].
    destruct (created_at x <? created_at r) eqn:Hlt.
    + apply Z.ltb_lt in Hlt. constructor.
      * now constructor.
      * constructor; [lia|].
        apply List.Forall_forall. intros y Hy.
        pose proof (proj1 (List.Forall_forall _ _) Hx y Hy). cbn in *. lia.
    + apply Z.ltb_ge in Hlt. constructor; [now apply IH|].
      apply List.Forall_forall. intros y Hy.
      apply In_insert_desc in Hy. destruct Hy as [-> | Hy]; [lia|].
      exact (proj1 (List.Forall_forall _ _) Hx y Hy).
Qed.

Lemma order_by_sorted (l : list Row) :
  StronglySorted (fun a b => created_at a >= created_at b)
    (order_by_created_at_desc l).
Proof.
  induction l as [|x l IH]; cbn; [constructor|].
  now apply insert_desc_sorted.
Qed.

Lemma sorted_format (l : list Row) :
  StronglySorted (fun a b => created_at a >= created_at b) l ->
  StronglySorted (fun a b => createdAt a >= createdAt b) (List.map format l).
Proof.
  induction 1 as [|x l Hl IH Hx]; cbn; constructor; [exact IH|].
  apply List.Forall_forall. intros o Ho.
  apply List.in_map_iff in Ho. destruct Ho as (y & <- & Hy).
  exact (proj1 (List.Forall_forall _ _) Hx y Hy).
Qed.

(** X11. With the database answering, the list of orders sent to an
    authenticated caller holds all the rows of the table that belong to
    the caller, each once, and no other; it is ordered from the newest
    to the oldest, and [count] is its length. *)
Theorem X11_get_orders_lists_all_own_orders_newest_first
    (w : World) (s : State) (token : option Jwt.Str) (user : Jwt.Payload) :
  Auth.authenticateToken (JWT_SECRET w) (Date_now w (reads s)) token
    = Auth.Next user ->
  db_error w = None ->
  exists data s',
    get_orders token w s
      = (Returned
           (mkResponse 200 (Listing true (Z.of_nat (List.length data)) data)),
         s') /\
    Permutation data
      (List.map format
         (List.filter (fun r => user_id r =? Jwt.userId user) (orders s))) /\
    StronglySorted (fun a b => createdAt a >= createdAt b) data.
Proof.
  intros authentic database_up.
  unfold get_orders. rewrite (authenticated_runs w s token user authentic).
  unfold try_catch, bind, select, ret. rewrite database_up. cbn [orders].
  do 2 eexists. split; [reflexivity|]. split.
  - apply Permutation_map. apply order_by_permutation.
  - apply sorted_format. apply order_by_sorted.
Qed.

End OrderListing.

Lemma X11_witness :
  exists data s',
    OrderService.get_orders (Some sample_token) sample_order_world
      sample_orders
      = (Returned
           (mkResponse 200
              (OrderService.Listing true (Z.of_nat (List.length data)) data)),
         s') /\
    Permutation data [OrderService.format (sample_row "ORD1" 7 "MP1")].
Proof.
  destruct (X11_get_orders_lists_all_own_orders_newest_first
              sample_order_world sample_orders (Some sample_token)
              sample_claims eq_refl eq_refl)
    as (data & s' & Hrun & Hall & _).
  exists data, s'. split; [exact Hrun|exact Hall].
Defined.

(* ===================================================================== *)
(** ** The payment service: references and phone numbers                  *)
(* ===================================================================== *)

Section Formats.

Import PaymentService.

(** X13. The phone number sent to the gateway always starts with the
    country prefix 258, and normalising is idempotent: a number that
    starts with 258 is left as it is, any other gets the prefix once. *)
Theorem X13_formatPhoneNumber_prefixes_once (phone : string) :
  String.prefix "258" (formatPhoneNumber phone) = true /\
  formatPhoneNumber (formatPhoneNumber phone) = formatPhoneNumber phone /\
  (String.prefix "258" phone = true -> formatPhoneNumber phone = phone) /\
  (String.prefix "258" phone = false ->
   formatPhoneNumber phone = ("258" ++ phone)%string).
Proof.
  unfold formatPhoneNumber.
  destruct (String.prefix "258" phone) eqn:Hprefix.
  - rewrite Hprefix. repeat split. discriminate.
  - assert (Hadded : String.prefix "258" ("258" ++ phone) = true).
    { destruct phone; reflexivity. }
    rewrite Hadded. repeat split. discriminate.
Qed.

Lemma substring_length_le (n m : nat) (s : string) :
  (String.length (String.substring n m s) <= m)%nat.
Proof.
  revert n m. induction s as [|c s IH]; intros [|n] [|m]; cbn;
    try lia; try apply IH.
  specialize (IH 0%nat m). lia.
Qed.

Lemma toUpperCase_length (s : string) :
  String.length (toUpperCase s) = String.length s.
Proof. induction s as [|c s IH]; cbn; [reflexivity|now rewrite IH]. Qed.

Lemma upper_not_lowercase (c : ascii) :
  ((97 <=? nat_of_ascii (upper c))%nat
   && (nat_of_ascii (upper c) <=? 122)%nat) = false.
Proof.
  unfold upper.
  destruct ((97 <=? nat_of_ascii c)%nat && (nat_of_ascii c <=? 122)%nat)
    eqn:Hlow; [|exact Hlow].
  apply andb_true_iff in Hlow. destruct Hlow as [Hlo Hhi].
  apply Nat.leb_le in Hlo. apply Nat.leb_le in Hhi.
  rewrite nat_ascii_embedding by lia.
  apply andb_false_iff. left. apply Nat.leb_gt. lia.
Qed.

Lemma toUpperCase_no_lowercase (s : string) :
  no_lowercase (toUpperCase s) = true.
Proof.
  induction s as [|c s IH]; cbn [toUpperCase no_lowercase]; [reflexivity|].
  now rewrite upper_not_lowercase, IH.
Qed.

(** X14. Whatever number is drawn and however it prints in base 36, the
    third-party reference has at most ten characters and none of them is
    a lower-case letter; generating it draws one random number and
    nothing else. *)
Theorem X14_third_party_reference_format (w : World) (s : State) :
  exists ref,
    generateThirdPartyRef w s
      = (Returned ref, emit (RandomDraw (Math_random w (ticks s))) s) /\
    (String.length ref <= 10)%nat /\
    no_lowercase ref = true.
Proof.
  unfold generateThirdPartyRef, bind, random, asks, ret. cbn zeta.
  eexists. split; [reflexivity|]. split.
  - rewrite toUpperCase_length. apply substring_length_le.
  - apply toUpperCase_no_lowercase.
Qed.

End Formats.

(* ===================================================================== *)
(** ** The payment service: the shape of a run                            *)
(* ===================================================================== *)

Section Runs.

Import PaymentService.

Ltac step_run H :=
  cbv beta iota zeta delta
    [post_payment payment_handler try_catch bind ret throw asks now random
     generateTransactionRef generateThirdPartyRef processMpesaPayment
     createOrder sendEmail post_mpesa post_order post_email property_of
     success statusCode data error call_success call_data call_error
     status body reply_data andb negb emit ticks log] in H.

Ltac case_run H :=
  match type of H with
  | context [match req_total ?r with _ => _ end] =>
      destruct (req_total r) eqn:?
  | context [if invalid_total ?x then _ else _] =>
      destruct (invalid_total x) eqn:?
  | context [match mpesa ?w ?l ?p with _ => _ end] =>
      destruct (mpesa w l p) as [[? [?|]]|? ?] eqn:?
  | context [if (?a =? 201) then _ else _] =>
      destruct (a =? 201) eqn:?
  | context [match order_service ?w ?l ?p with _ => _ end] =>
      destruct (order_service w l p) as [[? [[[| |?]]|]]|? ?] eqn:?
  | context [match email_service ?w ?l ?p with _ => _ end] =>
      destruct (email_service w l p) as [[? ?]|? ?] eqn:?
  end.

Ltac run_all H := step_run H; repeat (case_run H; step_run H).

Ltac flatten_log :=
  cbn [log]; repeat rewrite <- List.app_assoc; cbn [List.app];
  rewrite ?since_app.

Ltac pick_call H :=
  cbn [In] in H;
  repeat (destruct H as [H|H]; [try discriminate H|]);
  try contradiction.

Ltac find_call :=
  solve [cbn [In]; repeat (first [left; reflexivity | right])].

Variable w : World.
Variable s : State.
Variable req : PaymentRequest.



(** X19. The collaborators are called in the order gateway, order
    service, e-mail service, each at most once and none without the one
    before it; the handler never throws, and it answers 200 with
    [success: true] exactly in the runs that get as far as the e-mail
    service. *)
Theorem X19_collaborators_are_called_in_order (user : Jwt.Payload) :
  exists resp s',
    payment_handler user req w s = (Returned resp, s') /\
    (collaborators (since (log s) (log s')) = [] \/
     collaborators (since (log s) (log s')) = [TheGateway] \/
     collaborators (since (log s) (log s')) = [TheGateway; TheOrderStore] \/
     collaborators (since (log s) (log s'))
       = [TheGateway; TheOrderStore; TheNotifier]) /\
    (collaborators (since (log s) (log s'))
       = [TheGateway; TheOrderStore; TheNotifier] <->
     exists d,
       resp = mkResponse 200 (Paid true "Payment processed successfully" d)).
Proof.
  destruct (payment_handler user req w s) as [resp s'] eqn:Hrun.
  destruct s as [n l].
  run_all Hrun.
  all: injection Hrun as <- <-.
  all: do 2 eexists; (split; [reflexivity|]); flatten_log.
  all: cbn [collaborators flat_map collaborator List.app].
  all: split; [auto|].
  all: split; [try discriminate; intros _; eexists; reflexivity|].
  all: try (intros (d & Hd); discriminate Hd).
  all: intros _; reflexivity.
Qed.


(** X17. What a successful answer reports is what was charged and
    recorded. In a run answered 200 with [success: true], the references
    and the amount of the answer are those sent to the gateway and to
    the order service, the amount is the total of the request, the
    transaction id is the one the gateway returned, the order is filed
    under the [userId] of the caller's token, and the cart went
    unchanged to the order service and to the e-mail service. The
    gateway gets the phone number with the country prefix; the order
    service and the e-mail service get it as the request had it, or the
    default number. *)
Theorem X17_answer_mirrors_the_charge_and_the_order
    (user : Jwt.Payload) (s' : State) (message : string) (d : PaymentData) :
  payment_handler user req w s
    = (Returned (mkResponse 200 (Paid true message d)), s') ->
  exists total payload output key order oanswer erequest eanswer,
    req_total req = Some total /\
    In (Gateway payload (Resolved (mkResponse 201 (Some output))))
       (since (log s) (log s')) /\
    In (OrderStore key order oanswer) (since (log s) (log s')) /\
    In (Notification key erequest eanswer) (since (log s) (log s')) /\
    (input_TransactionReference payload = transactionReference d /\
     OrderService.od_transactionReference order
       = Some (transactionReference d) /\
     input_ThirdPartyReference payload = thirdPartyReference d /\
     OrderService.od_thirdPartyReference order
       = Some (thirdPartyReference d)) /\
    (input_Amount payload = total /\
     amount d = total /\
     OrderService.od_amount order = Some total /\
     email_total erequest = total) /\
    (transactionId d = output_TransactionID output /\
     OrderService.od_transactionId order = output_TransactionID output /\
     OrderService.od_userId order = Some (Jwt.userId user)) /\
    (input_CustomerMSISDN payload
       = formatPhoneNumber (or_default_phone (req_customerPhone req)) /\
     OrderService.od_customerPhone order
       = Some (or_default_phone (req_customerPhone req)) /\
     email_customerPhone erequest
       = or_default_phone (req_customerPhone req)) /\
    (cart d = req_cart req /\
     OrderService.od_cart order = req_cart req /\
     email_cart erequest = req_cart req).
Proof.
  intros Hrun. destruct s as [n l].
  run_all Hrun.
  all: try discriminate Hrun.
  all: injection Hrun; intros; subst s' d message.
  all: match goal with
       | Hst : (?st =? 201) = true |- _ => apply Z.eqb_eq in Hst; subst st
       end.
  all: flatten_log.
  all: do 8 eexists.
  all: split; [reflexivity|].
  all: split; [find_call|].
  all: split; [find_call|].
  all: split; [find_call|].
  all: repeat split.
Qed.

(** X18. The e-mail service cannot change the answer: with any other
    e-mail service, answering anything, the same request in the same
    state gets the same answer, timings included when the clock reads
    the same. *)
Theorem X18_notification_never_changes_the_answer (user : Jwt.Payload)
    (f : nat -> EmailRequest -> AxiosResult unit Json) :
  fst (payment_handler user req (with_email_service w f) s)
    = fst (payment_handler user req w s).
Proof.
  destruct (payment_handler user req w s) as [resp s'] eqn:Hrun.
  destruct (payment_handler user req (with_email_service w f) s)
    as [resp2 s2] eqn:Hrun2.
  destruct s as [n l]. cbn [fst].
  unfold with_email_service in Hrun2.
  run_all Hrun.
  all: repeat
         (step_run Hrun2;
          cbn [mpesa order_service email_service Date_now Math_random
               toString36 serviceProviderCode SERVICE_API_KEY JWT_SECRET]
            in Hrun2;
          match goal with
          | H : req_total _ = _ |- _ => rewrite H in Hrun2; clear H
          | H : invalid_total _ = _ |- _ => rewrite H in Hrun2; clear H
          | H : mpesa _ _ _ = _ |- _ => rewrite H in Hrun2; clear H
          | H : order_service _ _ _ = _ |- _ => rewrite H in Hrun2; clear H
          | H : (_ =? 201) = _ |- _ => rewrite H in Hrun2; clear H
          | H : email_service _ _ _ = _ |- _ => clear H
          | |- _ => destruct (f _ _) as [[? ?]|? ?]
          end).
  all: step_run Hrun2.
  all: injection Hrun as <- <-; injection Hrun2 as <- <-; reflexivity.
Qed.

(** X16. The orders the payment service sends, and the order service.
    [createOrder] posts to [/orders] behind [ORDER_SERVICE_URL], and the
    order service serves its routes under [/api]: with the default URL,
    which has no path, the order of every charge is answered 404 and is
    not stored. Behind a URL that ends in [/api], and with the same
    non-empty key on both sides, the order service never turns an order
    of the payment service down for its key (401, 403): it answers 201,
    400 or 500. It answers 400, so that the charge is not recorded,
    exactly when the caller's [userId] is 0, the payment request had no
    [cart], or the gateway returned no transaction id. *)
Theorem X16_orders_sent_fit_the_order_service (user : Jwt.Payload)
    (out : Outcome (Response Body)) (s' : State)
    (key : option string) (order : OrderService.OrderData)
    (answer : AxiosResult (option OrderReply) Json)
    (k : string) (ow : OrderService.World) (os : OrderService.State) :
  payment_handler user req w s = (out, s') ->
  In (OrderStore key order answer) (since (log s) (log s')) ->
  SERVICE_API_KEY w = Some k ->
  k <> ""%string ->
  OrderService.SERVICE_API_KEY ow = Some k ->
  OrderService.app_post (order_path "") key order ow os
    = (Returned (mkResponse 404 None), os) /\
  exists resp os',
    OrderService.app_post (order_path "/api") key order ow os
      = (Returned (mkResponse (status resp) (Some (body resp))), os') /\
    OrderService.post_orders key order ow os = (Returned resp, os') /\
    (status resp = 201 \/ status resp = 400 \/ status resp = 500) /\
    (status resp = 400 <->
     Jwt.userId user = 0 \/ req_cart req = None \/
     falsy_string (OrderService.od_transactionId order) = true).
Proof.
  intros Hrun Hin Hkey Hk Hokey. split; [reflexivity|].
  assert (Hcomplete :
    key = Some k /\
    (complete_order order = false <->
     Jwt.userId user = 0 \/ req_cart req = None \/
     falsy_string (OrderService.od_transactionId order) = true)).
  { destruct s as [n l].
    run_all Hrun.
    all: injection Hrun as <- <-.
    all: revert Hin; flatten_log; intros Hin; pick_call Hin.
    all: injection Hin as <- <- <-.
    all: split; [exact Hkey|].
    all: unfold complete_order.
    all: cbn [OrderService.od_userId OrderService.od_transactionId
              OrderService.od_amount OrderService.od_cart falsy_Z].
    all: match goal with
         | H : invalid_total (Some ?q) = false |- _ =>
             unfold invalid_total in H; apply orb_false_iff in H;
             destruct H as [Hq _]; rewrite Hq
         end.
    all: rewrite orb_false_r.
    all: destruct (Jwt.userId user =? 0) eqn:Huser;
      [apply Z.eqb_eq in Huser|apply Z.eqb_neq in Huser]; cbn [orb negb].
    all: try (split; [intros _; left; exact Huser|reflexivity]).
    all: match goal with
         | |- context [falsy_string ?t] => destruct (falsy_string t) eqn:Htx
         end; cbn [orb negb].
    all: try (split; [intros _; right; right; reflexivity|reflexivity]).
    all: destruct (req_cart req) as [items|] eqn:Hcart; cbn.
    all: try (split; [intros _; right; left; reflexivity|reflexivity]).
    all: split; [discriminate|].
    all: intros [H|[H|H]]; [contradiction|discriminate H|discriminate H]. }
  destruct Hcomplete as (-> & Hcomplete).
  assert (Hauth :
    Auth.authenticateService (OrderService.SERVICE_API_KEY ow) (Some k)
      = Auth.Next tt).
  { rewrite Hokey. unfold Auth.authenticateService.
    apply String.eqb_neq in Hk. now rewrite Hk, String.eqb_refl. }
  destruct (post_orders_cases ow os (Some k) order)
    as (resp & os' & Hpost & Hcase).
  exists resp, os'. split.
  { unfold OrderService.app_post, bind, ret.
    change (OrderService.serves "/api/orders" (order_path "/api"))
      with true.
    cbv beta iota. now rewrite Hpost. }
  split; [exact Hpost|].
  rewrite <- Hcomplete.
  destruct Hcase as [Hmade | Hnot].
  - destruct Hmade as (_ & Hall & _ & _ & _ & _ & -> & _).
    cbn [status]. split; [now left|].
    split; [discriminate|]. rewrite Hall. discriminate.
  - destruct Hnot as (_ & _ & _ & _ & Herror & Hmissing).
    destruct (complete_order order) eqn:Hall.
    + destruct (Herror Hauth eq_refl) as (e & -> & _).
      cbn [status]. split; [now right; right|].
      split; discriminate.
    + rewrite (Hmissing Hauth eq_refl).
      split; [now right; left|]. now split.
Qed.

(** X21. The notifications the payment service sends, and the e-mail
    service. With the same non-empty key on both sides, the e-mail
    service answers a notification of the payment service 200 when the
    payment request had a [cart] and 500 when it had none, and never
    401 or 403. *)
Theorem X21_notifications_sent_fit_the_email_service (user : Jwt.Payload)
    (out : Outcome (Response Body)) (s' : State)
    (key : option string) (request : EmailRequest)
    (answer : AxiosResult unit Json) (k : string) :
  payment_handler user req w s = (out, s') ->
  In (Notification key request answer) (since (log s) (log s')) ->
  SERVICE_API_KEY w = Some k ->
  k <> ""%string ->
  status (EmailService.send_email (Some k) key request)
    = match req_cart req with Some _ => 200 | None => 500 end.
Proof.
  intros Hrun Hin Hkey Hk. destruct s as [n l].
  apply String.eqb_neq in Hk.
  run_all Hrun.
  all: injection Hrun as <- <-.
  all: revert Hin; flatten_log; intros Hin; pick_call Hin.
  all: injection Hin as <- <- <-.
  all: unfold EmailService.send_email.
  all: rewrite Hkey; cbn [Auth.authenticateService].
  all: rewrite Hk, String.eqb_refl; cbn [email_cart].
  all: destruct (req_cart req); reflexivity.
Qed.

End Runs.

Lemma X17_witness :
  exists d payload answer,
    fst (PaymentService.payment_handler sample_claims (sample_request 200)
           sample_orders_down fresh_process)
      = Returned
          (mkResponse 200
             (PaymentService.Paid true "Payment processed successfully" d)) /\
    In (PaymentService.Gateway payload answer)
       (PaymentService.log
          (snd (PaymentService.payment_handler sample_claims
                  (sample_request 200) sample_orders_down fresh_process))) /\
    PaymentService.input_TransactionReference payload
      = PaymentService.transactionReference d /\
    PaymentService.input_Amount payload = PaymentService.amount d.
Proof.
  edestruct (X17_answer_mirrors_the_charge_and_the_order sample_orders_down
               fresh_process (sample_request 200) sample_claims)
    as (total & payload & output & key & order & oanswer & erequest & eanswer
        & _ & Hgateway & _ & _ & (Href & _) & (Hcharged & Hamount & _) & _).
  - vm_compute. reflexivity.
  - do 3 eexists. split; [vm_compute; reflexivity|].
    split; [exact Hgateway|]. split; [exact Href|].
    now rewrite Hcharged, Hamount.
Defined.

Lemma X16_witness :
  exists order resp os',
    OrderService.app_post "/orders" (Some "svc") order sample_order_world
      sample_orders = (Returned (mkResponse 404 None), sample_orders) /\
    OrderService.app_post "/api/orders" (Some "svc") order
      sample_order_world sample_orders
      = (Returned (mkResponse (status resp) (Some (body resp))), os') /\
    (status resp = 201 \/ status resp = 400 \/ status resp = 500).
Proof.
  pose (run := PaymentService.payment_handler sample_claims
                 (sample_request 200) sample_all_up fresh_process).
  pose (output := PaymentService.mkMpesaData (Some "MP1") (Some "c1")
                    (Some "INS-0") (Some "Request processed successfully")).
  pose (order := order_sent sample_all_up fresh_process sample_claims
                   (sample_request 200) 200 output).
  destruct (X16_orders_sent_fit_the_order_service sample_all_up
              fresh_process (sample_request 200) sample_claims
              (fst run) (snd run) (Some "svc") order
              (order_answer sample_all_up fresh_process sample_claims
                 (sample_request 200) 200 output)
              "svc" sample_order_world sample_orders
              ltac:(vm_compute; reflexivity)
              ltac:(vm_compute; do 9 right; left; reflexivity)
              eq_refl ltac:(discriminate) eq_refl)
    as (Hdefault & resp & os' & Hrouted & _ & Hstatus & _).
  exists order, resp, os'. split; [exact Hdefault|].
  split; [exact Hrouted|exact Hstatus].
Defined.

Lemma X21_witness :
  exists request,
    status (EmailService.send_email (Some "svc") (Some "svc") request) = 500.
Proof.
  eexists.
  eapply (X21_notifications_sent_fit_the_email_service sample_all_up
            fresh_process sample_request_without_cart sample_claims _ _
            (Some "svc") _ _ "svc").
  - vm_compute. reflexivity.
  - vm_compute. do 12 right. left. reflexivity.
  - reflexivity.
  - discriminate.
Defined.

(* ===================================================================== *)
(** ** The client: token storage and the requests without a refresh      *)
(* ===================================================================== *)

Section ClientRequests.

Import Client.

Variable w : World.

(** X22. Token storage round trip. In a browser, after [saveTokens] the
    two getters read back what was saved, as strings; after
    [clearTokens] both read [null]. None of this sends a request or
    touches another key of the storage. *)
Theorem X22_token_storage_round_trip (st : State)
    (a r : option Jwt.Str) :
  window_defined w = true ->
  exists st1 st2,
    saveTokens a r w st = (Returned tt, st1) /\
    getAccessToken w st1 = (Returned (Some (Jwt.to_String a)), st1) /\
    getRefreshToken w st1 = (Returned (Some (Jwt.to_String r)), st1) /\
    clearTokens w st1 = (Returned tt, st2) /\
    getAccessToken w st2 = (Returned None, st2) /\
    getRefreshToken w st2 = (Returned None, st2) /\
    sent st2 = sent st /\
    forall key,
      key <> "accessToken" -> key <> "refreshToken" ->
      localStorage st1 !! key = localStorage st !! key /\
      localStorage st2 !! key = localStorage st !! key.
Proof.
  intros window. destruct st as [m l].
  unfold saveTokens, clearTokens, getAccessToken, getRefreshToken, bind,
    asks, ret, getItem, setItem, removeItem.
  rewrite window. cbn [localStorage sent].
  do 2 eexists. split; [reflexivity|]. cbn [localStorage sent].
  split.
  { rewrite lookup_insert_ne by discriminate.
    now rewrite lookup_insert_eq. }
  split; [now rewrite lookup_insert_eq|].
  split; [reflexivity|]. cbn [localStorage sent].
  split.
  { rewrite lookup_delete_ne by discriminate.
    now rewrite lookup_delete_eq. }
  split; [now rewrite lookup_delete_eq|].
  split; [reflexivity|].
  intros key Ha Hr. split.
  - now rewrite !lookup_insert_ne by congruence.
  - rewrite !lookup_delete_ne by congruence.
    now rewrite !lookup_insert_ne by congruence.
Qed.

(** X23. Without an access token nothing is sent. Outside a browser, or
    when the storage holds no access token or an empty one,
    [processPayment], [getOrders] and [getOrderById] throw
    [Authentication required] and leave the page as it was: no request
    goes out, and no refresh is tried even if a refresh token is
    there. *)
Theorem X23_without_access_token_nothing_is_sent (st : State)
    (request : PaymentService.PaymentRequest) (orderId : string) :
  window_defined w = false \/
  Jwt.truthy (localStorage st !! "accessToken") = false ->
  processPayment request w st = (Thrown authentication_required, st) /\
  getOrders w st = (Thrown authentication_required, st) /\
  getOrderById orderId w st = (Thrown authentication_required, st).
Proof.
  intros Hnone. destruct st as [m l]. cbn [localStorage] in Hnone.
  cbv beta iota zeta delta
    [processPayment getOrders getOrderById getAccessToken getItem
     bind ret throw asks localStorage].
  destruct (window_defined w); cbv beta iota.
  - destruct Hnone as [H|H]; [discriminate H|]. rewrite H.
    repeat split.
  - repeat split.
Qed.

(** X24. [processPayment] refreshes on the expiry signal only. When the
    payment request is answered and the answer does not signal expiry,
    that request is the only one sent, the storage is untouched, and the
    result is: the body of the answer when the status is 2xx or 400;
    [Authentication failed] on a 401 whose body parses; and [Payment
    service unavailable] on every other status, 403 and 5xx included. *)
Theorem X24_processPayment_refreshes_on_expiry_only (st : State)
    (request : PaymentService.PaymentRequest) (a : Jwt.Str)
    (reply : Reply PaymentService.Body) :
  window_defined w = true ->
  localStorage st !! "accessToken" = Some a ->
  Jwt.truthy (Some a) = true ->
  payment_api w (sent st) a request = Returned reply ->
  signals_expiry reply = false ->
  exists out,
    processPayment request w st = (out, record (PostPayment a request) st) /\
    (ok reply = true \/ reply_status reply = 400 -> out = json reply) /\
    (reply_status reply = 401 ->
     match json reply with
     | Returned _ => out = Thrown authentication_failed
     | Thrown e => out = Thrown e
     end) /\
    (ok reply = false -> reply_status reply <> 400 ->
     reply_status reply <> 401 -> out = Thrown service_unavailable).
Proof.
  intros window Ha Ht Hreply Hquiet.
  destruct st as [m l]. cbn [localStorage sent] in *.
  cbv beta iota zeta delta
    [processPayment getAccessToken fetch_payment parse getItem
     bind ret throw asks record localStorage sent].
  rewrite window. cbv beta iota. rewrite Ha, Ht. cbn [negb Jwt.to_String].
  rewrite Hreply. cbv beta iota.
  unfold signals_expiry in Hquiet. unfold ok.
  destruct (reply_status reply =? 401) eqn:Hstatus; cbv beta iota.
  - apply Z.eqb_eq in Hstatus. cbn [andb] in Hquiet.
    destruct (json reply) as [data|e]; cbv beta iota.
    + rewrite Hquiet. eexists. split; [reflexivity|].
      split; [|split]; [|reflexivity|].
      * rewrite Hstatus. intros [H|H]; discriminate H.
      * intros _ _ H. now contradiction H.
    + eexists. split; [reflexivity|].
      split; [|split]; [|reflexivity|].
      * rewrite Hstatus. intros [H|H]; discriminate H.
      * intros _ _ H. now contradiction H.
  - apply Z.eqb_neq in Hstatus.
    destruct ((200 <=? reply_status reply) && (reply_status reply <=? 299))
      eqn:Hok; cbn [negb andb].
    + eexists. split; [reflexivity|].
      split; [reflexivity|]. split; [intros H; now contradiction Hstatus|].
      discriminate.
    + destruct (reply_status reply =? 400) eqn:Hbad; cbn [negb].
      * eexists. split; [reflexivity|].
        split; [reflexivity|]. split; [intros H; now contradiction Hstatus|].
        apply Z.eqb_eq in Hbad. intros _ H. now contradiction H.
      * eexists. split; [reflexivity|].
        apply Z.eqb_neq in Hbad.
        split; [intros [H|H]; [discriminate H|now contradiction Hbad]|].
        split; [intros H; now contradiction Hstatus|reflexivity].
Qed.

(** The reads of the orders after a 401: the refresh, then one retry or
    the failure. *)
Lemma read_orders_on_401 (st : State) (target : option string)
    (a : Jwt.Str) (reply : Reply OrderService.Body) :
  window_defined w = true ->
  localStorage st !! "accessToken" = Some a ->
  Jwt.truthy (Some a) = true ->
  orders_api w (sent st) a target = Returned reply ->
  reply_status reply = 401 ->
  read_orders target w st
    = match handleTokenRefresh w (record (read_call a target) st) with
      | (Returned new, st2) =>
          if Jwt.truthy new then
            (parsed (orders_api w (sent st2) (Jwt.to_String new) target),
             record (read_call (Jwt.to_String new) target) st2)
          else (Thrown authentication_failed, st2)
      | (Thrown e, st2) => (Thrown e, st2)
      end.
Proof.
  intros window Ha Ht Hreply Hstatus.
  destruct st as [m l]. cbn [localStorage sent] in *.
  destruct target as [orderId|]; cbn [read_orders read_call].
  - cbv beta iota zeta delta
      [getOrderById getAccessToken fetch_order parse getItem
       bind ret throw asks record localStorage sent].
    rewrite window. cbv beta iota. rewrite Ha, Ht.
    cbn [negb Jwt.to_String].
    rewrite Hreply. cbv beta iota. rewrite Hstatus. cbn [Z.eqb Pos.eqb].
    destruct (handleTokenRefresh w _) as [[new|e] st2]; [|reflexivity].
    destruct (Jwt.truthy new); [|reflexivity].
    destruct st2 as [m2 l2]. cbn [sent localStorage].
    unfold parsed.
    destruct (orders_api w l2 (Jwt.to_String new) (Some orderId));
      reflexivity.
  - cbv beta iota zeta delta
      [getOrders getAccessToken fetch_orders parse getItem
       bind ret throw asks record localStorage sent].
    rewrite window. cbv beta iota. rewrite Ha, Ht.
    cbn [negb Jwt.to_String].
    rewrite Hreply. cbv beta iota. rewrite Hstatus. cbn [Z.eqb Pos.eqb].
    destruct (handleTokenRefresh w _) as [[new|e] st2]; [|reflexivity].
    destruct (Jwt.truthy new); [|reflexivity].
    destruct st2 as [m2 l2]. cbn [sent localStorage].
    unfold parsed.
    destruct (orders_api w l2 (Jwt.to_String new) None); reflexivity.
Qed.

(** X25. The reads of the orders refresh on every 401. [getOrders] and
    [getOrderById] hand back the body of any answer that is not a 401.
    On a 401, whatever its body, they try the refresh: when it grants an
    access token the read is sent once more with the new token, which is
    stored, and the answer to that retry is the result; when no refresh
    token is held or the refresh fails, the result is [Authentication
    failed] and the read is not sent again. *)
Theorem X25_order_reads_refresh_on_every_401 (st : State)
    (target : option string) (a : Jwt.Str)
    (reply : Reply OrderService.Body) :
  window_defined w = true ->
  localStorage st !! "accessToken" = Some a ->
  Jwt.truthy (Some a) = true ->
  orders_api w (sent st) a target = Returned reply ->
  (reply_status reply <> 401 ->
   read_orders target w st
     = (json reply, record (read_call a target) st)) /\
  (reply_status reply = 401 ->
   (forall r tokens a',
      localStorage st !! "refreshToken" = Some r ->
      Jwt.truthy (Some r) = true ->
      granted_tokens
        (refresh_api w (sent st ++ [read_call a target])%list r)
        = Some tokens ->
      AuthService.accessToken tokens = Some a' ->
      Jwt.truthy (Some a') = true ->
      exists st',
        read_orders target w st
          = (parsed
               (orders_api w
                  (sent st ++ [read_call a target; PostRefreshToken r])%list
                  a' target),
             st') /\
        sent st'
          = (sent st ++ [read_call a target; PostRefreshToken r;
                         read_call a' target])%list /\
        localStorage st' !! "accessToken" = Some a') /\
   (Jwt.truthy (localStorage st !! "refreshToken") = false ->
    read_orders target w st
      = (Thrown authentication_failed, record (read_call a target) st)) /\
   (forall r,
      localStorage st !! "refreshToken" = Some r ->
      Jwt.truthy (Some r) = true ->
      granted_tokens
        (refresh_api w (sent st ++ [read_call a target])%list r) = None ->
      read_orders target w st
        = (Thrown authentication_failed,
           mkState (localStorage st)
             (sent st ++ [read_call a target; PostRefreshToken r])%list))).
Proof.
  intros window Ha Ht Hreply. split.
  - intros Hstatus. apply Z.eqb_neq in Hstatus.
    destruct st as [m l]. cbn [localStorage sent] in *.
    destruct target as [orderId|]; cbn [read_orders read_call].
    + cbv beta iota zeta delta
        [getOrderById getAccessToken fetch_order parse getItem
         bind ret throw asks record localStorage sent].
      rewrite window. cbv beta iota. rewrite Ha, Ht.
      cbn [negb Jwt.to_String].
      rewrite Hreply. cbv beta iota. now rewrite Hstatus.
    + cbv beta iota zeta delta
        [getOrders getAccessToken fetch_orders parse getItem
         bind ret throw asks record localStorage sent].
      rewrite window. cbv beta iota. rewrite Ha, Ht.
      cbn [negb Jwt.to_String].
      rewrite Hreply. cbv beta iota. now rewrite Hstatus.
  - intros Hstatus.
    pose proof (read_orders_on_401 st target a reply window Ha Ht Hreply
                  Hstatus) as Hrun.
    split; [|split].
    + intros r tokens a' Hr Hrt Hg Ha' Hat'.
      rewrite Hrun.
      rewrite (handleTokenRefresh_granted w (record (read_call a target) st)
                 r tokens window Hr Hrt Hg).
      rewrite Ha', Hat'. cbn [Jwt.to_String sent record localStorage].
      rewrite <- List.app_assoc. cbn [List.app].
      eexists. split; [reflexivity|]. cbn [sent localStorage record].
      split.
      * rewrite <- List.app_assoc. reflexivity.
      * rewrite lookup_insert_ne by discriminate.
        now rewrite lookup_insert_eq.
    + intros Hheld. rewrite Hrun.
      rewrite (handleTokenRefresh_without_token w
                 (record (read_call a target) st) Hheld).
      reflexivity.
    + intros r Hr Hrt Hg. rewrite Hrun.
      rewrite (handleTokenRefresh_refused w (record (read_call a target) st)
                 r window Hr Hrt Hg).
      cbn [Jwt.truthy sent record localStorage].
      rewrite <- List.app_assoc. reflexivity.
Qed.

End ClientRequests.

Lemma X22_witness :
  exists st1 st2,
    Client.saveTokens (Some sample_token) None sample_client_world
      sample_page = (Returned tt, st1) /\
    Client.getRefreshToken sample_client_world st1
      = (Returned (Some (Jwt.Raw "undefined")), st1) /\
    Client.clearTokens sample_client_world st1 = (Returned tt, st2) /\
    Client.getAccessToken sample_client_world st2 = (Returned None, st2).
Proof.
  destruct (X22_token_storage_round_trip sample_client_world sample_page
              (Some sample_token) None eq_refl)
    as (st1 & st2 & Hsave & _ & Hrefresh & Hclear & Haccess & _).
  exists st1, st2.
  split; [exact Hsave|]. split; [exact Hrefresh|].
  split; [exact Hclear|exact Haccess].
Defined.

Lemma X23_witness :
  Client.processPayment (sample_request 200) sample_client_world
    (Client.mkState (<["refreshToken" := sample_token]> ∅) [])
    = (Thrown authentication_required,
       Client.mkState (<["refreshToken" := sample_token]> ∅) []).
Proof.
  apply (X23_without_access_token_nothing_is_sent sample_client_world
           (Client.mkState (<["refreshToken" := sample_token]> ∅) [])
           (sample_request 200) "ORD1").
  right. vm_compute. reflexivity.
Defined.

Lemma X24_witness :
  Client.processPayment (sample_request 200) sample_client_world
    (Client.record (Client.GetOrders sample_token) sample_page)
    = (Thrown service_unavailable,
       Client.record
         (Client.PostPayment
            (Jwt.Jws (Jwt.mkPayload 7 "a@b.c" 1000 4600) "k3y")
            (sample_request 200))
         (Client.record (Client.GetOrders sample_token) sample_page)).
Proof.
  destruct (X24_processPayment_refreshes_on_expiry_only sample_client_world
              (Client.record (Client.GetOrders sample_token) sample_page)
              (sample_request 200)
              (Jwt.Jws (Jwt.mkPayload 7 "a@b.c" 1000 4600) "k3y")
              (Client.mkReply 422
                 (Returned
                    (PaymentService.Failed false "Payment failed" None)))
              eq_refl ltac:(vm_compute; reflexivity) eq_refl eq_refl eq_refl)
    as (out & Hrun & _ & _ & Hother).
  rewrite Hrun.
  rewrite (Hother eq_refl ltac:(discriminate) ltac:(discriminate)).
  reflexivity.
Defined.

Lemma X25_witness :
  exists st',
    Client.getOrders sample_reader_world sample_page
      = (Returned (OrderService.Listing true 0 []), st') /\
    List.length (Client.sent st') = 3%nat.
Proof.
  destruct (X25_order_reads_refresh_on_every_401 sample_reader_world
              sample_page None
              (Jwt.Jws (Jwt.mkPayload 7 "a@b.c" 1000 4600) "k3y")
              (Client.mkReply 401
                 (Returned (OrderService.Denied (body denial_expired))))
              eq_refl ltac:(vm_compute; reflexivity) eq_refl eq_refl)
    as (_ & Hdenied).
  destruct (Hdenied eq_refl) as (Hretry & _).
  destruct (Hretry sample_token
              (AuthService.mkTokens
                 (Some (Jwt.Jws (Jwt.mkPayload 7 "a@b.c" 5001 8601) "k3y"))
                 None)
              (Jwt.Jws (Jwt.mkPayload 7 "a@b.c" 5001 8601) "k3y")
              ltac:(vm_compute; reflexivity) eq_refl
              ltac:(vm_compute; reflexivity) eq_refl eq_refl)
    as (st' & Hrun & Hsent & _).
  exists st'. split; [exact Hrun|]. rewrite Hsent. reflexivity.
Defined.

(* ===================================================================== *)
(** ** The shop page: the cart and the checkout                          *)
(* ===================================================================== *)

Section ShopPage.

Import Shop.

(** Setting the quantities of the lines with id [i]: the shape of the
    two [map]s of the page. *)
Lemma ids_map_quantity (i : Z) (g : Item -> Z) (cart : list Item) :
  ids (List.map
         (fun item =>
            if same_id i item then mkItem (product item) (g item) else item)
         cart)
    = ids cart.
Proof.
  unfold ids. rewrite List.map_map. apply List.map_ext.
  intros item. now destruct (same_id i item).
Qed.

Lemma find_same_id_none (i : Z) (cart : list Item) :
  List.find (same_id i) cart = None -> ~ In i (ids cart).
Proof.
  intros Hnone Hin. unfold ids in Hin.
  apply List.in_map_iff in Hin. destruct Hin as (item & Hid & Hitem).
  pose proof (List.find_none _ _ Hnone item Hitem) as H.
  unfold same_id in H. rewrite Hid, Z.eqb_refl in H. discriminate H.
Qed.

Lemma NoDup_snoc (x : Z) (l : list Z) :
  List.NoDup l -> ~ In x l -> List.NoDup (l ++ [x]).
Proof.
  induction l as [|y l IH]; cbn [List.app]; intros Hl Hx.
  - constructor; [intros []|constructor].
  - apply List.NoDup_cons_iff in Hl. destruct Hl as [Hy Hl].
    apply List.NoDup_cons_iff. split.
    + rewrite List.in_app_iff. intros [H|[H|[]]]; [now apply Hy|].
      apply Hx. left. now symmetry.
    + apply IH; [exact Hl|]. intros H. apply Hx. now right.
Qed.

Lemma NoDup_ids_filter (f : Item -> bool) (cart : list Item) :
  List.NoDup (ids cart) -> List.NoDup (ids (List.filter f cart)).
Proof.
  induction cart as [|x cart IH]; cbn; intros H; [exact H|].
  apply List.NoDup_cons_iff in H. destruct H as [Hx H].
  destruct (f x); cbn; [|now apply IH].
  apply List.NoDup_cons_iff. split; [|now apply IH].
  intros Hin. apply Hx. unfold ids in *.
  apply List.in_map_iff in Hin. destruct Hin as (item & Hid & Hitem).
  apply List.filter_In in Hitem. apply List.in_map_iff.
  exists item. now split.
Qed.

(** One click keeps the lines of the cart distinct, their quantities
    positive and their products among those [P] holds of. *)
Lemma click_keeps_cart (P : Product -> Prop) (c : Click)
    (cart : list Item) :
  (forall p, c = Add p -> P p) ->
  List.NoDup (ids cart) ->
  List.Forall (fun item => 1 <= quantity item /\ P (product item)) cart ->
  List.NoDup (ids (click c cart)) /\
  List.Forall (fun item => 1 <= quantity item /\ P (product item))
    (click c cart).
Proof.
  intros Hadd Hids Hlines.
  destruct c as [p|productId|productId newQuantity]; cbn [click].
  - unfold addToCart.
    destruct (List.find (same_id (id p)) cart) as [found|] eqn:Hfind.
    + split; [now rewrite ids_map_quantity|].
      apply List.Forall_forall. intros item Hin.
      apply List.in_map_iff in Hin. destruct Hin as (old & <- & Hold).
      rewrite List.Forall_forall in Hlines.
      destruct (Hlines old Hold) as [Hq Hp].
      destruct (same_id (id p) old); cbn [quantity product];
        split; [lia|exact Hp|exact Hq|exact Hp].
    + split.
      * unfold ids. rewrite List.map_app. cbn [List.map product].
        apply NoDup_snoc; [exact Hids|].
        now apply find_same_id_none.
      * apply List.Forall_app. split; [exact Hlines|].
        constructor; [|constructor]. cbn [quantity product].
        split; [lia|now apply Hadd].
  - unfold removeFromCart. split; [now apply NoDup_ids_filter|].
    apply List.Forall_forall. intros item Hin.
    apply List.filter_In in Hin. rewrite List.Forall_forall in Hlines.
    now apply Hlines.
  - unfold updateQuantity.
    destruct (newQuantity <=? 0) eqn:Hle.
    + unfold removeFromCart. split; [now apply NoDup_ids_filter|].
      apply List.Forall_forall. intros item Hin.
      apply List.filter_In in Hin. rewrite List.Forall_forall in Hlines.
      now apply Hlines.
    + apply Z.leb_gt in Hle.
      split; [now rewrite (ids_map_quantity _ (fun _ => newQuantity))|].
      apply List.Forall_forall. intros item Hin.
      apply List.in_map_iff in Hin. destruct Hin as (old & <- & Hold).
      rewrite List.Forall_forall in Hlines.
      destruct (Hlines old Hold) as [Hq Hp].
      destruct (same_id productId old); cbn [quantity product];
        split; [lia|exact Hp|exact Hq|exact Hp].
Qed.

(** The same of a whole series of clicks. *)
Lemma shopping_keeps_cart (P : Product -> Prop) (clicks : list Click) :
  (forall p, In (Add p) clicks -> P p) ->
  List.NoDup (ids (shopping clicks)) /\
  List.Forall (fun item => 1 <= quantity item /\ P (product item))
    (shopping clicks).
Proof.
  induction clicks as [|c clicks IH] using List.rev_ind; intros Hadd.
  - split; constructor.
  - unfold shopping. rewrite List.fold_left_app. cbn [fold_left].
    fold (shopping clicks).
    destruct IH as [Hids Hlines].
    { intros p Hp. apply Hadd. apply List.in_or_app. now left. }
    apply click_keeps_cart; [|exact Hids|exact Hlines].
    intros p ->. apply Hadd. apply List.in_or_app. right. now left.
Qed.

(** X26. The cart stays well formed. Whatever the customer clicks,
    starting from the empty cart, no two lines of the cart have the same
    product id, every line has a quantity of at least 1, and every line
    is a product that was added. *)
Theorem X26_cart_lines_stay_distinct_and_positive (clicks : list Click) :
  List.NoDup (ids (shopping clicks)) /\
  List.Forall
    (fun item => 1 <= quantity item /\ In (Add (product item)) clicks)
    (shopping clicks).
Proof.
  apply (shopping_keeps_cart (fun p => In (Add p) clicks)).
  intros p Hp. exact Hp.
Qed.

(** The count of the items, from any start. *)
Lemma getTotalItems_from (cart : list Item) (start : Z) :
  fold_left (fun total item => total + quantity item) cart start
    = start + getTotalItems cart.
Proof.
  unfold getTotalItems. revert start.
  induction cart as [|x cart IH]; intros start; cbn [fold_left]; [lia|].
  rewrite IH, (IH (0 + quantity x)). lia.
Qed.

Lemma getTotalItems_cons (x : Item) (cart : list Item) :
  getTotalItems (x :: cart) = quantity x + getTotalItems cart.
Proof.
  unfold getTotalItems at 1. cbn [fold_left].
  rewrite getTotalItems_from. lia.
Qed.

(** Setting the quantity of the one line with the id of [item]. *)
Lemma getTotalItems_map_quantity (g : Item -> Z) (item : Item)
    (cart : list Item) :
  List.NoDup (ids cart) ->
  In item cart ->
  getTotalItems
    (List.map
       (fun x =>
          if same_id (id (product item)) x
          then mkItem (product x) (g x) else x)
       cart)
    = getTotalItems cart - quantity item + g item.
Proof.
  induction cart as [|x cart IH]; intros Hids Hin; [destruct Hin|].
  cbn [ids List.map] in Hids. apply List.NoDup_cons_iff in Hids.
  destruct Hids as [Hx Hids]. cbn [List.map].
  rewrite !getTotalItems_cons.
  destruct Hin as [->|Hin].
  - unfold same_id at 1. rewrite Z.eqb_refl. cbn [quantity].
    assert (Hrest :
      List.map
        (fun x =>
           if same_id (id (product item)) x
           then mkItem (product x) (g x) else x)
        cart = cart).
    { rewrite <- (List.map_id cart) at 2. apply List.map_ext_in.
      intros y Hy. unfold same_id.
      destruct (id (product y) =? id (product item)) eqn:Heq; [|reflexivity].
      apply Z.eqb_eq in Heq. exfalso. apply Hx. rewrite <- Heq.
      unfold ids. apply List.in_map_iff. now exists y. }
    rewrite Hrest. lia.
  - assert (Hne : same_id (id (product item)) x = false).
    { unfold same_id. apply Z.eqb_neq. intros Heq. apply Hx.
      rewrite Heq. unfold ids. apply List.in_map_iff. now exists item. }
    rewrite Hne, (IH Hids Hin). lia.
Qed.

Lemma getTotalItems_remove (item : Item) (cart : list Item) :
  List.NoDup (ids cart) ->
  In item cart ->
  getTotalItems (removeFromCart (id (product item)) cart)
    = getTotalItems cart - quantity item.
Proof.
  unfold removeFromCart.
  induction cart as [|x cart IH]; intros Hids Hin; [destruct Hin|].
  cbn [ids List.map] in Hids. apply List.NoDup_cons_iff in Hids.
  destruct Hids as [Hx Hids]. cbn [List.filter].
  rewrite getTotalItems_cons.
  destruct Hin as [->|Hin].
  - unfold same_id at 1. rewrite Z.eqb_refl. cbn [negb].
    assert (Hrest :
      List.filter (fun x => negb (same_id (id (product item)) x)) cart
        = cart).
    { clear IH Hids. induction cart as [|y cart IH]; [reflexivity|].
      cbn [List.filter]. unfold same_id at 1.
      destruct (id (product y) =? id (product item)) eqn:Heq; cbn [negb].
      - apply Z.eqb_eq in Heq. exfalso. apply Hx. left. exact Heq.
      - f_equal. apply IH. intros H. apply Hx. now right. }
    rewrite Hrest. lia.
  - assert (Hne : same_id (id (product item)) x = false).
    { unfold same_id. apply Z.eqb_neq. intros Heq. apply Hx.
      rewrite Heq. unfold ids. apply List.in_map_iff. now exists item. }
    rewrite Hne. cbn [negb]. rewrite getTotalItems_cons, (IH Hids Hin). lia.
Qed.

(** X27. Adding a product raises the number of items by exactly one,
    in a cart whose lines have distinct ids: when the cart has a line of
    the product the lines keep their ids, and when it has none a line
    with quantity 1 is appended. *)
Theorem X27_addToCart_adds_one_item (p : Product) (cart : list Item) :
  List.NoDup (ids cart) ->
  getTotalItems (addToCart p cart) = getTotalItems cart + 1 /\
  (In (id p) (ids cart) -> ids (addToCart p cart) = ids cart) /\
  (~ In (id p) (ids cart) -> addToCart p cart = (cart ++ [mkItem p 1])%list).
Proof.
  intros Hids. unfold addToCart.
  destruct (List.find (same_id (id p)) cart) as [found|] eqn:Hfind.
  - apply List.find_some in Hfind. destruct Hfind as [Hin Hsame].
    unfold same_id in Hsame. apply Z.eqb_eq in Hsame.
    split; [|split].
    + rewrite <- Hsame.
      rewrite (getTotalItems_map_quantity (fun x => quantity x + 1) found
                 cart Hids Hin).
      lia.
    + intros _. apply ids_map_quantity.
    + intros Hout. exfalso. apply Hout. rewrite <- Hsame.
      unfold ids. apply List.in_map_iff. now exists found.
  - split; [|split].
    + unfold getTotalItems. rewrite List.fold_left_app. cbn [fold_left].
      reflexivity.
    + intros Hin. exfalso. now apply (find_same_id_none _ _ Hfind).
    + reflexivity.
Qed.

(** X28. Setting the quantity of a line of a cart with distinct ids to
    [q]. When [q] is positive the number of items changes by [q] less
    the line's quantity, the lines keep their ids and the line now has
    quantity [q]. When [q] is 0 or less the call does what
    [removeFromCart] does: the number of items drops by the line's
    quantity and no line with that id is left. *)
Theorem X28_updateQuantity_sets_one_line (item : Item) (q : Z)
    (cart : list Item) :
  List.NoDup (ids cart) ->
  In item cart ->
  getTotalItems (updateQuantity (id (product item)) q cart)
    = getTotalItems cart - quantity item + Z.max 0 q /\
  (q <= 0 ->
   updateQuantity (id (product item)) q cart
     = removeFromCart (id (product item)) cart /\
   ~ In (id (product item))
       (ids (updateQuantity (id (product item)) q cart))) /\
  (0 < q ->
   ids (updateQuantity (id (product item)) q cart) = ids cart /\
   In (mkItem (product item) q)
      (updateQuantity (id (product item)) q cart)).
Proof.
  intros Hids Hin. unfold updateQuantity.
  destruct (q <=? 0) eqn:Hle.
  - apply Z.leb_le in Hle. split; [|split].
    + rewrite (getTotalItems_remove item cart Hids Hin). lia.
    + intros _. split; [reflexivity|].
      unfold removeFromCart, ids. intros H.
      apply List.in_map_iff in H. destruct H as (x & Hid & Hx).
      apply List.filter_In in Hx. destruct Hx as [_ Hx].
      unfold same_id in Hx. rewrite Hid, Z.eqb_refl in Hx.
      discriminate Hx.
    + intros Hq. lia.
  - apply Z.leb_gt in Hle. split; [|split].
    + rewrite (getTotalItems_map_quantity (fun _ => q) item cart Hids Hin).
      lia.
    + intros Hq. lia.
    + intros _. split; [apply (ids_map_quantity _ (fun _ => q))|].
      apply List.in_map_iff. exists item. split; [|exact Hin].
      unfold same_id. now rewrite Z.eqb_refl.
Qed.

(** The total of the lines, from any start, is at least the start when
    prices and quantities are positive. *)
Lemma getTotal_from (cart : list Item) (start : Q) :
  List.Forall
    (fun item => 1 <= quantity item /\ (0 < price (product item))%Q) cart ->
  (start <=
   fold_left
     (fun total item =>
        (total + price (product item) * inject_Z (quantity item))%Q)
     cart start)%Q.
Proof.
  revert start. induction cart as [|x cart IH]; intros start Hlines.
  - apply Qle_refl.
  - cbn [fold_left]. apply List.Forall_cons_iff in Hlines.
    destruct Hlines as [[Hq Hp] Hlines].
    eapply Qle_trans; [|apply IH; exact Hlines].
    rewrite <- (Qplus_0_r start) at 1.
    apply Qplus_le_r. apply Qmult_le_0_compat; [now apply Qlt_le_weak|].
    unfold Qle. cbn. lia.
Qed.

Lemma getTotal_positive (cart : list Item) :
  cart <> [] ->
  List.Forall
    (fun item => 1 <= quantity item /\ (0 < price (product item))%Q) cart ->
  (0 < getTotal cart)%Q.
Proof.
  destruct cart as [|x cart]; [congruence|]. intros _ Hlines.
  unfold getTotal. cbn [fold_left].
  apply List.Forall_cons_iff in Hlines. destruct Hlines as [[Hq Hp] Hlines].
  eapply Qlt_le_trans; [|apply getTotal_from; exact Hlines].
  rewrite Qplus_0_l.
  apply Qmult_lt_0_compat; [exact Hp|]. unfold Qlt. cbn. lia.
Qed.

(** X30. What the shop sends passes the payment service's check of the
    total. When every product added has a positive price and the cart is
    not empty, the request [checkout] builds has a cart, one line for
    each line of the page's cart, and a total that the payment handler
    does not turn down as invalid or missing. *)
Theorem X30_the_shops_total_is_accepted (clicks : list Click) :
  priced clicks ->
  shopping clicks <> [] ->
  PaymentService.invalid_total
    (PaymentService.req_total (payment_request (shopping clicks))) = false /\
  exists lines,
    PaymentService.req_cart (payment_request (shopping clicks))
      = Some lines /\
    List.map item_id lines = ids (shopping clicks).
Proof.
  intros Hpriced Hlines.
  destruct (shopping_keeps_cart (fun p => (0 < price p)%Q) clicks Hpriced)
    as [_ Hcart].
  split.
  - pose proof (getTotal_positive _ Hlines Hcart) as Hpos.
    cbn [payment_request PaymentService.req_total].
    unfold PaymentService.invalid_total, falsy_Q.
    apply orb_false_iff. split.
    + destruct (Qeq_bool (getTotal (shopping clicks)) 0) eqn:Heq;
        [|reflexivity].
      apply Qeq_bool_iff in Heq. rewrite Heq in Hpos.
      now apply Qlt_irrefl in Hpos.
    + destruct (Qle_bool (getTotal (shopping clicks)) 0) eqn:Hle;
        [|reflexivity].
      apply Qle_bool_iff in Hle. now apply Qlt_not_le in Hpos.
  - eexists. split; [reflexivity|].
    unfold ids. rewrite List.map_map. reflexivity.
Qed.

Variable w : Client.World.

(** X29. [checkout] never throws, sends what [processPayment] sends
    and nothing else, and empties the cart only on success. With an
    empty cart it sends nothing and says so. Otherwise it hands the
    request built from the cart to [processPayment], which sends the
    payment request at most twice and the refresh request at most once;
    the cart is emptied and closed, and the success announced with the
    data of the result, exactly when the result reports success with
    data. A result that reports no success is announced as a failure
    with its message, and an error thrown on the way as an error with
    its message; in both cases the page keeps its cart. *)
Theorem X29_checkout_empties_the_cart_only_on_success (page : Page)
    (st : Client.State) :
  (cart page = [] ->
   checkout page w st = (Returned (page, CartEmpty), st)) /\
  (cart page <> [] ->
   exists out st' new page' alert,
     Client.processPayment (payment_request (cart page)) w st
       = (out, st') /\
     Client.sent st' = (Client.sent st ++ new)%list /\
     (sends Client.is_payment new <= 2)%nat /\
     (sends Client.is_refresh new <= 1)%nat /\
     checkout page w st = (Returned (page', alert), st') /\
     ((exists message data,
         out = Returned (PaymentService.Paid true message data) /\
         page' = mkPage [] false /\
         alert = PaymentSuccessful data) \/
      (exists result,
         out = Returned result /\
         (forall message data,
            result <> PaymentService.Paid true message data) /\
         page' = page /\
         alert = PaymentFailed (result_message result)) \/
      (exists e,
         out = Thrown e /\ page' = page /\ alert = PaymentError e))).
Proof.
  unfold checkout. split.
  - intros ->. reflexivity.
  - intros Hfull.
    destruct (cart page) as [|x rest] eqn:Hcart; [contradiction|].
    destruct (processPayment_sends w st (payment_request (x :: rest)))
      as (out & st' & new & Hrun & Hsent & Hpay & Href).
    exists out, st', new.
    unfold try_catch, bind. rewrite Hrun.
    destruct out as [[[|] message data|success message error|denial]|e];
      cbn [ret].
    all: do 2 eexists.
    all: split; [reflexivity|].
    all: split; [exact Hsent|].
    all: split; [exact Hpay|].
    all: split; [exact Href|].
    all: split; [reflexivity|].
    + left. now exists message, data.
    + right. left. eexists. split; [reflexivity|].
      split; [discriminate|]. now split.
    + right. left. eexists. split; [reflexivity|].
      split; [discriminate|]. now split.
    + right. left. eexists. split; [reflexivity|].
      split; [discriminate|]. now split.
    + right. right. now exists e.
Qed.

End ShopPage.

Lemma X27_witness :
  Shop.getTotalItems
    (Shop.addToCart (sample_product 6 2999) sample_cart) = 4.
Proof.
  destruct (X27_addToCart_adds_one_item (sample_product 6 2999) sample_cart)
    as (Hcount & _).
  - vm_compute. repeat constructor; cbn; intuition discriminate.
  - rewrite Hcount. reflexivity.
Defined.

Lemma X28_witness :
  Shop.getTotalItems
    (Shop.updateQuantity 1 0 sample_cart) = 1.
Proof.
  destruct (X28_updateQuantity_sets_one_line
              (Shop.mkItem (sample_product 1 7999) 2) 0 sample_cart)
    as (Hcount & _).
  - vm_compute. repeat constructor; cbn; intuition discriminate.
  - left. reflexivity.
  - exact Hcount.
Defined.

Lemma X30_witness :
  PaymentService.invalid_total
    (PaymentService.req_total
       (Shop.payment_request
          (shopping [Add (sample_product 1 7999);
                     Add (sample_product 1 7999);
                     SetQuantity 1 5])))
    = false.
Proof.
  apply (X30_the_shops_total_is_accepted
           [Add (sample_product 1 7999); Add (sample_product 1 7999);
            SetQuantity 1 5]).
  - intros p [H|[H|[H|[]]]]; try discriminate H.
    all: injection H as <-; reflexivity.
  - vm_compute. discriminate.
Defined.

Lemma X29_witness :
  exists st',
    Shop.checkout (Shop.mkPage sample_cart true) sample_paying_world
      sample_page
      = (Returned (Shop.mkPage [] false, Shop.PaymentSuccessful sample_paid),
         st') /\
    List.length (Client.sent st') = 1%nat.
Proof.
  destruct (X29_checkout_empties_the_cart_only_on_success
              sample_paying_world (Shop.mkPage sample_cart true) sample_page)
    as (_ & Hfull).
  destruct (Hfull ltac:(discriminate))
    as (out & st' & new & page' & alert & Hpaid & _ & _ & _ & Hrun & _).
  exists st'. revert Hpaid Hrun. vm_compute.
  intros [= <- <-] [= <- <-]. split; reflexivity.
Defined.
